(** * TradingServer: the request handlers, their schemas and file intake

    A shallow embedding of the Express/Mongoose backend:
    - [Js]: the JavaScript values, strings and number parsing the handlers use;
    - [Regex]: the regular expressions of the schemas and of the file filter;
    - [Mongoose]: schema casting and validation, read off a schema given as data;
    - [Payment]: models/Payment.js and controller/PaymentController.js;
    - [UserForm]: the user-form schema and the submitForm controller;
    - [Trading]: routes/TradingRoute.js (file intake and the registration handlers).

    Definitions come first; the properties of the handlers follow. *)

From Stdlib Require Import ZArith NArith Bool List String Ascii Decimal Lia.
From Stdlib Require DecimalPos DecimalN DecimalFacts.
From stdpp Require Import base option list gmap sets strings.

Local Open Scope N_scope.

(** ** JavaScript values *)

Module Js.

(** A JavaScript string is a sequence of UTF-16 code units. *)
Abbreviation jsstring := (list N).

(** The code units of an ASCII literal of the source. *)
Fixpoint js (s : string) : jsstring :=
  match s with
  | EmptyString => []
  | String c r => N_of_ascii c :: js r
  end.

Arguments js : simpl never.

(** [\s] of a regular expression, which is also the white space [parseFloat] and
    [String.prototype.trim] strip: WhiteSpace and LineTerminator. *)
Definition isWhiteSpace (c : N) : bool :=
  (c =? 9) || (c =? 10) || (c =? 11) || (c =? 12) || (c =? 13) || (c =? 32)
  || (c =? 160) || (c =? 5760) || ((8192 <=? c) && (c <=? 8202))
  || (c =? 8232) || (c =? 8233) || (c =? 8239) || (c =? 8287)
  || (c =? 12288) || (c =? 65279).

(** LineTerminator: what [.] of a regular expression does not match. *)
Definition isLineTerminator (c : N) : bool :=
  (c =? 10) || (c =? 13) || (c =? 8232) || (c =? 8233).

(** [\d]: the ASCII digits. *)
Definition isDigit (c : N) : bool := (48 <=? c) && (c <=? 57).

Fixpoint takeWhile (p : N -> bool) (s : jsstring) : jsstring :=
  match s with
  | c :: r => if p c then c :: takeWhile p r else []
  | [] => []
  end.

Fixpoint dropWhile (p : N -> bool) (s : jsstring) : jsstring :=
  match s with
  | c :: r => if p c then dropWhile p r else s
  | [] => []
  end.

Fixpoint eqb (a b : jsstring) : bool :=
  match a, b with
  | [], [] => true
  | x :: a', y :: b' => (x =? y) && eqb a' b'
  | _, _ => false
  end.

Fixpoint startsWith (prefix s : jsstring) : bool :=
  match prefix, s with
  | [], _ => true
  | x :: p', y :: s' => (x =? y) && startsWith p' s'
  | _ :: _, [] => false
  end.

(** [String.prototype.includes]: [needle] occurs in [s]. *)
Fixpoint includes (needle s : jsstring) : bool :=
  startsWith needle s ||
  match s with
  | [] => false
  | _ :: r => includes needle r
  end.

(** [Array.prototype.includes] over an array of strings. *)
Definition arrayIncludes (xs : list jsstring) (s : jsstring) : bool :=
  existsb (eqb s) xs.

(** [String.prototype.trim]. *)
Definition trim (s : jsstring) : jsstring :=
  rev (dropWhile isWhiteSpace (rev (dropWhile isWhiteSpace s))).

(** [String.prototype.toLowerCase] on the ASCII letters.  The case mapping of
    the other code units is left out, so a letter such as [É] stays as it is
    where JavaScript gives [é].  This does not touch the file filter: no code
    unit outside ASCII maps to a letter that its patterns name
    ([j p e g n d f]).  It does touch the text that the [lowercase] setter of
    a schema stores, and nothing below is stated of that text. *)
Definition lowerUnit (c : N) : N :=
  if (65 <=? c) && (c <=? 90) then c + 32 else c.

Definition toLowerCase (s : jsstring) : jsstring := map lowerUnit s.

(** [String.prototype.toUpperCase] on one code unit, for the ASCII letters as
    well. *)
Definition upperUnit (c : N) : N :=
  if (97 <=? c) && (c <=? 122) then c - 32 else c.

(** [s.charAt(0).toUpperCase() + s.slice(1)]. *)
Definition capitalize (s : jsstring) : jsstring :=
  match s with
  | [] => []
  | c :: r => upperUnit c :: r
  end.

(** *** Numbers

    A Number is kept as an exact decimal: sign, digits and a power of ten, with
    [Finite neg m e] standing for [(-1)^neg * m * 10^e]; a Number that a
    request holds is given by the digits that [Number::toString] writes for
    it.  The rounding of a
    literal to binary64 is not modelled: [parseFloat] and [parseInt] give the
    number as it is written, where JavaScript gives the nearest Number
    ([9007199254740992] for [9007199254740993], [Infinity] for [1e400], [0]
    for [1e-400]).  The two agree on the decimals of [withinDouble] and on the
    whole numbers of [exactInteger] below, and what is stated of a number that
    was read from a text is stated of those only. *)
Inductive JsNumber :=
| NaN
| Infinity (neg : bool)
| Finite (neg : bool) (m : N) (e : Z).

Definition isNaN (x : JsNumber) : bool :=
  match x with
  | NaN => true
  | _ => false
  end.

Definition digitsValue (ds : jsstring) : N :=
  fold_left (fun acc c => 10 * acc + (c - 48)) ds 0.

(** ExponentPart of a StrDecimalLiteral: read only when it is complete. *)
Definition parseExponent (s : jsstring) : Z :=
  match s with
  | c :: r =>
      if (c =? 101) || (c =? 69) then
        let '(neg, r') :=
          match r with
          | 43 :: r' => (false, r')
          | 45 :: r' => (true, r')
          | _ => (false, r)
          end in
        match takeWhile isDigit r' with
        | [] => 0%Z
        | ds => if neg then (- Z.of_N (digitsValue ds))%Z else Z.of_N (digitsValue ds)
        end
      else 0%Z
  | [] => 0%Z
  end.

(** The longest prefix that is an unsigned StrDecimalLiteral, [NaN] when there
    is none. *)
Definition parseDecimal (neg : bool) (s : jsstring) : JsNumber :=
  let ip := takeWhile isDigit s in
  let r1 := dropWhile isDigit s in
  let '(fp, r2) :=
    match r1 with
    | 46 :: r => (takeWhile isDigit r, dropWhile isDigit r)
    | _ => ([], r1)
    end in
  match ip ++ fp with
  | [] => NaN
  | ds => Finite neg (digitsValue ds) (parseExponent r2 - Z.of_nat (length fp))
  end.

(** [parseFloat] on a string. *)
Definition parseFloat (s : jsstring) : JsNumber :=
  let t := dropWhile isWhiteSpace s in
  let '(neg, u) :=
    match t with
    | 43 :: u => (false, u)
    | 45 :: u => (true, u)
    | _ => (false, t)
    end in
  if startsWith (js "Infinity") u then Infinity neg else parseDecimal neg u.

Fixpoint uintUnits (d : Decimal.uint) : jsstring :=
  match d with
  | Nil => []
  | D0 r => 48 :: uintUnits r
  | D1 r => 49 :: uintUnits r
  | D2 r => 50 :: uintUnits r
  | D3 r => 51 :: uintUnits r
  | D4 r => 52 :: uintUnits r
  | D5 r => 53 :: uintUnits r
  | D6 r => 54 :: uintUnits r
  | D7 r => 55 :: uintUnits r
  | D8 r => 56 :: uintUnits r
  | D9 r => 57 :: uintUnits r
  end.

Definition decimalDigits (n : N) : jsstring := uintUnits (N.to_uint n).

(** Drop the trailing zeros of the digits into the exponent. *)
Fixpoint stripZeros (fuel : nat) (m : N) (e : Z) : N * Z :=
  match fuel with
  | O => (m, e)
  | S fuel' =>
      if (0 <? m) && (m mod 10 =? 0) then stripZeros fuel' (m / 10) (e + 1)%Z
      else (m, e)
  end.

(** Number::toString (radix 10) on the decimal digits. *)
Definition numberToString (x : JsNumber) : jsstring :=
  match x with
  | NaN => js "NaN"
  | Infinity neg => (if neg then js "-" else []) ++ js "Infinity"
  | Finite neg m e =>
      if m =? 0 then js "0"
      else
        let '(s, e') := stripZeros (N.to_nat (N.size m)) m e in
        let ds := decimalDigits s in
        let k := Z.of_nat (length ds) in
        let n := (k + e')%Z in
        (if neg then js "-" else []) ++
        (if ((k <=? n) && (n <=? 21))%Z then ds ++ repeat 48 (Z.to_nat (n - k))
         else if ((0 <? n) && (n <=? 21))%Z then
           take (Z.to_nat n) ds ++ js "." ++ drop (Z.to_nat n) ds
         else if ((-6 <? n) && (n <=? 0))%Z then
           js "0." ++ repeat 48 (Z.to_nat (- n)) ++ ds
         else
           let ex := (n - 1)%Z in
           let exs := (if (ex <? 0)%Z then js "-" else js "+")
                      ++ decimalDigits (Z.abs_N ex) in
           match ds with
           | [] => []
           | [d] => [d] ++ js "e" ++ exs
           | d :: rest => [d] ++ js "." ++ rest ++ js "e" ++ exs
           end)
  end.

(** The decimals on which the exact reading agrees with binary64: [NaN], the
    infinities, zero, and a decimal of at most 15 significant digits with a
    magnitude from 1e-300 to 1e300.  Binary64 tells any two of these apart
    (it holds 15 decimal digits), so of the decimals that round to the Number
    of such a decimal it is the shortest, and that is the one
    [Number::toString] writes. *)
Definition withinDouble (x : JsNumber) : bool :=
  match x with
  | Finite _ m e =>
      (m =? 0) ||
      (let '(s, e') := stripZeros (N.to_nat (N.size m)) m e in
       let k := Z.of_nat (length (decimalDigits s)) in
       (k <=? 15)%Z && (-300 <=? k + e')%Z && (k + e' <=? 300)%Z)
  | _ => true
  end.

(** The whole numbers that binary64 holds exactly whatever their digits:
    those up to 2^53 in magnitude. *)
Definition exactInteger (z : Z) : Prop := (- 2 ^ 53 <= z <= 2 ^ 53)%Z.

(** The digits of [parseInt] in radix 16. *)
Definition isHexDigit (c : N) : bool :=
  isDigit c || ((97 <=? c) && (c <=? 102)) || ((65 <=? c) && (c <=? 70)).

Definition hexDigitValue (c : N) : N :=
  if isDigit c then c - 48 else if 97 <=? c then c - 87 else c - 55.

Definition hexDigitsValue (ds : jsstring) : N :=
  fold_left (fun acc c => 16 * acc + hexDigitValue c) ds 0.

(** [parseInt] on a string, without a radix: leading white space, a sign, a
    [0x] or [0X] that makes the radix 16, and the longest run of digits of
    the radix; [None] is [NaN].  The whole number is kept as it is written;
    like the rounding of a literal, its rounding to binary64 is not modelled,
    so the result is the one of JavaScript for an [exactInteger] only. *)
Definition parseInt (s : jsstring) : option Z :=
  let t := dropWhile isWhiteSpace s in
  let '(neg, u) :=
    match t with
    | 43 :: u => (false, u)
    | 45 :: u => (true, u)
    | _ => (false, t)
    end in
  let '(hex, v) :=
    match u with
    | 48 :: 120 :: v => (true, v)
    | 48 :: 88 :: v => (true, v)
    | _ => (false, u)
    end in
  match takeWhile (if hex then isHexDigit else isDigit) v with
  | [] => None
  | ds =>
      let n := if hex then hexDigitsValue ds else digitsValue ds in
      Some (if neg then - Z.of_N n else Z.of_N n)%Z
  end.

(** *** Values of a request body

    What a parsed JSON or multipart body holds.  [JObject] is an array, or an
    object that holds no string under [_id] (Mongoose casts an object that
    holds one to that string; such a value is not among these, and nothing
    below is stated of it); a handler of this program only tests its
    truthiness, its type and the string [ToString] gives for it, which it
    carries. *)
Inductive JsValue :=
| JUndefined
| JNull
| JBool (b : bool)
| JNum (n : JsNumber)
| JStr (s : jsstring)
| JObject (rendering : jsstring).

(** ToBoolean: [!v] is [negb (truthy v)]. *)
Definition truthy (v : JsValue) : bool :=
  match v with
  | JUndefined | JNull => false
  | JBool b => b
  | JNum NaN => false
  | JNum (Infinity _) => true
  | JNum (Finite _ m _) => negb (m =? 0)
  | JStr s => negb (eqb s [])
  | JObject _ => true
  end.

(** ToString. *)
Definition toString (v : JsValue) : jsstring :=
  match v with
  | JUndefined => js "undefined"
  | JNull => js "null"
  | JBool true => js "true"
  | JBool false => js "false"
  | JNum n => numberToString n
  | JStr s => s
  | JObject r => r
  end.

(** Values of a stored document. *)
Inductive Stored :=
| VNull
| VBool (b : bool)
| VNum (n : JsNumber)
| VStr (s : jsstring)
| VDate (t : Z).

End Js.

(** ** Regular expressions *)

Module Regex.
Import Js.

(** The body of a pattern.  [Cls p] is a character class, given by its
    membership test. *)
Inductive regex :=
| Void
| Eps
| Cls (p : N -> bool)
| Cat (a b : regex)
| Alt (a b : regex)
| Star (a : regex).

Fixpoint nullable (r : regex) : bool :=
  match r with
  | Void => false
  | Eps => true
  | Cls _ => false
  | Cat a b => nullable a && nullable b
  | Alt a b => nullable a || nullable b
  | Star _ => true
  end.

(** What is left of [r] after the code unit [c]. *)
Fixpoint deriv (c : N) (r : regex) : regex :=
  match r with
  | Void => Void
  | Eps => Void
  | Cls p => if p c then Eps else Void
  | Cat a b =>
      if nullable a then Alt (Cat (deriv c a) b) (deriv c b)
      else Cat (deriv c a) b
  | Alt a b => Alt (deriv c a) (deriv c b)
  | Star a => Cat (deriv c a) (Star a)
  end.

(** [r] matches the whole of [s]. *)
Fixpoint matches (r : regex) (s : jsstring) : bool :=
  match s with
  | [] => nullable r
  | c :: s' => matches (deriv c r) s'
  end.

(** The strings a pattern denotes. *)
Inductive Matches : regex -> jsstring -> Prop :=
| MEps : Matches Eps []
| MCls (p : N -> bool) (c : N) : p c = true -> Matches (Cls p) [c]
| MCat (a b : regex) (s t : jsstring) :
    Matches a s -> Matches b t -> Matches (Cat a b) (s ++ t)
| MAltL (a b : regex) (s : jsstring) : Matches a s -> Matches (Alt a b) s
| MAltR (a b : regex) (s : jsstring) : Matches b s -> Matches (Alt a b) s
| MStar0 (a : regex) : Matches (Star a) []
| MStarS (a : regex) (s t : jsstring) :
    Matches a s -> Matches (Star a) t -> Matches (Star a) (s ++ t).

Definition chr (c : N) : regex := Cls (N.eqb c).

(** A literal run of characters. *)
Fixpoint lit (s : jsstring) : regex :=
  match s with
  | [] => Eps
  | c :: r => Cat (chr c) (lit r)
  end.

Definition any : regex := Cls (fun _ => true).

(** [.] *)
Definition dot : regex := Cls (fun c => negb (isLineTerminator c)).

(** [\d] *)
Definition digit : regex := Cls isDigit.

(** [r+] *)
Definition plus (r : regex) : regex := Cat r (Star r).

(** [r{n}] *)
Fixpoint rep (n : nat) (r : regex) : regex :=
  match n with
  | O => Eps
  | S n' => Cat r (rep n' r)
  end.

(** A RegExp literal: its source text, its body, and whether the body stands
    between [^] and [$]. *)
Record RegExp := {
  source : jsstring;
  anchored : bool;
  body : regex
}.

(** [RegExp.prototype.test]: the whole string for an anchored pattern, some
    substring otherwise. *)
Definition test (re : RegExp) (s : jsstring) : bool :=
  if anchored re then matches (body re) s
  else matches (Cat (Star any) (Cat (body re) (Star any))) s.

End Regex.

(** ** Mongoose: casting and validation by a schema *)

Module Mongoose.
Import Js Regex.

(** What the handlers read from the process around them: the clock
    ([Date.now], [new Date()]), the conversion of a value to a date
    ([new Date(v)], which rests on [Date.parse] and is implementation-defined
    outside the standard format; [None] for an invalid date), and
    [LocalTZA(t, isUTC)], the offset of local time from UTC at the time [t],
    which is a UTC time or a local one. *)
Record Runtime := {
  now : Z;
  toDate : JsValue -> option Z;
  localTZA : Z -> bool -> Z
}.

Inductive SchemaType := TString | TDate | TBoolean.

(** The options of a path, as the schema literal lists them. *)
Inductive PathOption :=
| type (t : SchemaType)
| required (message : option jsstring)
| trim
| lowercase
| minlength (n : nat) (message : jsstring)
| maxlength (n : nat) (message : jsstring)
| match_ (re : RegExp) (message : jsstring)
| enum (values : list jsstring)
| validate (validator : Runtime -> Stored -> bool) (message : jsstring)
| default (value : Runtime -> Stored).

Record Schema := {
  paths : list (string * list PathOption);
  timestamps : bool
}.

(** A path of a document under construction: unset, set, or set to a value
    that its type cannot hold. *)
Inductive Cast :=
| Absent
| Value (v : Stored)
| Failed.

Inductive PathError :=
| ValidatorError (message : jsstring)
| CastError (kind : SchemaType).

Fixpoint typeOf (opts : list PathOption) : SchemaType :=
  match opts with
  | type t :: _ => t
  | _ :: r => typeOf r
  | [] => TString
  end.

(** The numbers 1 and 0, whatever their spelling. *)
Definition isOne (x : JsNumber) : bool :=
  match x with
  | Finite false m e =>
      let '(s, e') := stripZeros (N.to_nat (N.size m)) m e in
      (s =? 1) && (e' =? 0)%Z
  | _ => false
  end.

Definition isZero (x : JsNumber) : bool :=
  match x with
  | Finite _ m _ => m =? 0
  | _ => false
  end.

(** Cast to String: [toString()] of a primitive; an array is refused, and so
    is an object, whose [toString] is that of [Object.prototype] (a
    [JObject] holds no string [_id], which the cast would take in the
    object's place). *)
Definition castString (v : JsValue) : Cast :=
  match v with
  | JUndefined => Absent
  | JNull => Value VNull
  | JObject _ => Failed
  | _ => Value (VStr (toString v))
  end.

(** Cast to Boolean: the values Mongoose converts to [true] and to [false]. *)
Definition castBoolean (v : JsValue) : Cast :=
  match v with
  | JUndefined => Absent
  | JNull => Value VNull
  | JBool b => Value (VBool b)
  | JStr s =>
      if arrayIncludes [js "true"; js "1"; js "yes"] s then Value (VBool true)
      else if arrayIncludes [js "false"; js "0"; js "no"] s then Value (VBool false)
      else Failed
  | JNum n =>
      if isOne n then Value (VBool true)
      else if isZero n then Value (VBool false)
      else Failed
  | JObject _ => Failed
  end.

(** Cast to Date: the empty string is [null], a boolean is refused, anything
    else goes through [new Date]. *)
Definition castDate (rt : Runtime) (v : JsValue) : Cast :=
  match v with
  | JUndefined => Absent
  | JNull => Value VNull
  | JStr [] => Value VNull
  | JBool _ => Failed
  | _ =>
      match toDate rt v with
      | Some t => Value (VDate t)
      | None => Failed
      end
  end.

Definition cast (rt : Runtime) (t : SchemaType) (v : JsValue) : Cast :=
  match t with
  | TString => castString v
  | TDate => castDate rt v
  | TBoolean => castBoolean v
  end.

(** The setters [trim] and [lowercase] of a String path. *)
Definition applySetter (o : PathOption) (v : Stored) : Stored :=
  match o, v with
  | trim, VStr s => VStr (Js.trim s)
  | lowercase, VStr s => VStr (toLowerCase s)
  | _, _ => v
  end.

Definition applySetters (opts : list PathOption) (v : Stored) : Stored :=
  fold_left (fun acc o => applySetter o acc) opts v.

Fixpoint defaultOf (opts : list PathOption) : option (Runtime -> Stored) :=
  match opts with
  | default d :: _ => Some d
  | _ :: r => defaultOf r
  | [] => None
  end.

(** The value of a path of [new Model(input)]: cast to the path's type, passed
    through the setters, or the default when the input leaves it undefined. *)
Definition prepare (rt : Runtime) (opts : list PathOption) (v : JsValue) : Cast :=
  match cast rt (typeOf opts) v with
  | Absent =>
      match defaultOf opts with
      | Some d => Value (d rt)
      | None => Absent
      end
  | Value x => Value (applySetters opts x)
  | Failed => Failed
  end.

(** [checkRequired] of each type. *)
Definition checkRequired (t : SchemaType) (c : Cast) : bool :=
  match t, c with
  | TString, Value (VStr s) => negb (eqb s [])
  | TDate, Value (VDate _) => true
  | TBoolean, Value (VBool _) => true
  | _, _ => false
  end.

Definition requiredMessage (name : string) (message : option jsstring) : jsstring :=
  match message with
  | Some m => m
  | None => js "Path `" ++ js name ++ js "` is required."
  end.

Definition enumMessage (name : string) (v : jsstring) : jsstring :=
  js "`" ++ v ++ js "` is not a valid enum value for path `" ++ js name ++ js "`.".

(** One validator on a value that is set ([null] included); [None] when it
    passes. *)
Definition runValidator (rt : Runtime) (name : string) (o : PathOption) (v : Stored)
  : option jsstring :=
  match o with
  | minlength n m =>
      match v with
      | VStr s => if (n <=? length s)%nat then None else Some m
      | _ => None
      end
  | maxlength n m =>
      match v with
      | VStr s => if (length s <=? n)%nat then None else Some m
      | _ => None
      end
  | match_ re m =>
      match v with
      | VStr (c :: s) => if test re (c :: s) then None else Some m
      | _ => None
      end
  | enum values =>
      match v with
      | VStr s => if arrayIncludes values s then None else Some (enumMessage name s)
      | _ => None
      end
  | validate f m => if f rt v then None else Some m
  | _ => None
  end.

Fixpoint firstFailure (rt : Runtime) (name : string) (opts : list PathOption) (v : Stored)
  : option jsstring :=
  match opts with
  | [] => None
  | o :: r =>
      match runValidator rt name o v with
      | Some m => Some m
      | None => firstFailure rt name r v
      end
  end.

Fixpoint requiredOf (opts : list PathOption) : option (option jsstring) :=
  match opts with
  | required m :: _ => Some m
  | _ :: r => requiredOf r
  | [] => None
  end.

(** The error of a path, if any: a failed cast, then the required validator,
    then the other validators in the order of the schema, which run only on a
    path that is set; the first failure is the path's error. *)
Definition check (rt : Runtime) (name : string) (opts : list PathOption) (c : Cast)
  : option PathError :=
  match c with
  | Failed => Some (CastError (typeOf opts))
  | _ =>
      match requiredOf opts, checkRequired (typeOf opts) c with
      | Some m, false => Some (ValidatorError (requiredMessage name m))
      | _, _ =>
          match c with
          | Value v => ValidatorError <$> firstFailure rt name opts v
          | _ => None
          end
      end
  end.

Definition field (input : gmap string JsValue) (name : string) : JsValue :=
  match input !! name with
  | Some v => v
  | None => JUndefined
  end.

(** The error of a path of [new Model(input)], if any. *)
Definition checkPath (rt : Runtime) (input : gmap string JsValue)
  : string * list PathOption -> option (string * PathError) :=
  fun '(name, opts) =>
    pair name <$> check rt name opts (prepare rt opts (field input name)).

(** The value of a path of [new Model(input)], when it is set. *)
Definition setPath (rt : Runtime) (input : gmap string JsValue)
  : string * list PathOption -> option (string * Stored) :=
  fun '(name, opts) =>
    match prepare rt opts (field input name) with
    | Value v => Some (name, v)
    | _ => None
    end.

(** [doc.validate()]: the errors by path, in the order of the schema. *)
Definition validateDoc (rt : Runtime) (S : Schema) (input : gmap string JsValue)
  : list (string * PathError) :=
  omap (checkPath rt input) (paths S).

(** The stored document: the paths that are set, and the time stamps. *)
Definition document (rt : Runtime) (S : Schema) (input : gmap string JsValue)
  : gmap string Stored :=
  let stamps :=
    if timestamps S
    then [("createdAt"%string, VDate (now rt)); ("updatedAt"%string, VDate (now rt))]
    else [] in
  list_to_map (omap (setPath rt input) (paths S) ++ stamps).

(** The options the schema gives a path. *)
Fixpoint optionsOf (ps : list (string * list PathOption)) (name : string)
  : list PathOption :=
  match ps with
  | [] => []
  | (k, opts) :: r => if String.eqb k name then opts else optionsOf r name
  end.

(** The value and the error of one path of [new Model(input)]. *)
Definition valueOf (rt : Runtime) (S : Schema) (input : gmap string JsValue)
    (name : string) : Cast :=
  prepare rt (optionsOf (paths S) name) (field input name).

Definition errorOf (rt : Runtime) (S : Schema) (input : gmap string JsValue)
    (name : string) : option PathError :=
  check rt name (optionsOf (paths S) name) (valueOf rt S input name).

(** The messages a path's validators are declared with. *)
Fixpoint messagesOf (name : string) (opts : list PathOption) : list jsstring :=
  match opts with
  | [] => []
  | required m :: r => requiredMessage name m :: messagesOf name r
  | minlength _ m :: r => m :: messagesOf name r
  | maxlength _ m :: r => m :: messagesOf name r
  | match_ _ m :: r => m :: messagesOf name r
  | validate _ m :: r => m :: messagesOf name r
  | _ :: r => messagesOf name r
  end.

Inductive SaveResult :=
| Saved (doc : gmap string Stored)
| ValidationError (errors : list (string * PathError)).

(** [new Model(input).save()], without the write itself: the document to
    store, or the validation error thrown (the store is taken to accept
    every write; [_id] and [__v] are left out of the document). *)
Definition save (rt : Runtime) (S : Schema) (input : gmap string JsValue) : SaveResult :=
  match validateDoc rt S input with
  | [] => Saved (document rt S input)
  | errors => ValidationError errors
  end.

End Mongoose.

(** ** Uploaded files and the disk *)

Module Multer.
Import Js.

(** A file as multer's disk storage leaves it in [req.files]. *)
Record File := {
  fieldname : string;
  originalname : jsstring;
  mimetype : jsstring;
  size : N;
  filename : jsstring;
  path : jsstring
}.

(** [req.files] of [upload.fields]: the files by field name, in the order of
    arrival. *)
Abbreviation Files := (list (string * list File)).

Fixpoint filesOf (files : Files) (name : string) : option (list File) :=
  match files with
  | [] => None
  | (k, fs) :: r => if String.eqb k name then Some fs else filesOf r name
  end.

(** [Object.values(req.files).flat()] *)
Definition allFiles (files : Files) : list File := concat (snd <$> files).

(** The disk: the paths that exist. *)
Abbreviation Disk := (gset jsstring).

Definition existsSync (disk : Disk) (p : jsstring) : bool := bool_decide (p ∈ disk).

Definition unlinkSync (disk : Disk) (p : jsstring) : Disk := disk ∖ {[ p ]}.

(** [if (fs.existsSync(p)) fs.unlinkSync(p)] over a list of paths. *)
Definition unlinkExisting (disk : Disk) (ps : list jsstring) : Disk :=
  fold_left (fun d p => if existsSync d p then unlinkSync d p else d) ps disk.

End Multer.

(** ** Payments: models/Payment.js and controller/PaymentController.js *)

Module Payment.
Import Js Regex Mongoose.

Definition PaymentSchema : Schema := {|
  paths := [
    ("userName"%string, [type TString; required None]);
    ("courseName"%string, [type TString; required None]);
    ("amount"%string, [type TString; required None]);
    ("paymentStatus"%string,
      [type TString;
       enum [js "Paid"; js "Pending"; js "Failed"];
       default (fun _ => VStr (js "Pending"))]);
    ("userPhone"%string, [type TString]);
    ("userEmail"%string, [type TString]);
    ("createdAt"%string, [type TDate; default (fun rt => VDate (now rt))])
  ];
  timestamps := false
|}.

(** The body of a response: [{ message }] or [{ message, error }]. *)
Record Response := {
  status : nat;
  message : jsstring;
  error : option (list (string * PathError))
}.

(** [/[₹,\s]/] *)
Definition currencyNoise (c : N) : bool :=
  (c =? 8377) || (c =? 44) || isWhiteSpace c.

(** [amount.replace(/[₹,\s]/g, '')] *)
Definition stripCurrency (s : jsstring) : jsstring :=
  filter (fun c => negb (currencyNoise c)) s.

(** [cleanAmount] of [savePayment]. *)
Definition cleanAmount (amount : JsValue) : JsNumber :=
  match amount with
  | JStr s => parseFloat (stripCurrency s)
  | _ => parseFloat (toString amount)
  end.

Definition requiredReply : Response :=
  {| status := 400;
     message := js "userName, courseName, amount, and paymentStatus are required";
     error := None |}.

Definition invalidAmountReply : Response :=
  {| status := 400;
     message := js "Invalid amount format. Please provide a valid number.";
     error := None |}.

(** [savePayment]: the response and the collection after the request. *)
Definition savePayment (rt : Runtime) (body : gmap string JsValue)
    (payments : list (gmap string Stored))
  : Response * list (gmap string Stored) :=
  let userName := field body "userName" in
  let courseName := field body "courseName" in
  let amount := field body "amount" in
  let paymentStatus := field body "paymentStatus" in
  let userPhone := field body "userPhone" in
  let userEmail := field body "userEmail" in
  if negb (truthy userName) || negb (truthy courseName)
     || negb (truthy amount) || negb (truthy paymentStatus)
  then (requiredReply, payments)
  else
    let clean := cleanAmount amount in
    if isNaN clean then (invalidAmountReply, payments)
    else
      let newPayment : gmap string JsValue :=
        <["userName"%string := userName]>
        (<["courseName"%string := courseName]>
        (<["amount"%string := JNum clean]>
        (<["paymentStatus"%string := paymentStatus]>
        (<["userPhone"%string := userPhone]>
        (<["userEmail"%string := userEmail]> ∅))))) in
      match save rt PaymentSchema newPayment with
      | Saved doc =>
          ({| status := 201; message := js "Payment saved successfully"; error := None |},
           payments ++ [doc])
      | ValidationError errors =>
          ({| status := 500; message := js "Server Error"; error := Some errors |},
           payments)
      end.

End Payment.

(** ** Generic registration: the user-form schema and submitForm *)

Module UserForm.
Import Js Regex Mongoose Multer.

(** [/.+@.+\..+/] *)
Definition emailPattern : RegExp := {|
  source := js ".+@.+\..+";
  anchored := false;
  body := Cat (plus dot) (Cat (chr 64) (Cat (plus dot) (Cat (chr 46) (plus dot))))
|}.

(** [/^\d{n}$/] *)
Definition digitsPattern (n : nat) : RegExp := {|
  source := js "^\d{" ++ decimalDigits (N.of_nat n) ++ js "}$";
  anchored := true;
  body := rep n digit
|}.

Definition inThePast (rt : Runtime) (value : Stored) : bool :=
  match value with
  | VDate t => (t <? now rt)%Z
  | VNull => (0 <? now rt)%Z
  | _ => false
  end.

Definition isTrue (rt : Runtime) (v : Stored) : bool :=
  match v with
  | VBool true => true
  | _ => false
  end.

Definition userFormSchema : Schema := {|
  paths := [
    ("firstName"%string,
      [type TString; required (Some (js "First name is required")); trim;
       minlength 2 (js "First name must be at least 2 characters");
       maxlength 50 (js "First name cannot exceed 50 characters")]);
    ("lastName"%string,
      [type TString; required (Some (js "Last name is required")); trim;
       minlength 2 (js "Last name must be at least 2 characters");
       maxlength 50 (js "Last name cannot exceed 50 characters")]);
    ("email"%string,
      [type TString; required (Some (js "Email is required")); trim; lowercase;
       match_ emailPattern (js "Please enter a valid email address")]);
    ("phone"%string,
      [type TString; required (Some (js "Phone number is required"));
       match_ (digitsPattern 10) (js "Phone number must be 10 digits")]);
    ("dateOfBirth"%string,
      [type TDate; required (Some (js "Date of birth is required"));
       validate inThePast (js "Date of birth must be in the past")]);
    ("address"%string,
      [type TString; required (Some (js "Address is required"));
       minlength 5 (js "Address must be at least 5 characters")]);
    ("city"%string, [type TString; required (Some (js "City is required"))]);
    ("state"%string, [type TString; required (Some (js "State is required"))]);
    ("pincode"%string,
      [type TString; required (Some (js "Pincode is required"));
       match_ (digitsPattern 6) (js "Pincode must be 6 digits")]);
    ("aadharNumber"%string,
      [type TString; required (Some (js "Aadhar number is required"));
       match_ (digitsPattern 12) (js "Aadhar number must be 12 digits")]);
    ("aadharFile"%string,
      [type TString; required (Some (js "Aadhar file is required"))]);
    ("signatureFile"%string,
      [type TString; required (Some (js "Signature file is required"))]);
    ("agreeTerms"%string,
      [type TBoolean; required (Some (js "You must agree to the terms"));
       validate isTrue (js "You must accept the terms and conditions")]);
    ("agreeMarketing"%string, [type TBoolean; default (fun _ => VBool false)])
  ];
  timestamps := true
|}.

(** The rules of the data model for a user form, as properties of the value
    of a path; they are what the schema above is held against. *)
Definition lengthBetween (lo hi : nat) (c : Cast) : Prop :=
  exists s, c = Value (VStr s) /\ (lo <= length s <= hi)%nat.

Definition lengthAtLeast (lo : nat) (c : Cast) : Prop :=
  exists s, c = Value (VStr s) /\ (lo <= length s)%nat.

Definition matchesPattern (re : RegExp) (c : Cast) : Prop :=
  exists s, c = Value (VStr s) /\ s <> [] /\ test re s = true.

Definition digitsExactly (n : nat) (c : Cast) : Prop :=
  exists s, c = Value (VStr s) /\ length s = n /\ Forall (fun d => 48 <= d <= 57) s.

Definition dateBefore (t : Z) (c : Cast) : Prop :=
  exists d, c = Value (VDate d) /\ (d < t)%Z.

Definition present (c : Cast) : Prop :=
  exists s, c = Value (VStr s) /\ s <> [].

Definition isLiteralTrue (c : Cast) : Prop := c = Value (VBool true).

Definition castable (c : Cast) : Prop := c <> Failed.

(** The rules by path: the ones the data model lists, and the cast of
    [agreeMarketing]. *)
Definition userFormRules (rt : Runtime) : list (string * (Cast -> Prop)) :=
  [("firstName", lengthBetween 2 50); ("lastName", lengthBetween 2 50);
   ("email", matchesPattern emailPattern);
   ("phone", digitsExactly 10);
   ("dateOfBirth", dateBefore (now rt));
   ("address", lengthAtLeast 5);
   ("city", present); ("state", present);
   ("pincode", digitsExactly 6);
   ("aadharNumber", digitsExactly 12);
   ("aadharFile", present); ("signatureFile", present);
   ("agreeTerms", isLiteralTrue);
   ("agreeMarketing", castable)]%string.

(** What [submitForm] reads of a request, and the state it runs in: the disk
    the upload middleware wrote to and the collection of forms. *)
Record Request := {
  body : gmap string JsValue;
  files : option Files
}.

Record State := {
  disk : Disk;
  forms : list (gmap string Stored)
}.

Record Response := {
  status : nat;
  message : jsstring
}.

(** [req.files?.<name>?.[0]?.path || null] *)
Definition uploadedPath (req : Request) (name : string) : JsValue :=
  match files req with
  | Some fs =>
      match filesOf fs name with
      | Some (f :: _) => if eqb (path f) [] then JNull else JStr (path f)
      | _ => JNull
      end
  | None => JNull
  end.

(** [v === 'true'] *)
Definition isStringTrue (v : JsValue) : bool :=
  match v with
  | JStr s => eqb s (js "true")
  | _ => false
  end.

(** The document [submitForm] hands to [new UserForm]. *)
Definition newUser (req : Request) : gmap string JsValue :=
  let b := body req in
  <["firstName"%string := field b "firstName"]>
  (<["lastName"%string := field b "lastName"]>
  (<["email"%string := field b "email"]>
  (<["phone"%string := field b "phone"]>
  (<["dateOfBirth"%string := field b "dateOfBirth"]>
  (<["address"%string := field b "address"]>
  (<["city"%string := field b "city"]>
  (<["state"%string := field b "state"]>
  (<["pincode"%string := field b "pincode"]>
  (<["aadharNumber"%string := field b "aadharNumber"]>
  (<["aadharFile"%string := uploadedPath req "aadharFile"]>
  (<["signatureFile"%string := uploadedPath req "signatureFile"]>
  (<["agreeTerms"%string := JBool (isStringTrue (field b "agreeTerms"))]>
  (<["agreeMarketing"%string := JBool (isStringTrue (field b "agreeMarketing"))]>
   ∅))))))))))))).

(** [submitForm]: the response and the state after the request. *)
Definition submitForm (rt : Runtime) (req : Request) (st : State) : Response * State :=
  let b := body req in
  let aadharFile := uploadedPath req "aadharFile" in
  let signatureFile := uploadedPath req "signatureFile" in
  if negb (truthy (field b "firstName")) || negb (truthy (field b "lastName"))
     || negb (truthy (field b "email"))
     || negb (truthy aadharFile) || negb (truthy signatureFile)
  then ({| status := 400; message := js "Missing required fields or files." |}, st)
  else
    match save rt userFormSchema (newUser req) with
    | Saved doc =>
        ({| status := 201; message := js "Form submitted successfully!" |},
         {| disk := disk st; forms := forms st ++ [doc] |})
    | ValidationError _ =>
        ({| status := 500; message := js "Something went wrong. Please try again." |}, st)
    end.

End UserForm.

(** ** Trading registrations: routes/TradingRoute.js *)

Module Trading.
Import Js Regex Mongoose Multer.

(** *** File intake *)

(** A file part of a multipart request that multer takes up, before it is
    stored.  Multer passes over a file part that has no filename (its stream
    is drained and nothing is counted, filtered or stored), so the file parts
    of a request are those that have one: [named].  [contentType] is the
    declared type as multer hands it on in [file.mimetype].  [uniqueSuffix]
    is [Date.now() + '-' + Math.round(Math.random() * 1E9)], drawn when the
    part arrives. *)
Record Upload := {
  field : string;
  name : jsstring;
  named : match name with [] => False | _ :: _ => True end;
  contentType : jsstring;
  bytes : N;
  uniqueSuffix : jsstring
}.

(** [destination] of the disk storage. *)
Definition destination (fieldname : string) : jsstring :=
  js "uploads/" ++
  (if String.eqb fieldname "aadharFile" then js "aadhar/"
   else if String.eqb fieldname "signatureFile" then js "signatures/"
   else js "misc/").

(** The scan of [path.extname] (POSIX), from the last code unit to the first. *)
Record ExtScan := {
  startDot : option nat;
  startPart : nat;
  endPart : option nat;
  matchedSlash : bool;
  preDotState : Z
}.

(** [rs] holds the code units before position [length rs], last one first. *)
Fixpoint extScan (rs : jsstring) (st : ExtScan) : ExtScan :=
  match rs with
  | [] => st
  | c :: rs' =>
      let i := length rs' in
      if c =? 47 then
        if matchedSlash st then extScan rs' st
        else {| startDot := startDot st; startPart := S i; endPart := endPart st;
                matchedSlash := false; preDotState := preDotState st |}
      else
        let st1 :=
          match endPart st with
          | None => {| startDot := startDot st; startPart := startPart st;
                       endPart := Some (S i); matchedSlash := false;
                       preDotState := preDotState st |}
          | Some _ => st
          end in
        let st2 :=
          if c =? 46 then
            match startDot st1 with
            | None => {| startDot := Some i; startPart := startPart st1;
                         endPart := endPart st1; matchedSlash := matchedSlash st1;
                         preDotState := preDotState st1 |}
            | Some _ => {| startDot := startDot st1; startPart := startPart st1;
                           endPart := endPart st1; matchedSlash := matchedSlash st1;
                           preDotState := 1 |}
            end
          else
            match startDot st1 with
            | Some _ => {| startDot := startDot st1; startPart := startPart st1;
                           endPart := endPart st1; matchedSlash := matchedSlash st1;
                           preDotState := (-1) |}
            | None => st1
            end in
        extScan rs' st2
  end.

(** What the scan has found of the path [p] when it stands at position [n]:
    the end of the last part, with no slash between [n] and that end, and
    the last dot of what it has seen of that part. *)
Definition scanned (p : jsstring) (n : nat) (st : ExtScan) : Prop :=
  (matchedSlash st = true -> endPart st = None)
  /\ match endPart st with
     | None => startDot st = None
     | Some e =>
         (n <= e <= length p)%nat
         /\ (forall j, (n <= j < e)%nat -> p !! j <> Some 47)
         /\ match startDot st with
            | None => forall j, (n <= j < e)%nat -> p !! j <> Some 46
            | Some d =>
                (n <= d < e)%nat /\ p !! d = Some 46
                /\ forall j, (d < j < e)%nat -> p !! j <> Some 46
            end
     end.

(** [path.extname] *)
Definition extname (p : jsstring) : jsstring :=
  let st := extScan (rev p)
              {| startDot := None; startPart := 0%nat; endPart := None;
                 matchedSlash := true; preDotState := 0 |} in
  match startDot st, endPart st with
  | Some d, Some e =>
      if (preDotState st =? 0)%Z
         || ((preDotState st =? 1)%Z && (d =? e - 1)%nat && (d =? startPart st + 1)%nat)
      then []
      else take (e - d) (drop d p)
  | _, _ => []
  end.

(** [/jpeg|jpg|png|pdf/] *)
Definition imageOrPdf : RegExp := {|
  source := js "jpeg|jpg|png|pdf";
  anchored := false;
  body := Alt (lit (js "jpeg")) (Alt (lit (js "jpg")) (Alt (lit (js "png")) (lit (js "pdf"))))
|}.

(** [/jpeg|jpg|png/] *)
Definition imageOnly : RegExp := {|
  source := js "jpeg|jpg|png";
  anchored := false;
  body := Alt (lit (js "jpeg")) (Alt (lit (js "jpg")) (lit (js "png")))
|}.

(** The names that the object literal [allowedTypes] inherits from
    [Object.prototype]. *)
Definition inheritedNames : list string :=
  ["constructor"; "__defineGetter__"; "__defineSetter__"; "hasOwnProperty";
   "__lookupGetter__"; "__lookupSetter__"; "isPrototypeOf"; "propertyIsEnumerable";
   "toString"; "valueOf"; "__proto__"; "toLocaleString"]%string.

(** What a look-up in [allowedTypes] finds: the pattern of one of its two
    fields; under an inherited name a function or the prototype, which is
    truthy and no pattern; and [undefined] under any other name. *)
Inductive Found :=
| Pattern (re : RegExp)
| NoPattern
| NotFound.

(** [allowedTypes[fieldname]] *)
Definition allowedTypes (fieldname : string) : Found :=
  if String.eqb fieldname "aadharFile" then Pattern imageOrPdf
  else if String.eqb fieldname "signatureFile" then Pattern imageOnly
  else if existsb (String.eqb fieldname) inheritedNames then NoPattern
  else NotFound.

(** [allowedTypes[file.fieldname] || /jpeg|jpg|png|pdf/], when it is a
    pattern. *)
Definition fileTypeOf (file : Upload) : option RegExp :=
  match allowedTypes (field file) with
  | Pattern re => Some re
  | NoPattern => None
  | NotFound => Some imageOrPdf
  end.

(** [fileFilter]: [None] when the file is let in, the error's message
    otherwise: of the error given to the callback, or of the [TypeError]
    that the call of [fileType.test] throws when [fileType] is no pattern.
    (The upload middleware refuses a part of an undeclared field before it
    calls the filter, so no request gets that far with an inherited name.) *)
Definition fileFilter (file : Upload) : option jsstring :=
  match fileTypeOf file with
  | None => Some (js "fileType.test is not a function")
  | Some fileType =>
      let extOk := test fileType (toLowerCase (extname (name file))) in
      let mimeOk := test fileType (contentType file) in
      if mimeOk && extOk then None
      else Some (js "Invalid file type for " ++ js (field file) ++ js ". Only "
                 ++ source fileType ++ js " files are allowed.")
  end.

(** [limits.fileSize] *)
Definition fileSize : N := 5 * 1024 * 1024.

(** [upload.fields]: the declared fields and their [maxCount]. *)
Definition uploadFieldsConfig : list (string * nat) :=
  [("aadharFile"%string, 1%nat); ("signatureFile"%string, 1%nat)].

(** What the upload middleware passes to [next] when it fails. *)
Inductive UploadError :=
| FilterError (message : jsstring)
| MulterError (code : string) (fieldname : string).

(** The file as the disk storage records it. *)
Definition stored (u : Upload) : File :=
  let fname := js (field u) ++ js "-" ++ uniqueSuffix u ++ extname (name u) in
  {| fieldname := field u;
     originalname := name u;
     Multer.mimetype := contentType u;
     Multer.size := bytes u;
     Multer.filename := fname;
     Multer.path := destination (field u) ++ fname |}.

Fixpoint filesLeft (config : list (string * nat)) (fieldname : string) : nat :=
  match config with
  | [] => 0%nat
  | (k, n) :: r => if String.eqb k fieldname then n else filesLeft r fieldname
  end.

Definition countOf (files : Files) (fieldname : string) : nat :=
  match filesOf files fieldname with
  | Some fs => length fs
  | None => 0%nat
  end.

Fixpoint appendFile (files : Files) (f : File) : Files :=
  match files with
  | [] => [(fieldname f, [f])]
  | (k, fs) :: r =>
      if String.eqb k (fieldname f) then (k, fs ++ [f]) :: r
      else (k, fs) :: appendFile r f
  end.

(** Every file of [req.files] stands under the name of its field. *)
Definition keyed (files : Files) : Prop :=
  Forall (fun '(k, fs) => Forall (fun f => fieldname f = k) fs) files.

(** The upload middleware over the file parts of a request, in the order of
    arrival: a part of an undeclared field or past its [maxCount], a part the
    filter refuses, or a part larger than the limit ends the upload with an
    error, after the files this request had stored are removed again. *)
Fixpoint uploadParts (parts : list Upload) (files : Files) (disk : Disk)
  : (UploadError + Files) * Disk :=
  match parts with
  | [] => (inr files, disk)
  | u :: rest =>
      let cleaned := unlinkExisting disk (Multer.path <$> allFiles files) in
      if (filesLeft uploadFieldsConfig (field u) <=? countOf files (field u))%nat
      then (inl (MulterError "LIMIT_UNEXPECTED_FILE" (field u)), cleaned)
      else
        match fileFilter u with
        | Some m => (inl (FilterError m), cleaned)
        | None =>
            if fileSize <? bytes u
            then (inl (MulterError "LIMIT_FILE_SIZE" (field u)), cleaned)
            else uploadParts rest (appendFile files (stored u))
                             ({[ Multer.path (stored u) ]} ∪ disk)
        end
  end.

Definition uploadFields (parts : list Upload) (disk : Disk)
  : (UploadError + Files) * Disk :=
  uploadParts parts [] disk.

(** A part that the upload middleware lets in when it is the only part of its
    field: declared, let in by the filter, and of at most the size limit. *)
Definition accepted (u : Upload) : Prop :=
  (field u = "aadharFile" \/ field u = "signatureFile")%string
  /\ fileFilter u = None /\ bytes u <= fileSize.

(** *** Registrations *)

Record FileData := {
  filename : jsstring;
  originalName : jsstring;
  mimetype : jsstring;
  size : N;
  path : jsstring
}.

(** [formatFileData] of a file that is there. *)
Definition formatFileData (file : File) : FileData :=
  {| filename := Multer.filename file;
     originalName := originalname file;
     mimetype := Multer.mimetype file;
     size := Multer.size file;
     path := Multer.path file |}.

Record VerificationStatus := {
  aadharVerified : bool;
  panVerified : bool;
  signatureVerified : bool;
  emailVerified : bool;
  phoneVerified : bool
}.

(** Modelled from the spec: models/TradingRegistration.js is not among the
    sources.  A registration holds the personal fields, the three file
    attachments the handlers read ([aadharFile], [panFile], [signatureFile]),
    [registrationStatus], [adminNotes], the five verification flags and
    [submissionDate]. *)
Record Registration := {
  personal : gmap string Stored;
  aadharFile : option FileData;
  panFile : option FileData;
  signatureFile : option FileData;
  registrationStatus : jsstring;
  adminNotes : option jsstring;
  verificationStatus : VerificationStatus;
  submissionDate : Z
}.

(** Modelled from the spec: [isFullyVerified()] is a method of the absent
    model; the spec gives it as the AND of the four tracked flags, PAN left
    out. *)
Definition isFullyVerified (r : Registration) : bool :=
  let v := verificationStatus r in
  aadharVerified v && signatureVerified v && emailVerified v && phoneVerified v.

(** An error thrown by Mongoose or the driver: a validation error with its
    errors by path; a duplicate-key error ([MongoServerError] with code
    11000), whose [keyPattern] is that of an index and so has a first key,
    [Object.keys(error.keyPattern)[0]], and the keys after it; or an error of
    another name. *)
Inductive JsError :=
| ValidationError (errors : list (string * jsstring)) (message : jsstring)
| DuplicateKey (firstKey : string) (otherKeys : list string) (message : jsstring)
| Error (name : jsstring) (kind : option jsstring) (message : jsstring).

Definition messageOf (e : JsError) : jsstring :=
  match e with
  | ValidationError _ m => m
  | DuplicateKey _ _ m => m
  | Error _ _ m => m
  end.

Definition kindOf (e : JsError) : option jsstring :=
  match e with
  | Error _ k _ => k
  | _ => None
  end.

Abbreviation ObjectId := N.

(** What [new TradingRegistration(data)] is given: the body, with the file
    data of the uploaded files written over it. *)
Record RegistrationData := {
  dataFields : gmap string JsValue;
  dataAadharFile : option FileData;
  dataPanFile : option FileData;
  dataSignatureFile : option FileData
}.

(** The parts of the absent model that the handlers call, as parameters:
    - [castObjectId]: the cast of [req.params.id], [None] for a malformed id;
    - [create]: [new TradingRegistration(data).save()], the new id and
      document or the error thrown;
    - [update]: the cast and validation of the update of [router.put('/:id')]
      ([runValidators: true]): what it does to the document, or the error
      thrown;
    - [setFlagTo]: the same for the update of one verification flag to a
      value that is not a boolean. *)
Record Model := {
  castObjectId : jsstring -> option ObjectId;
  create : Runtime -> RegistrationData -> gmap ObjectId Registration
           -> JsError + (ObjectId * Registration);
  update : Runtime -> RegistrationData -> JsError + (Registration -> Registration);
  setFlagTo : jsstring -> JsValue -> JsError + (Registration -> Registration)
}.

Record World := {
  disk : Disk;
  db : gmap ObjectId Registration
}.


(** The body of a response, by handler. *)
Inductive Data :=
| NoData
| Created (id : ObjectId) (r : Registration)
| Document (r : Registration)
| StatusData (id : ObjectId) (status : jsstring) (notes : option jsstring)
| VerificationData (id : ObjectId) (v : VerificationStatus) (fullyVerified : bool)
| StatsData (statusBreakdown : list (jsstring * nat)) (totalRegistrations : nat)
            (todayRegistrations : nat) (verificationStats : list (bool * nat))
| Errors (errors : list (string * jsstring))
| ErrorDetail (message : jsstring).

(** [res.status(status).json({ success, message, ... })], or the page of
    Express's own error handler when a middleware passed an error to [next]
    and the application declares no error handler. *)
Inductive Response :=
| Json (status : nat) (success : bool) (message : jsstring) (data : Data)
| DefaultError (status : nat) (error : UploadError).

Definition statusOf (r : Response) : nat :=
  match r with
  | Json s _ _ _ => s
  | DefaultError s _ => s
  end.

(** What a handler reads of a request: [req.params.id], [req.body] and
    [req.files] (set by the upload middleware only). *)
Record Request := {
  id : jsstring;
  body : gmap string JsValue;
  files : option Files
}.

(** [handleRegistrationErrors] *)
Definition handleRegistrationErrors (error : JsError) : list (string * jsstring) :=
  match error with
  | ValidationError errors _ => errors
  | DuplicateKey field _ _ =>
      [(field, capitalize (js field) ++ js " already exists. Please use a different "
               ++ js field ++ js ".")]
  | Error _ _ message =>
      if includes (js "already exists") message then [("general"%string, message)]
      else if includes (js "Invalid file type") message then [("file"%string, message)]
      else [("general"%string,
             if eqb message [] then js "An unexpected error occurred. Please try again."
             else message)]
  end.

Definition notFound : Response :=
  Json 404 false (js "Registration not found") NoData.

(** The cast of an id, as [findById] and its kin do it first. *)
Definition objectIdError (id : jsstring) : JsError :=
  Error (js "CastError") (Some (js "ObjectId"))
        (js "Cast to ObjectId failed for value " ++ [34] ++ id ++ [34]
         ++ js " (type string) at path " ++ [34] ++ js "_id" ++ [34]
         ++ js " for model " ++ [34] ++ js "TradingRegistration" ++ [34]).

(** [TradingRegistration.findById]: the document, [null], or the error thrown
    for a malformed id. *)
Definition findById (M : Model) (id : jsstring) (db : gmap ObjectId Registration)
  : JsError + (ObjectId * option Registration) :=
  match castObjectId M id with
  | None => inl (objectIdError id)
  | Some oid => inr (oid, db !! oid)
  end.

(** The file of a field in [req.files], when there is one. *)
Definition uploaded (req : Request) (name : string) : option File :=
  match files req with
  | Some fs =>
      match filesOf fs name with
      | Some (f :: _) => Some f
      | _ => None
      end
  | None => None
  end.

Definition uploadedPaths (req : Request) : list jsstring :=
  match files req with
  | Some fs => Multer.path <$> allFiles fs
  | None => []
  end.

(** The clean-up of the [catch] blocks: every file of [req.files] that exists
    is removed. *)
Definition cleanUp (req : Request) (d : Disk) : Disk :=
  unlinkExisting d (uploadedPaths req).

(** [{ ...req.body }] with the file data of the uploaded files written over
    it. *)
Definition dataOf (req : Request) (withPan : bool) : RegistrationData :=
  let over (name : string) (b : gmap string JsValue) :=
    match uploaded req name with
    | Some _ => delete name b
    | None => b
    end in
  {| dataFields :=
       over "aadharFile" (over "signatureFile"
         (if withPan then over "panFile" (body req) else body req));
     dataAadharFile := formatFileData <$> uploaded req "aadharFile";
     dataPanFile := if withPan then formatFileData <$> uploaded req "panFile" else None;
     dataSignatureFile := formatFileData <$> uploaded req "signatureFile" |}.

(** [router.post('/')], after the upload middleware. *)
Definition createRegistration (rt : Runtime) (M : Model) (req : Request) (w : World)
  : Response * World :=
  match create M rt (dataOf req false) (db w) with
  | inr (oid, registration) =>
      (Json 201 true (js "Registration submitted successfully!") (Created oid registration),
       {| disk := disk w; db := <[oid := registration]> (db w) |})
  | inl error =>
      (Json 400 false (js "Registration failed") (Errors (handleRegistrationErrors error)),
       {| disk := cleanUp req (disk w); db := db w |})
  end.

(** [router.get('/:id')] *)
Definition getRegistration (M : Model) (req : Request) (w : World) : Response * World :=
  match findById M (id req) (db w) with
  | inr (_, Some registration) =>
      (Json 200 true [] (Document registration), w)
  | inr (_, None) => (notFound, w)
  | inl error =>
      match kindOf error with
      | Some k =>
          if eqb k (js "ObjectId") then (notFound, w)
          else (Json 500 false (js "Failed to fetch registration")
                     (ErrorDetail (messageOf error)), w)
      | None => (Json 500 false (js "Failed to fetch registration")
                      (ErrorDetail (messageOf error)), w)
      end
  end.

(** [if (old && fs.existsSync(old.path)) fs.unlinkSync(old.path)] when the
    request brings a file for the field. *)
Definition supersede (req : Request) (name : string) (old : option FileData) (d : Disk)
  : Disk :=
  match uploaded req name, old with
  | Some _, Some f => unlinkExisting d [path f]
  | _, _ => d
  end.

(** [TradingRegistration.findByIdAndUpdate(id, update, { new: true })]: the
    id and the update are cast first, and either cast may throw; then the
    document, if there is one, is replaced by the updated one, which is
    returned. *)
Definition findByIdAndUpdate (M : Model) (id : jsstring)
    (change : JsError + (Registration -> Registration)) (db : gmap ObjectId Registration)
  : (JsError + option (ObjectId * Registration)) * gmap ObjectId Registration :=
  match castObjectId M id with
  | None => (inl (objectIdError id), db)
  | Some oid =>
      match change with
      | inl error => (inl error, db)
      | inr f =>
          match db !! oid with
          | None => (inr None, db)
          | Some r => (inr (Some (oid, f r)), <[oid := f r]> db)
          end
      end
  end.

(** [router.put('/:id')], after the upload middleware. *)
Definition updateRegistration (rt : Runtime) (M : Model) (req : Request) (w : World)
  : Response * World :=
  let failed (error : JsError) (d : Disk) :=
    (Json 400 false (js "Failed to update registration")
          (Errors (handleRegistrationErrors error)),
     {| disk := cleanUp req d; db := db w |}) in
  match findById M (id req) (db w) with
  | inl error => failed error (disk w)
  | inr (_, None) => (notFound, w)
  | inr (_, Some registration) =>
      let d1 := supersede req "aadharFile" (aadharFile registration) (disk w) in
      let d2 := supersede req "panFile" (panFile registration) d1 in
      let d3 := supersede req "signatureFile" (signatureFile registration) d2 in
      match findByIdAndUpdate M (id req) (update M rt (dataOf req true)) (db w) with
      | (inr (Some (_, updatedRegistration)), db') =>
          (Json 200 true (js "Registration updated successfully")
                (Document updatedRegistration),
           {| disk := d3; db := db' |})
      | (inr None, _) =>
          failed (Error (js "TypeError") None
                        (js "Cannot read properties of null (reading '_id')")) d3
      | (inl error, _) => failed error d3
      end
  end.

Definition validStatuses : list jsstring :=
  [js "pending"; js "approved"; js "rejected"; js "under_review"].

(** [array.includes(v)] for a value of the body: only a string is equal to a
    string. *)
Definition includesValue (xs : list jsstring) (v : JsValue) : bool :=
  match v with
  | JStr s => arrayIncludes xs s
  | _ => false
  end.

Definition stringError (v : JsValue) (p : string) : JsError :=
  Error (js "CastError") (Some (js "string"))
        (js "Cast to string failed for value " ++ [34] ++ toString v ++ [34]
         ++ js " at path " ++ [34] ++ js p ++ [34]).

Definition setStatus (status : jsstring) (notes : option jsstring) (r : Registration)
  : Registration :=
  {| personal := personal r;
     aadharFile := aadharFile r;
     panFile := panFile r;
     signatureFile := signatureFile r;
     registrationStatus := status;
     adminNotes := match notes with Some n => Some n | None => adminNotes r end;
     verificationStatus := verificationStatus r;
     submissionDate := submissionDate r |}.

(** The update [{ registrationStatus: status, ...(adminNotes && { adminNotes }) }]:
    [adminNotes] is part of it when it is truthy; both are cast to strings. *)
Definition statusUpdate (status adminNotes : JsValue)
  : JsError + (Registration -> Registration) :=
  match castString status with
  | Value (VStr s) =>
      if truthy adminNotes then
        match castString adminNotes with
        | Value (VStr n) => inr (setStatus s (Some n))
        | _ => inl (stringError adminNotes "adminNotes")
        end
      else inr (setStatus s None)
  | _ => inl (stringError status "registrationStatus")
  end.

(** [router.put('/:id/status')] *)
Definition updateStatus (M : Model) (req : Request) (w : World) : Response * World :=
  let status := Mongoose.field (body req) "status" in
  let adminNotes := Mongoose.field (body req) "adminNotes" in
  if negb (includesValue validStatuses status)
  then (Json 400 false (js "Invalid status value") NoData, w)
  else
    match findByIdAndUpdate M (id req) (statusUpdate status adminNotes) (db w) with
    | (inr None, _) => (notFound, w)
    | (inr (Some (oid, registration)), db') =>
        (Json 200 true (js "Registration status updated successfully")
              (StatusData oid (registrationStatus registration)
                          (Trading.adminNotes registration)),
         {| disk := disk w; db := db' |})
    | (inl error, _) =>
        (Json 500 false (js "Failed to update registration status")
              (ErrorDetail (messageOf error)), w)
    end.

Definition validTypes : list jsstring :=
  [js "aadharVerified"; js "panVerified"; js "signatureVerified";
   js "emailVerified"; js "phoneVerified"].

(** The flags after [verificationStatus.<verificationType>] is set to [b]. *)
Definition setFlag (verificationType : jsstring) (b : bool) (v : VerificationStatus)
  : VerificationStatus :=
  {| aadharVerified :=
       if eqb verificationType (js "aadharVerified") then b else aadharVerified v;
     panVerified :=
       if eqb verificationType (js "panVerified") then b else panVerified v;
     signatureVerified :=
       if eqb verificationType (js "signatureVerified") then b else signatureVerified v;
     emailVerified :=
       if eqb verificationType (js "emailVerified") then b else emailVerified v;
     phoneVerified :=
       if eqb verificationType (js "phoneVerified") then b else phoneVerified v |}.

(** The flag [verificationStatus.<name>], when there is one of that name. *)
Definition flagOf (name : jsstring) (v : VerificationStatus) : option bool :=
  if eqb name (js "aadharVerified") then Some (aadharVerified v)
  else if eqb name (js "panVerified") then Some (panVerified v)
  else if eqb name (js "signatureVerified") then Some (signatureVerified v)
  else if eqb name (js "emailVerified") then Some (emailVerified v)
  else if eqb name (js "phoneVerified") then Some (phoneVerified v)
  else None.

Definition setVerification (verificationType : jsstring) (b : bool) (r : Registration)
  : Registration :=
  {| personal := personal r;
     aadharFile := aadharFile r;
     panFile := panFile r;
     signatureFile := signatureFile r;
     registrationStatus := registrationStatus r;
     adminNotes := adminNotes r;
     verificationStatus := setFlag verificationType b (verificationStatus r);
     submissionDate := submissionDate r |}.

(** The update [{ [`verificationStatus.${verificationType}`]: isVerified }]. *)
Definition verificationUpdate (M : Model) (verificationType isVerified : JsValue)
  : JsError + (Registration -> Registration) :=
  match isVerified with
  | JBool b => inr (setVerification (toString verificationType) b)
  | _ => setFlagTo M (toString verificationType) isVerified
  end.

(** [router.put('/:id/verify')] *)
Definition verifyRegistration (M : Model) (req : Request) (w : World) : Response * World :=
  let verificationType := Mongoose.field (body req) "verificationType" in
  let isVerified := Mongoose.field (body req) "isVerified" in
  if negb (includesValue validTypes verificationType)
  then (Json 400 false (js "Invalid verification type") NoData, w)
  else
    match findByIdAndUpdate M (id req)
                            (verificationUpdate M verificationType isVerified) (db w) with
    | (inr None, _) => (notFound, w)
    | (inr (Some (oid, registration)), db') =>
        (Json 200 true (js "Verification status updated successfully")
              (VerificationData oid (verificationStatus registration)
                                (isFullyVerified registration)),
         {| disk := disk w; db := db' |})
    | (inl error, _) =>
        (Json 500 false (js "Failed to update verification status")
              (ErrorDetail (messageOf error)), w)
    end.

(** [[aadharFile?.path, panFile?.path, signatureFile?.path].filter(Boolean)] *)
Definition filesToDelete (r : Registration) : list jsstring :=
  filter (fun p => negb (eqb p []))
         (omap (fmap path) [aadharFile r; panFile r; signatureFile r]).

(** [router.delete('/:id')] *)
Definition deleteRegistration (M : Model) (req : Request) (w : World) : Response * World :=
  match findById M (id req) (db w) with
  | inl error =>
      (Json 500 false (js "Failed to delete registration")
            (ErrorDetail (messageOf error)), w)
  | inr (_, None) => (notFound, w)
  | inr (oid, Some registration) =>
      (Json 200 true (js "Registration deleted successfully") NoData,
       {| disk := unlinkExisting (disk w) (filesToDelete registration);
          db := delete oid (db w) |})
  end.

(** [{ $group: { _id: <key>, count: { $sum: 1 } } }]: the number of documents
    of each key that occurs. *)
Fixpoint bump {K} (same : K -> K -> bool) (k : K) (groups : list (K * nat))
  : list (K * nat) :=
  match groups with
  | [] => [(k, 1%nat)]
  | (k', n) :: r => if same k k' then (k', S n) :: r else (k', n) :: bump same k r
  end.

Definition groupCount {K} (same : K -> K -> bool) (keys : list K) : list (K * nat) :=
  fold_left (fun groups k => bump same k groups) keys [].

(** The number of times [k] occurs among the keys. *)
Definition occurrences {K} `{EqDecision K} (k : K) (keys : list K) : nat :=
  length (filter (fun x => x = k) keys).

(** The count a group stage reports for [k], if it reports one. *)
Fixpoint countFor {K} (same : K -> K -> bool) (k : K) (groups : list (K * nat))
  : option nat :=
  match groups with
  | [] => None
  | (k', n) :: r => if same k k' then Some n else countFor same k r
  end.

Definition msPerDay : Z := 86400000.

(** [new Date(new Date().setHours(0, 0, 0, 0))]: the local time of now, cut
    to the start of its day, as a UTC time. *)
Definition startOfToday (rt : Runtime) : Z :=
  let t := (now rt + localTZA rt (now rt) true)%Z in
  let date := ((t / msPerDay) * msPerDay)%Z in
  (date - localTZA rt date false)%Z.

(** The [$project] stage of the verification statistics. *)
Definition fullyVerified (r : Registration) : bool :=
  let v := verificationStatus r in
  aadharVerified v && signatureVerified v && emailVerified v && phoneVerified v.

Definition documents (w : World) : list Registration :=
  snd <$> map_to_list (db w).

(** [router.get('/stats')] *)
Definition getStats (rt : Runtime) (w : World) : Response * World :=
  let docs := documents w in
  (Json 200 true []
        (StatsData
           (groupCount eqb (registrationStatus <$> docs))
           (length docs)
           (length (filter (fun r => (startOfToday rt <=? submissionDate r)%Z) docs))
           (groupCount Bool.eqb (fullyVerified <$> docs))),
   w).

(** A request to the router, with the file parts of a multipart one.  The
    list route ([GET /]) only reads and is left out. *)
Inductive Call :=
| PostRegistration (body : gmap string JsValue) (parts : list Upload)
| GetStats
| GetRegistration (id : jsstring)
| PutRegistration (id : jsstring) (body : gmap string JsValue) (parts : list Upload)
| PutStatus (id : jsstring) (body : gmap string JsValue)
| PutVerify (id : jsstring) (body : gmap string JsValue)
| DeleteRegistration (id : jsstring).

(** The file parts a request carries. *)
Definition partsOf (c : Call) : list Upload :=
  match c with
  | PostRegistration _ parts => parts
  | PutRegistration _ _ parts => parts
  | _ => []
  end.

(** The attachment a registration holds under the name of a file field. *)
Definition attachment (name : string) (r : Registration) : option FileData :=
  if String.eqb name "aadharFile" then aadharFile r
  else if String.eqb name "panFile" then panFile r
  else if String.eqb name "signatureFile" then signatureFile r
  else None.

(** A route behind [uploadFields]: the handler runs on the stored files; an
    error of the upload goes to Express's error handler, which answers 500 for
    an error that carries no status. *)
Definition behindUpload (parts : list Upload) (w : World)
    (handler : option Files -> World -> Response * World) : Response * World :=
  match uploadFields parts (disk w) with
  | (inl error, d) => (DefaultError 500 error, {| disk := d; db := db w |})
  | (inr fs, d) => handler (Some fs) {| disk := d; db := db w |}
  end.

Definition router (rt : Runtime) (M : Model) (c : Call) (w : World) : Response * World :=
  match c with
  | PostRegistration b parts =>
      behindUpload parts w
        (fun fs => createRegistration rt M {| id := []; body := b; files := fs |})
  | GetStats => getStats rt w
  | GetRegistration i => getRegistration M {| id := i; body := ∅; files := None |} w
  | PutRegistration i b parts =>
      behindUpload parts w
        (fun fs => updateRegistration rt M {| id := i; body := b; files := fs |})
  | PutStatus i b => updateStatus M {| id := i; body := b; files := None |} w
  | PutVerify i b => verifyRegistration M {| id := i; body := b; files := None |} w
  | DeleteRegistration i => deleteRegistration M {| id := i; body := ∅; files := None |} w
  end.

(** *** The list of registrations *)

(** The filter that [router.get('/')] builds: [registrationStatus] when the
    query has a truthy [status], and the four-field [$or] of a
    case-insensitive [$regex] when it has a truthy [search]. *)
Record ListFilter := {
  byStatus : option JsValue;
  bySearch : option JsValue
}.

(** The queries of the absent model that the list runs, as parameters:
    - [find]: [find(filter).sort({ [key]: direction }).skip(skip).limit(limit)],
      the records in order or the error thrown; a [skip] or [limit] of [None]
      is [NaN];
    - [countDocuments]: [countDocuments(filter)]. *)
Record Collection := {
  find : ListFilter -> jsstring * Z -> option Z -> option Z
         -> gmap ObjectId Registration -> JsError + list (ObjectId * Registration);
  countDocuments : ListFilter -> gmap ObjectId Registration -> JsError + nat
}.

(** The body of the answer of the list: the records and the [pagination]
    object, in which a number that is [NaN] or infinite is written [null],
    here [None]; or the message of a failure, answered 500. *)
Inductive Listing :=
| Listed (data : list (ObjectId * Registration))
         (current pages : option Z) (total : nat) (limit : option Z)
| ListFailed (message error : jsstring).

(** A parameter of the query string with its default: the default stands in
    for [undefined] only. *)
Definition orDefault (v d : JsValue) : JsValue :=
  match v with
  | JUndefined => d
  | _ => v
  end.

(** [.select('-aadharFile -panFile -signatureFile')] *)
Definition withoutFiles (r : Registration) : Registration :=
  {| personal := personal r;
     aadharFile := None;
     panFile := None;
     signatureFile := None;
     registrationStatus := registrationStatus r;
     adminNotes := adminNotes r;
     verificationStatus := verificationStatus r;
     submissionDate := submissionDate r |}.

(** [Math.ceil(total / limit)], as JSON writes it: [null] for a [limit] that
    is [NaN] and for the division by zero. *)
Definition pagesOf (total : nat) (limit : option Z) : option Z :=
  match limit with
  | Some l => if (l =? 0)%Z then None else Some (- ((- Z.of_nat total) / l))%Z
  | None => None
  end.

(** [router.get('/')] *)
Definition listRegistrations (C : Collection) (query : gmap string JsValue) (w : World)
  : Listing * World :=
  let page := orDefault (Mongoose.field query "page") (JNum (Finite false 1 0)) in
  let limit := orDefault (Mongoose.field query "limit") (JNum (Finite false 10 0)) in
  let status := Mongoose.field query "status" in
  let search := Mongoose.field query "search" in
  let sortBy := orDefault (Mongoose.field query "sortBy") (JStr (js "submissionDate")) in
  let sortOrder := orDefault (Mongoose.field query "sortOrder") (JStr (js "desc")) in
  let conditions := {| byStatus := if truthy status then Some status else None;
                       bySearch := if truthy search then Some search else None |} in
  let skip :=
    match parseInt (toString page), parseInt (toString limit) with
    | Some p, Some l => Some ((p - 1) * l)%Z
    | _, _ => None
    end in
  let direction :=
    match sortOrder with
    | JStr s => if eqb s (js "desc") then (-1)%Z else 1%Z
    | _ => 1%Z
    end in
  let failed (error : JsError) :=
    (ListFailed (js "Failed to fetch registrations") (messageOf error), w) in
  match find C conditions (toString sortBy, direction) skip (parseInt (toString limit))
             (db w) with
  | inl error => failed error
  | inr registrations =>
      match countDocuments C conditions (db w) with
      | inl error => failed error
      | inr total =>
          (Listed ((fun '(oid, r) => (oid, withoutFiles r)) <$> registrations)
                  (parseInt (toString page))
                  (pagesOf total (parseInt (toString limit)))
                  total
                  (parseInt (toString limit)),
           w)
      end
  end.

(** *** The upload directories *)

(** The tree that [createUploadsDir] works on: the paths that are files and
    the paths that are directories. *)
Record Tree := {
  fileNodes : gset jsstring;
  dirNodes : gset jsstring
}.

(** [fs.existsSync] on the tree. *)
Definition nodeExists (t : Tree) (p : jsstring) : bool :=
  bool_decide (p ∈ fileNodes t \/ p ∈ dirNodes t).

(** The ancestors of a relative path, outermost first: [a] and [a/b] for
    [a/b/c]. *)
Fixpoint ancestorsFrom (seen rest : jsstring) : list jsstring :=
  match rest with
  | [] => []
  | c :: r => (if c =? 47 then [seen] else []) ++ ancestorsFrom (seen ++ [c]) r
  end.

(** [fs.mkdirSync(dir, { recursive: true })]: the directory is made, with the
    ancestors it lacks; it throws ([None]) when the path or an ancestor of it
    is a file. *)
Definition mkdirSync (t : Tree) (dir : jsstring) : option Tree :=
  let chain := ancestorsFrom [] dir ++ [dir] in
  if bool_decide (Exists (fun p => p ∈ fileNodes t) chain) then None
  else Some {| fileNodes := fileNodes t; dirNodes := dirNodes t ∪ list_to_set chain |}.

Definition uploadDirs : list jsstring :=
  [js "uploads"; js "uploads/aadhar"; js "uploads/signatures"].

(** [createUploadsDir]: each directory is made unless something of its name
    exists; [None] when [mkdirSync] throws. *)
Definition createUploadsDir (t : Tree) : option Tree :=
  foldl (fun acc dir =>
           match acc with
           | Some t' => if nodeExists t' dir then Some t' else mkdirSync t' dir
           | None => None
           end)
        (Some t) uploadDirs.

End Trading.

(** ** Sample requests

    Concrete runtimes, requests and states, on which the handlers are run in
    the examples below. *)

Module Examples.
Import Js Regex Mongoose Multer.

(** A process in India (UTC+5:30) on 2023-11-14, whose [new Date] reads the
    one date the sample forms carry. *)
Definition sampleRuntime : Runtime := {|
  now := 1700000000000;
  toDate := fun v =>
    match v with
    | JStr s => if eqb s (js "1990-01-01") then Some 631152000000%Z else None
    | _ => None
    end;
  localTZA := fun _ _ => 19800000%Z
|}.

Definition samplePayment (amount paymentStatus : JsValue) : gmap string JsValue :=
  <["userName"%string := JStr (js "Asha")]>
  (<["courseName"%string := JStr (js "Options basics")]>
  (<["amount"%string := amount]>
  (<["paymentStatus"%string := paymentStatus]> ∅))).

(** The text fields of a registration form, with the given phone number. *)
Definition formBody (phone : jsstring) : gmap string JsValue :=
  <["firstName"%string := JStr (js "Asha")]>
  (<["lastName"%string := JStr (js "Rao")]>
  (<["email"%string := JStr (js "Asha.Rao@example.com")]>
  (<["phone"%string := JStr phone]>
  (<["dateOfBirth"%string := JStr (js "1990-01-01")]>
  (<["address"%string := JStr (js "12 Lake Road")]>
  (<["city"%string := JStr (js "Pune")]>
  (<["state"%string := JStr (js "Maharashtra")]>
  (<["pincode"%string := JStr (js "411001")]>
  (<["aadharNumber"%string := JStr (js "123412341234")]>
  (<["agreeTerms"%string := JStr (js "true")]> ∅)))))))))).

Definition aadharUpload : Trading.Upload := {|
  Trading.field := "aadharFile";
  Trading.name := js "aadhar.pdf";
  Trading.named := I;
  Trading.contentType := js "application/pdf";
  Trading.bytes := 48213;
  Trading.uniqueSuffix := js "1700000000000-104729"
|}.

Definition signatureUpload : Trading.Upload := {|
  Trading.field := "signatureFile";
  Trading.name := js "sign.PNG";
  Trading.named := I;
  Trading.contentType := js "image/png";
  Trading.bytes := 9120;
  Trading.uniqueSuffix := js "1700000000000-7919"
|}.

(** A text file sent as the identity document. *)
Definition notesUpload : Trading.Upload := {|
  Trading.field := "aadharFile";
  Trading.name := js "notes.txt";
  Trading.named := I;
  Trading.contentType := js "text/plain";
  Trading.bytes := 120;
  Trading.uniqueSuffix := js "1700000000000-31337"
|}.

Definition aadharPath : jsstring := path (Trading.stored aadharUpload).
Definition signaturePath : jsstring := path (Trading.stored signatureUpload).

Definition sampleFiles : Files :=
  [("aadharFile"%string, [Trading.stored aadharUpload]);
   ("signatureFile"%string, [Trading.stored signatureUpload])].

(** A form with both files, as [submitForm] receives it once the upload
    middleware has stored them. *)
Definition formRequest (phone : jsstring) : UserForm.Request := {|
  UserForm.body := formBody phone;
  UserForm.files := Some sampleFiles
|}.

Definition formState : UserForm.State := {|
  UserForm.disk := {[ aadharPath; signaturePath ]};
  UserForm.forms := []
|}.

(** *** A model of trading registrations

    Ids are 24 hexadecimal digits; a registration needs a phone number of 10
    digits and an update may not set another kind of phone number. *)
Definition isHex (c : N) : bool :=
  isDigit c || ((97 <=? c) && (c <=? 102)) || ((65 <=? c) && (c <=? 70)).

Definition hexValue (c : N) : N :=
  if isDigit c then c - 48 else if 97 <=? c then c - 87 else c - 55.

Definition sampleObjectId (id : jsstring) : option N :=
  if (length id =? 24)%nat && forallb isHex id
  then Some (fold_left (fun acc c => 16 * acc + hexValue c) id 0)
  else None.

Definition phoneError : Trading.JsError :=
  Trading.ValidationError
    [("phone"%string, js "Phone number must be 10 digits")]
    (js "TradingRegistration validation failed: phone: Phone number must be 10 digits").

Definition textOf (v : JsValue) : option Stored :=
  match castString v with
  | Value x => Some x
  | _ => None
  end.

Definition sampleCreate (rt : Runtime) (data : Trading.RegistrationData)
    (db : gmap N Trading.Registration)
  : Trading.JsError + (N * Trading.Registration) :=
  match field (Trading.dataFields data) "phone" with
  | JStr s =>
      if test (UserForm.digitsPattern 10) s then
        inr (1 + map_fold (fun k _ acc => N.max k acc) 0 db,
             {| Trading.personal := omap textOf (Trading.dataFields data);
                Trading.aadharFile := Trading.dataAadharFile data;
                Trading.panFile := Trading.dataPanFile data;
                Trading.signatureFile := Trading.dataSignatureFile data;
                Trading.registrationStatus := js "pending";
                Trading.adminNotes := None;
                Trading.verificationStatus :=
                  {| Trading.aadharVerified := false; Trading.panVerified := false;
                     Trading.signatureVerified := false; Trading.emailVerified := false;
                     Trading.phoneVerified := false |};
                Trading.submissionDate := now rt |})
      else inl phoneError
  | _ => inl phoneError
  end.

Definition orElse {A} (new old : option A) : option A :=
  match new with
  | Some x => Some x
  | None => old
  end.

Definition sampleUpdate (rt : Runtime) (data : Trading.RegistrationData)
  : Trading.JsError + (Trading.Registration -> Trading.Registration) :=
  let change (r : Trading.Registration) :=
    {| Trading.personal := omap textOf (Trading.dataFields data) ∪ Trading.personal r;
       Trading.aadharFile := orElse (Trading.dataAadharFile data) (Trading.aadharFile r);
       Trading.panFile := orElse (Trading.dataPanFile data) (Trading.panFile r);
       Trading.signatureFile :=
         orElse (Trading.dataSignatureFile data) (Trading.signatureFile r);
       Trading.registrationStatus := Trading.registrationStatus r;
       Trading.adminNotes := Trading.adminNotes r;
       Trading.verificationStatus := Trading.verificationStatus r;
       Trading.submissionDate := Trading.submissionDate r |} in
  match field (Trading.dataFields data) "phone" with
  | JUndefined => inr change
  | JStr s => if test (UserForm.digitsPattern 10) s then inr change else inl phoneError
  | _ => inl phoneError
  end.

Definition sampleModel : Trading.Model := {|
  Trading.castObjectId := sampleObjectId;
  Trading.create := sampleCreate;
  Trading.update := sampleUpdate;
  Trading.setFlagTo := fun t v =>
    inl (Trading.Error (js "CastError") (Some (js "Boolean"))
                       (js "Cast to Boolean failed for value " ++ [34] ++ toString v ++ [34]))
|}.

Definition sampleId : jsstring := js "65538a2f9d1c4b0012ab34cd".

Definition sampleOid : N :=
  match sampleObjectId sampleId with
  | Some oid => oid
  | None => 0
  end.

(** A stored registration with both files attached, and the world that holds
    it, files on disk. *)
Definition sampleRegistration : Trading.Registration := {|
  Trading.personal := omap textOf (formBody (js "9876543210"));
  Trading.aadharFile := Some (Trading.formatFileData (Trading.stored aadharUpload));
  Trading.panFile := None;
  Trading.signatureFile := Some (Trading.formatFileData (Trading.stored signatureUpload));
  Trading.registrationStatus := js "pending";
  Trading.adminNotes := None;
  Trading.verificationStatus :=
    {| Trading.aadharVerified := true; Trading.panVerified := false;
       Trading.signatureVerified := true; Trading.emailVerified := false;
       Trading.phoneVerified := true |};
  Trading.submissionDate := 1699990000000
|}.

Definition sampleWorld : Trading.World := {|
  Trading.disk := {[ aadharPath; signaturePath ]};
  Trading.db := {[ sampleOid := sampleRegistration ]}
|}.

Definition emptyWorld : Trading.World := {|
  Trading.disk := ∅;
  Trading.db := ∅
|}.

(** A second scan of the identity document, sent with an update. *)
Definition newAadharUpload : Trading.Upload := {|
  Trading.field := "aadharFile";
  Trading.name := js "aadhar-new.jpg";
  Trading.named := I;
  Trading.contentType := js "image/jpeg";
  Trading.bytes := 51200;
  Trading.uniqueSuffix := js "1700000000000-65537"
|}.

Definition jsonRequest (id : jsstring) (body : gmap string JsValue) : Trading.Request := {|
  Trading.id := id;
  Trading.body := body;
  Trading.files := None
|}.

(** A registration with a phone number of five digits, its two files stored. *)
Definition failingCreate : Trading.Request := {|
  Trading.id := [];
  Trading.body := formBody (js "12345");
  Trading.files := Some sampleFiles
|}.

(** The world after the upload middleware stored the two files. *)
Definition uploadedWorld : Trading.World := {|
  Trading.disk := {[ aadharPath; signaturePath ]};
  Trading.db := ∅
|}.

Definition verifyEmail : Trading.Request :=
  jsonRequest sampleId
    (<["verificationType"%string := JStr (js "emailVerified")]>
     (<["isVerified"%string := JBool true]> ∅)).

Definition approve : Trading.Request :=
  jsonRequest sampleId (<["status"%string := JStr (js "approved")]> ∅).

Definition archive : Trading.Request :=
  jsonRequest sampleId (<["status"%string := JStr (js "archived")]> ∅).

(** An approval whose [adminNotes] is an array, [['checked', 'filed']]. *)
Definition approveWithListedNotes : Trading.Request :=
  jsonRequest sampleId
    (<["status"%string := JStr (js "approved")]>
     (<["adminNotes"%string := JObject (js "checked,filed")]> ∅)).

(** An update with a new scan and a phone number of three digits. *)
Definition failingUpdate : Trading.Call :=
  Trading.PutRegistration sampleId (formBody (js "123")) [newAadharUpload].

Definition deleteSample : Trading.Request := jsonRequest sampleId ∅.

(** The form of [formRequest], with the check box of the terms sent as the
    boolean [true] of a JSON body. *)
Definition tickedForm : UserForm.Request := {|
  UserForm.body := <["agreeTerms"%string := JBool true]> (formBody (js "9876543210"));
  UserForm.files := Some sampleFiles
|}.

(** A scan of the PAN card, sent under a field that the upload middleware
    does not declare. *)
Definition panUpload : Trading.Upload := {|
  Trading.field := "panFile";
  Trading.name := js "pan.png";
  Trading.named := I;
  Trading.contentType := js "image/png";
  Trading.bytes := 20480;
  Trading.uniqueSuffix := js "1700000000000-271828"
|}.

(** The registration that [sampleModel] makes of the sample form and its two
    files. *)
Definition freshRegistration : Trading.Registration := {|
  Trading.personal := omap textOf (formBody (js "9876543210"));
  Trading.aadharFile := Some (Trading.formatFileData (Trading.stored aadharUpload));
  Trading.panFile := None;
  Trading.signatureFile := Some (Trading.formatFileData (Trading.stored signatureUpload));
  Trading.registrationStatus := js "pending";
  Trading.adminNotes := None;
  Trading.verificationStatus :=
    {| Trading.aadharVerified := false; Trading.panVerified := false;
       Trading.signatureVerified := false; Trading.emailVerified := false;
       Trading.phoneVerified := false |};
  Trading.submissionDate := 1700000000000
|}.

(** A collection that filters by a status given as a string, keeps the
    records in the order of their ids, and refuses a [skip] or a [limit] that
    is not a number, a negative [skip] and a [limit] below 1. *)
Definition sampleFind (conditions : Trading.ListFilter) (sort : jsstring * Z)
    (skip limit : option Z) (db : gmap N Trading.Registration)
  : Trading.JsError + list (N * Trading.Registration) :=
  let wanted (r : Trading.Registration) :=
    match Trading.byStatus conditions with
    | Some (JStr s) => eqb (Trading.registrationStatus r) s
    | Some _ => false
    | None => true
    end in
  match skip, limit with
  | Some s, Some l =>
      if ((0 <=? s) && (1 <=? l))%Z
      then inr (take (Z.to_nat l)
                  (drop (Z.to_nat s) (List.filter (fun x => wanted (snd x)) (map_to_list db))))
      else inl (Trading.Error (js "MongoServerError") None (js "bad skip or limit"))
  | _, _ => inl (Trading.Error (js "CastError") None (js "skip and limit must be numbers"))
  end.

Definition sampleCollection : Trading.Collection := {|
  Trading.find := sampleFind;
  Trading.countDocuments := fun conditions db =>
    match sampleFind conditions ([], 1%Z) (Some 0%Z) (Some (Z.of_nat (base.size db) + 1)%Z) db with
    | inr l => inr (length l)
    | inl e => inl e
    end
|}.

(** A tree without the upload directories. *)
Definition bareTree : Trading.Tree := {|
  Trading.fileNodes := {[ js "index.js" ]};
  Trading.dirNodes := {[ js "routes" ]}
|}.

End Examples.

(** * Properties *)


(** * Properties *)

(** ** Schemas *)

Section SchemaFacts.
Import Js Regex Mongoose Multer.
Context (rt : Runtime).

Lemma omap_nil_iff {A B} (f : A -> option B) (l : list A) :
  omap f l = [] <-> Forall (fun x => f x = None) l.
Proof.
  induction l as [|x l IH]; simpl.
  - split; [constructor | reflexivity].
  - destruct (f x) eqn:E.
    + split; [discriminate | intros H; inversion H; congruence].
    + rewrite IH. split; [intros H; constructor; assumption | intros H; inversion H; assumption].
Qed.

(** A document is saved exactly when no path has an error. *)
Lemma save_Saved (S : Schema) (input : gmap string JsValue) (doc : gmap string Stored) :
  save rt S input = Saved doc <->
  Forall (fun '(name, opts) => check rt name opts (prepare rt opts (field input name)) = None)
         (paths S) /\ doc = document rt S input.
Proof.
  unfold save, validateDoc. destruct (omap _ _) eqn:E.
  - apply omap_nil_iff in E. split.
    + intros [= <-]. split; [|reflexivity].
      eapply Forall_impl; [exact E|]. intros [n o]. simpl.
      destruct (check _ _ _ _); [discriminate|reflexivity].
    + intros [_ ->]. reflexivity.
  - split; [discriminate|]. intros [H _]. exfalso.
    assert (omap (checkPath rt input) (paths S) = []) as E'.
    { apply omap_nil_iff. eapply Forall_impl; [exact H|].
      intros [n o] Hc. simpl in *. rewrite Hc. reflexivity. }
    congruence.
Qed.

Lemma lookup_set_paths_other (input : gmap string JsValue) (l : list (string * list PathOption))
    (rest : list (string * Stored)) (name : string) :
  name ∉ l.*1 ->
  (list_to_map (omap (setPath rt input) l ++ rest) : gmap string Stored) !! name =
  (list_to_map rest : gmap string Stored) !! name.
Proof.
  induction l as [|[n o] l IH]; intros Hn; [reflexivity|].
  simpl in Hn. apply not_elem_of_cons in Hn as [Hne Hn].
  simpl. destruct (prepare rt o (field input n)); simpl;
    rewrite ?lookup_insert_ne by congruence; apply IH; assumption.
Qed.

Lemma lookup_set_paths (input : gmap string JsValue) (l : list (string * list PathOption))
    (rest : list (string * Stored)) (name : string) (opts : list PathOption) :
  NoDup (l.*1) -> (name, opts) ∈ l ->
  (list_to_map (omap (setPath rt input) l ++ rest) : gmap string Stored) !! name =
  match prepare rt opts (field input name) with
  | Value v => Some v
  | _ => (list_to_map rest : gmap string Stored) !! name
  end.
Proof.
  induction l as [|[n o] l IH]; intros Hnd Hin.
  - inversion Hin.
  - simpl in Hnd. apply NoDup_cons in Hnd as [Hn Hnd].
    apply elem_of_cons in Hin as [Heq|Hin].
    + injection Heq as -> ->. simpl.
      destruct (prepare rt o (field input n)) eqn:E; simpl.
      * apply lookup_set_paths_other; assumption.
      * rewrite lookup_insert_eq. reflexivity.
      * apply lookup_set_paths_other; assumption.
    + assert (n <> name) as Hne.
      { intros ->. apply Hn. apply list_elem_of_fmap. exists (name, opts).
        split; [reflexivity|assumption]. }
      simpl. destruct (prepare rt o (field input n)); simpl;
        rewrite ?lookup_insert_ne by assumption; apply IH; assumption.
Qed.

(** The stored value of a path is its prepared value. *)
Lemma document_lookup (S : Schema) (input : gmap string JsValue) (name : string)
    (opts : list PathOption) :
  NoDup ((paths S).*1) -> (name, opts) ∈ paths S ->
  name <> "createdAt"%string -> name <> "updatedAt"%string ->
  document rt S input !! name =
  match prepare rt opts (field input name) with
  | Value v => Some v
  | _ => None
  end.
Proof.
  intros Hnd Hin H1 H2. unfold document.
  rewrite (lookup_set_paths input _ _ name opts Hnd Hin).
  destruct (prepare rt opts (field input name)); try reflexivity;
    destruct (timestamps S); simpl; rewrite ?lookup_insert_ne by congruence; reflexivity.
Qed.

End SchemaFacts.

(** ** Payments *)

Section PaymentFacts.
Import Js Regex Mongoose Multer Payment.
Context (rt : Runtime).

Lemma PaymentSchema_NoDup : NoDup ((paths PaymentSchema).*1).
Proof. apply (bool_decide_unpack _). vm_compute. exact I. Qed.

(** The input of [new Payment] holds the fields of the request, and the
    cleaned amount. *)
Lemma newPayment_fields (a b c d e f : JsValue) (k : string) :
  let input : gmap string JsValue :=
    <["userName"%string := a]> (<["courseName"%string := b]> (<["amount"%string := c]>
    (<["paymentStatus"%string := d]> (<["userPhone"%string := e]>
    (<["userEmail"%string := f]> ∅))))) in
  field input "amount" = c /\ field input "paymentStatus" = d.
Proof.
  intros input. unfold field, input. split; simplify_map_eq; reflexivity.
Qed.

Lemma truthy_not_undefined (v : JsValue) : truthy v = true -> v <> JUndefined.
Proof. intros H ->. discriminate. Qed.

(** What [savePayment] does once the four required fields are truthy. *)
Lemma savePayment_checked (body : gmap string JsValue) (payments : list (gmap string Stored)) :
  truthy (field body "userName") = true -> truthy (field body "courseName") = true ->
  truthy (field body "amount") = true -> truthy (field body "paymentStatus") = true ->
  let clean := cleanAmount (field body "amount") in
  (isNaN clean = true /\ savePayment rt body payments = (invalidAmountReply, payments))
  \/ (isNaN clean = false /\
      ((exists doc,
          savePayment rt body payments =
            ({| status := 201; message := js "Payment saved successfully"; error := None |},
             payments ++ [doc])
          /\ doc !! "amount"%string = Some (VStr (numberToString clean))
          /\ doc !! "paymentStatus"%string
             = Some (VStr (toString (field body "paymentStatus"))))
       \/ (exists errors,
          savePayment rt body payments =
            ({| status := 500; message := js "Server Error"; error := Some errors |},
             payments)))).
Proof.
  intros H1 H2 H3 H4 clean. unfold savePayment. rewrite H1, H2, H3, H4. simpl.
  fold clean. destruct (isNaN clean) eqn:En; [left; split; reflexivity|].
  right. split; [reflexivity|].
  match goal with |- context [save rt PaymentSchema ?i] => set (input := i) end.
  destruct (newPayment_fields (field body "userName") (field body "courseName") (JNum clean)
              (field body "paymentStatus") (field body "userPhone") (field body "userEmail") "x")
    as [Ha Hs].
  fold input in Ha, Hs.
  destruct (save rt PaymentSchema input) as [doc|errors] eqn:Es.
  - left. exists doc. split; [reflexivity|].
    apply save_Saved in Es as [Hok ->].
    split.
    + rewrite (document_lookup rt PaymentSchema input "amount" [type TString; required None]);
        [| apply PaymentSchema_NoDup | set_solver | discriminate | discriminate].
      rewrite Ha. reflexivity.
    + rewrite (document_lookup rt PaymentSchema input "paymentStatus"
                 [type TString; enum [js "Paid"; js "Pending"; js "Failed"];
                  default (fun _ => VStr (js "Pending"))]);
        [| apply PaymentSchema_NoDup | set_solver | discriminate | discriminate].
      rewrite Hs.
      assert (Hc : check rt "paymentStatus" [type TString; enum [js "Paid"; js "Pending"; js "Failed"];
                  default (fun _ => VStr (js "Pending"))]
                 (prepare rt [type TString; enum [js "Paid"; js "Pending"; js "Failed"];
                  default (fun _ => VStr (js "Pending"))] (field input "paymentStatus")) = None).
      { simpl in Hok. inversion Hok as [|? ? _ Hok1]. inversion Hok1 as [|? ? _ Hok2].
        inversion Hok2 as [|? ? _ Hok3]. inversion Hok3 as [|? ? Hp _]. exact Hp. }
      rewrite Hs in Hc.
      destruct (field body "paymentStatus") eqn:Ef; try discriminate; try reflexivity.
  - right. exists errors. reflexivity.
Qed.


Lemma stripCurrency_clean (s : jsstring) :
  Forall (fun c => c <> 8377 /\ c <> 44 /\ isWhiteSpace c = false) (stripCurrency s).
Proof.
  unfold stripCurrency. induction s as [|c s IH]; [constructor|].
  rewrite filter_cons. destruct (decide _) as [Hc|Hc]; [|exact IH].
  constructor; [|exact IH].
  unfold currencyNoise in Hc. apply negb_prop_elim in Hc. rewrite !orb_True in Hc.
  repeat split.
  - intros ->. apply Hc. left. left. reflexivity.
  - intros ->. apply Hc. left. right. reflexivity.
  - destruct (isWhiteSpace c); [|reflexivity]. exfalso. apply Hc. right. exact I.
Qed.

Lemma savePayment_unchecked (body : gmap string JsValue) (payments : list (gmap string Stored))
    (k : string) :
  k ∈ ["userName"; "courseName"; "amount"; "paymentStatus"]%string ->
  truthy (field body k) = false ->
  savePayment rt body payments = (requiredReply, payments).
Proof.
  intros Hk Hf. unfold savePayment.
  rewrite !elem_of_cons, elem_of_nil in Hk.
  destruct Hk as [->|[->|[->|[->|[]]]]]; rewrite Hf; simpl;
    rewrite ?orb_true_r; reflexivity.
Qed.

(** C10: a falsy required field is a missing one.  An amount that is the
    number 0 and a request without [paymentStatus] are answered 400 with the
    "required" message and nothing is stored; so whenever [savePayment] stores
    a document, its [paymentStatus] is the one the request gave, never the
    default [Pending] that the schema gives to a document without one. *)
Theorem savePayment_falsy_is_missing
    (body : gmap string JsValue) (payments : list (gmap string Stored)) :
  (forall neg e, field body "amount" = JNum (Finite neg 0 e) ->
     savePayment rt body payments = (requiredReply, payments))
  /\ (field body "paymentStatus" = JUndefined ->
      savePayment rt body payments = (requiredReply, payments))
  /\ (forall doc, snd (savePayment rt body payments) = payments ++ [doc] ->
      field body "paymentStatus" <> JUndefined
      /\ doc !! "paymentStatus"%string
         = Some (VStr (toString (field body "paymentStatus"))))
  /\ (forall input doc, field input "paymentStatus" = JUndefined ->
      save rt PaymentSchema input = Saved doc ->
      doc !! "paymentStatus"%string = Some (VStr (js "Pending"))).
Proof.
  split; [|split; [|split]].
  - intros neg e Ha. apply (savePayment_unchecked body payments "amount"); [set_solver|].
    rewrite Ha. reflexivity.
  - intros Hs. apply (savePayment_unchecked body payments "paymentStatus"); [set_solver|].
    rewrite Hs. reflexivity.
  - intros doc Hd.
    assert (Hlen : forall k, k ∈ ["userName"; "courseName"; "amount"; "paymentStatus"]%string ->
                   truthy (field body k) = true).
    { intros k Hk. destruct (truthy (field body k)) eqn:E; [reflexivity|].
      rewrite (savePayment_unchecked body payments k Hk E) in Hd. simpl in Hd.
      apply (f_equal length) in Hd. rewrite length_app in Hd. simpl in Hd. lia. }
    assert (H4 := Hlen "paymentStatus"%string ltac:(set_solver)).
    split; [apply truthy_not_undefined; exact H4|].
    destruct (savePayment_checked body payments
                (Hlen "userName"%string ltac:(set_solver))
                (Hlen "courseName"%string ltac:(set_solver))
                (Hlen "amount"%string ltac:(set_solver)) H4)
      as [[_ E]|[_ [(doc' & E & _ & Hs)|[errors E]]]];
      rewrite E in Hd; simpl in Hd.
    + apply (f_equal length) in Hd. rewrite length_app in Hd. simpl in Hd. lia.
    + apply app_inv_head in Hd. injection Hd as ->. exact Hs.
    + apply (f_equal length) in Hd. rewrite length_app in Hd. simpl in Hd. lia.
  - intros input doc Hu Hs. apply save_Saved in Hs as [_ ->].
    rewrite (document_lookup rt PaymentSchema input "paymentStatus"
               [type TString; enum [js "Paid"; js "Pending"; js "Failed"];
                default (fun _ => VStr (js "Pending"))]);
      [| apply PaymentSchema_NoDup | set_solver | discriminate | discriminate].
    rewrite Hu. reflexivity.
Qed.

End PaymentFacts.


(** ** Regular expressions *)

Section RegexFacts.
Import Js Regex.

Lemma matches_Void (s : jsstring) : matches Void s = false.
Proof. induction s as [|c s IH]; [reflexivity | exact IH]. Qed.

Lemma matches_Cat_Void (r : regex) (s : jsstring) : matches (Cat Void r) s = false.
Proof. induction s as [|c s IH]; [reflexivity | exact IH]. Qed.

Lemma matches_Alt_orb (a b : regex) (s : jsstring) :
  matches (Alt a b) s = matches a s || matches b s.
Proof.
  revert a b. induction s as [|c s IH]; intros a b; [reflexivity|].
  simpl. apply IH.
Qed.

Lemma matches_Cat_Eps (r : regex) (s : jsstring) : matches (Cat Eps r) s = matches r s.
Proof.
  destruct s as [|c s]; [reflexivity|].
  simpl. rewrite matches_Alt_orb, matches_Cat_Void. reflexivity.
Qed.

Lemma matches_Cat_Cls (p : N -> bool) (r : regex) (c : N) (s : jsstring) :
  matches (Cat (Cls p) r) (c :: s) = p c && matches r s.
Proof.
  simpl. destruct (p c); [apply matches_Cat_Eps | apply matches_Cat_Void].
Qed.

(** [\d{n}] matches the strings of [n] digits. *)
Lemma matches_rep_digit (n : nat) (s : jsstring) :
  matches (rep n digit) s = (length s =? n)%nat && forallb isDigit s.
Proof.
  revert s. induction n as [|n IH]; intros s.
  - destruct s as [|c s]; [reflexivity|]. simpl. apply matches_Void.
  - destruct s as [|c s]; [reflexivity|].
    simpl rep. unfold digit at 1. rewrite matches_Cat_Cls, IH.
    simpl. destruct (length s =? n)%nat; simpl; [reflexivity|apply andb_false_r].
Qed.

End RegexFacts.

(** ** The user form *)

Section UserFormFacts.
Import Js Regex Mongoose Multer UserForm.
Context (rt : Runtime).

Lemma js_eqb_nil (s : jsstring) : eqb s [] = true <-> s = [].
Proof. destruct s; simpl; split; congruence. Qed.

Lemma forallb_isDigit (s : jsstring) :
  forallb isDigit s = true <-> Forall (fun d => 48 <= d <= 57) s.
Proof.
  induction s as [|c s IH]; simpl.
  - split; [constructor|reflexivity].
  - rewrite andb_true_iff, IH. unfold isDigit. rewrite andb_true_iff, !N.leb_le.
    split; [intros [H1 H2]; constructor; assumption | intros H; inversion H; split; assumption].
Qed.

Lemma test_digitsPattern (n : nat) (s : jsstring) :
  test (digitsPattern n) s = true <-> length s = n /\ Forall (fun d => 48 <= d <= 57) s.
Proof.
  unfold test. simpl. rewrite matches_rep_digit, andb_true_iff, Nat.eqb_eq, forallb_isDigit.
  reflexivity.
Qed.

Lemma exists_text (s : jsstring) (P : jsstring -> Prop) :
  (exists s', Value (VStr s) = Value (VStr s') /\ P s') <-> P s.
Proof.
  split; [intros (s' & [= <-] & H); exact H | intros H; exists s; split; [reflexivity|exact H]].
Qed.

Lemma check_lengthBetween (name : string) (mr m1 m2 : jsstring) (lo hi : nat) (c : Cast) :
  (1 <= lo)%nat ->
  check rt name [type TString; required (Some mr); trim; minlength lo m1; maxlength hi m2] c = None
  <-> lengthBetween lo hi c.
Proof.
  intros Hlo. unfold lengthBetween.
  destruct c as [|[| | |s|]|]; cbn -[Nat.leb];
    try (split; [discriminate | intros (s' & [=] & _)]).
  rewrite exists_text.
  destruct (eqb s []) eqn:Es; simpl.
  - apply js_eqb_nil in Es as ->. simpl. split; [discriminate|lia].
  - destruct (Nat.leb_spec lo (length s)); simpl; [|split; [discriminate|lia]].
    destruct (Nat.leb_spec (length s) hi); simpl; [|split; [discriminate|lia]].
    split; [lia|reflexivity].
Qed.

Lemma check_lengthAtLeast (name : string) (mr m1 : jsstring) (lo : nat) (c : Cast) :
  (1 <= lo)%nat ->
  check rt name [type TString; required (Some mr); minlength lo m1] c = None
  <-> lengthAtLeast lo c.
Proof.
  intros Hlo. unfold lengthAtLeast.
  destruct c as [|[| | |s|]|]; cbn -[Nat.leb];
    try (split; [discriminate | intros (s' & [=] & _)]).
  rewrite exists_text.
  destruct (eqb s []) eqn:Es; simpl.
  - apply js_eqb_nil in Es as ->. simpl. split; [discriminate|lia].
  - destruct (Nat.leb_spec lo (length s)); simpl; [|split; [discriminate|lia]].
    split; [lia|reflexivity].
Qed.

Lemma check_present (name : string) (mr : jsstring) (c : Cast) :
  check rt name [type TString; required (Some mr)] c = None <-> present c.
Proof.
  unfold present.
  destruct c as [|[| | |s|]|]; cbn;
    try (split; [discriminate | intros (s' & [=] & _)]).
  rewrite exists_text.
  destruct (eqb s []) eqn:Es; simpl.
  - apply js_eqb_nil in Es as ->. split; [discriminate|congruence].
  - split; [|reflexivity]. intros _ ->. discriminate.
Qed.

Lemma check_match (name : string) (mr m1 : jsstring) (re : RegExp) (pre : list PathOption)
    (c : Cast) :
  (forall o, o ∈ pre -> o = trim \/ o = lowercase) ->
  check rt name ([type TString; required (Some mr)] ++ pre ++ [match_ re m1]) c = None
  <-> matchesPattern re c.
Proof.
  intros Hpre. unfold matchesPattern.
  assert (Hreq : requiredOf ([type TString; required (Some mr)] ++ pre ++ [match_ re m1])
                 = Some (Some mr)) by reflexivity.
  assert (Hff : forall v, firstFailure rt name (pre ++ [match_ re m1]) v
                          = runValidator rt name (match_ re m1) v).
  { intros v. clear Hreq. revert Hpre.
    induction pre as [|o pre IH]; intros Hpre; cbn [firstFailure app].
    - destruct (runValidator rt name (match_ re m1) v); reflexivity.
    - destruct (Hpre o ltac:(left)) as [-> | ->]; cbn [runValidator]; apply IH;
        intros o' Ho'; apply Hpre; right; exact Ho'. }
  unfold check. rewrite Hreq. cbn [typeOf app].
  destruct c as [|[| | |s|]|]; cbn [checkRequired];
    try (split; [discriminate | intros (s' & [=] & _)]).
  rewrite exists_text.
  destruct (eqb s []) eqn:Es; cbn [negb].
  - apply js_eqb_nil in Es as ->. split; [discriminate|]. intros [H _]. congruence.
  - cbn [firstFailure runValidator]. rewrite Hff. simpl.
    destruct s as [|ch s]; [discriminate|].
    destruct (test re (ch :: s)); simpl; split; try discriminate; try reflexivity.
    + intros _. split; [discriminate|reflexivity].
    + intros [_ H]. discriminate.
Qed.

Lemma check_digits (name : string) (mr m1 : jsstring) (n : nat) (c : Cast) :
  (1 <= n)%nat ->
  check rt name [type TString; required (Some mr); match_ (digitsPattern n) m1] c = None
  <-> digitsExactly n c.
Proof.
  intros Hn.
  rewrite (check_match name mr m1 (digitsPattern n) [] c); [|intros o Ho; inversion Ho].
  unfold matchesPattern, digitsExactly.
  split; intros (s & -> & H); exists s; (split; [reflexivity|]).
  - destruct H as [_ H]. apply test_digitsPattern. exact H.
  - split; [|apply test_digitsPattern; exact H].
    intros ->. simpl in H. lia.
Qed.

Lemma check_dateBefore (name : string) (mr m1 : jsstring) (c : Cast) :
  check rt name [type TDate; required (Some mr); validate inThePast m1] c = None
  <-> dateBefore (now rt) c.
Proof.
  unfold dateBefore.
  destruct c as [|[| | | |d]|]; cbn;
    try (split; [discriminate | intros (s' & [=] & _)]).
  destruct (Z.ltb_spec d (now rt)); simpl.
  - split; [|reflexivity]. intros _. exists d. split; [reflexivity|assumption].
  - split; [discriminate|]. intros (d' & [= <-] & H'). lia.
Qed.

Lemma check_isLiteralTrue (name : string) (mr m1 : jsstring) (c : Cast) :
  check rt name [type TBoolean; required (Some mr); validate isTrue m1] c = None
  <-> isLiteralTrue c.
Proof.
  unfold isLiteralTrue.
  destruct c as [|[|[]| | |]|]; cbn; split; congruence.
Qed.

Lemma check_castable (name : string) (d : Runtime -> Stored) (c : Cast) :
  check rt name [type TBoolean; default d] c = None <-> castable c.
Proof.
  unfold castable. destruct c as [|v|]; cbn; split; congruence.
Qed.


Lemma check_email (name : string) (mr m1 : jsstring) (c : Cast) :
  check rt name [type TString; required (Some mr); trim; lowercase; match_ emailPattern m1] c
  = None <-> matchesPattern emailPattern c.
Proof.
  apply (check_match name mr m1 emailPattern [trim; lowercase]).
  intros o Ho. rewrite !elem_of_cons, elem_of_nil in Ho. tauto.
Qed.

Lemma optionsOf_lookup (ps : list (string * list PathOption)) (name : string)
    (opts : list PathOption) :
  NoDup (ps.*1) -> (name, opts) ∈ ps -> optionsOf ps name = opts.
Proof.
  induction ps as [|[k o] ps IH]; intros Hnd Hin; [inversion Hin|].
  simpl in Hnd. apply NoDup_cons in Hnd as [Hk Hnd]. simpl.
  apply elem_of_cons in Hin as [[= <- <-]|Hin].
  - rewrite String.eqb_refl. reflexivity.
  - destruct (String.eqb_spec k name) as [->|_]; [|apply IH; assumption].
    exfalso. apply Hk. apply list_elem_of_fmap. exists (name, opts). split; [reflexivity|assumption].
Qed.

(** No path has an error exactly when [errorOf] finds none under any name of
    the schema. *)
Lemma no_error_by_name (S : Schema) (input : gmap string JsValue) :
  NoDup ((paths S).*1) ->
  Forall (fun '(name, opts) => check rt name opts (prepare rt opts (field input name)) = None)
         (paths S)
  <-> Forall (fun name => errorOf rt S input name = None) ((paths S).*1).
Proof.
  intros Hnd. rewrite Forall_fmap, !Forall_forall.
  split; intros H [name opts] Hin; specialize (H (name, opts) Hin); simpl in *;
    unfold errorOf, valueOf in *; rewrite (optionsOf_lookup _ _ _ Hnd Hin) in *; exact H.
Qed.

Lemma requiredOf_declared (name : string) (opts : list PathOption) (m : option jsstring) :
  requiredOf opts = Some m -> requiredMessage name m ∈ messagesOf name opts.
Proof.
  induction opts as [|o opts IH]; [discriminate|].
  destruct o; simpl; intros H; try (apply IH in H); try (right; exact H); try exact H.
  injection H as ->. left.
Qed.

Lemma firstFailure_declared (name : string) (opts : list PathOption) (v : Stored)
    (m : jsstring) :
  (forall vs, enum vs ∉ opts) ->
  firstFailure rt name opts v = Some m -> m ∈ messagesOf name opts.
Proof.
  induction opts as [|o opts IH]; intros Hne; [discriminate|].
  assert (Hne' : forall vs, enum vs ∉ opts).
  { intros vs Hin. apply (Hne vs). right. exact Hin. }
  cbn [firstFailure]. destruct (runValidator rt name o v) as [m'|] eqn:E.
  - intros [= <-]. destruct o; simpl in E; try discriminate.
    + destruct v; try discriminate. destruct (n <=? length s)%nat; [discriminate|].
      injection E as <-. left.
    + destruct v; try discriminate. destruct (length s <=? n)%nat; [discriminate|].
      injection E as <-. left.
    + destruct v as [| | |[|c s]|]; try discriminate.
      destruct (test re (c :: s)); [discriminate|]. injection E as <-. left.
    + exfalso. apply (Hne values). left.
    + destruct (validator rt v); [discriminate|]. injection E as <-. left.
  - intros H. apply (IH Hne') in H. destruct o; simpl; try (right; exact H); exact H.
Qed.

(** The error of a path is a failed cast or one of the messages the schema
    declares for it. *)
Lemma check_declared (name : string) (opts : list PathOption) (c : Cast) (e : PathError) :
  (forall vs, enum vs ∉ opts) ->
  check rt name opts c = Some e ->
  e = CastError (typeOf opts)
  \/ exists m, e = ValidatorError m /\ m ∈ messagesOf name opts.
Proof.
  intros Hne. unfold check.
  destruct c as [|v|]; [| |intros [= <-]; left; reflexivity].
  - destruct (requiredOf opts) as [m|] eqn:Er; simpl; [|discriminate].
    destruct (typeOf opts); simpl; intros [= <-]; right; eexists; (split; [reflexivity|]);
      apply requiredOf_declared; exact Er.
  - destruct (requiredOf opts) as [m|] eqn:Er.
    + destruct (checkRequired (typeOf opts) (Value v)).
      * destruct (firstFailure rt name opts v) as [m'|] eqn:Ef; simpl; [|discriminate].
        intros [= <-]. right. exists m'. split; [reflexivity|].
        eapply firstFailure_declared; eassumption.
      * intros [= <-]. right. eexists. split; [reflexivity|].
        apply requiredOf_declared; exact Er.
    + destruct (firstFailure rt name opts v) as [m'|] eqn:Ef; simpl; [|discriminate].
      intros [= <-]. right. exists m'. split; [reflexivity|].
      eapply firstFailure_declared; eassumption.
Qed.

Lemma validateDoc_elem (S : Schema) (input : gmap string JsValue) (name : string)
    (e : PathError) :
  NoDup ((paths S).*1) -> name ∈ (paths S).*1 ->
  errorOf rt S input name = Some e -> (name, e) ∈ validateDoc rt S input.
Proof.
  intros Hnd Hin He. apply list_elem_of_fmap in Hin as ([n opts] & -> & Hin). simpl in *.
  unfold validateDoc. apply list_elem_of_omap. exists (n, opts). split; [exact Hin|].
  unfold errorOf, valueOf in He. rewrite (optionsOf_lookup _ _ _ Hnd Hin) in He.
  simpl. rewrite He. reflexivity.
Qed.

Lemma userFormSchema_NoDup : NoDup ((paths userFormSchema).*1).
Proof. apply (bool_decide_unpack _). vm_compute. exact I. Qed.

(** Each rule holds of a path's value exactly when the path has no error. *)
Lemma userForm_rule_iff (input : gmap string JsValue) :
  Forall (fun '(name, rule) =>
            errorOf rt userFormSchema input name = None
            <-> rule (valueOf rt userFormSchema input name))
         (userFormRules rt).
Proof.
  unfold userFormRules, errorOf.
  repeat apply Forall_cons_2; try apply Forall_nil_2; cbn [optionsOf paths userFormSchema String.eqb Ascii.eqb Bool.eqb].
  - apply check_lengthBetween; lia.
  - apply check_lengthBetween; lia.
  - apply check_email.
  - apply check_digits; lia.
  - apply check_dateBefore.
  - apply check_lengthAtLeast; lia.
  - apply check_present.
  - apply check_present.
  - apply check_digits; lia.
  - apply check_digits; lia.
  - apply check_present.
  - apply check_present.
  - apply check_isLiteralTrue.
  - apply check_castable.
Qed.


Lemma save_by_name (S : Schema) (input : gmap string JsValue) (doc : gmap string Stored) :
  NoDup ((paths S).*1) ->
  save rt S input = Saved doc <->
  Forall (fun name => errorOf rt S input name = None) ((paths S).*1)
  /\ doc = document rt S input.
Proof.
  intros Hnd. rewrite save_Saved, (no_error_by_name S input Hnd). reflexivity.
Qed.

Lemma save_failed (S : Schema) (input : gmap string JsValue) (x : string * PathError) :
  x ∈ validateDoc rt S input ->
  save rt S input = ValidationError (validateDoc rt S input).
Proof.
  unfold save. destruct (validateDoc rt S input); [intros H; inversion H | reflexivity].
Qed.


End UserFormFacts.

Section RegexSemantics.
Import Js Regex.

Lemma nullable_spec (r : regex) : nullable r = true <-> Matches r [].
Proof.
  induction r as [| |p|a IHa b IHb|a IHa b IHb|a IHa]; simpl.
  - split; [discriminate | intros H; inversion H].
  - split; [intros _; constructor | reflexivity].
  - split; [discriminate | intros H; inversion H].
  - rewrite andb_true_iff, IHa, IHb. split.
    + intros [Ha Hb]. apply (MCat a b [] [] Ha Hb).
    + intros H. inversion H as [| |a' b' s t Ha Hb| | | |]; subst.
      match goal with E : _ ++ _ = [] |- _ => apply app_eq_nil in E as [-> ->] end.
      split; assumption.
  - rewrite orb_true_iff, IHa, IHb. split.
    + intros [H|H]; [apply MAltL | apply MAltR]; exact H.
    + intros H. inversion H; subst; tauto.
  - split; [intros _; constructor | reflexivity].
Qed.

(** A non-empty match of [a*] starts with a non-empty match of [a]. *)
Lemma Matches_star_cons (a : regex) (c : N) (s : jsstring) :
  Matches (Star a) (c :: s) ->
  exists s1 s2, s = s1 ++ s2 /\ Matches a (c :: s1) /\ Matches (Star a) s2.
Proof.
  intros H. remember (Star a) as r eqn:Er. remember (c :: s) as cs eqn:Ecs.
  revert s Ecs. induction H as [| | | | | |a' s' t Ha _ Ht IHt]; intros s0 Ecs; try discriminate.
  injection Er as ->. destruct s' as [|c' s'].
  - simpl in Ecs. apply (IHt eq_refl s0 Ecs).
  - simpl in Ecs. injection Ecs as -> <-. exists s', t. repeat split; assumption.
Qed.

Lemma deriv_spec (c : N) (r : regex) (s : jsstring) :
  Matches (deriv c r) s <-> Matches r (c :: s).
Proof.
  revert s. induction r as [| |p|a IHa b IHb|a IHa b IHb|a IHa]; intros s; simpl.
  - split; intros H; inversion H.
  - split; intros H; inversion H.
  - destruct (p c) eqn:Ep; split; intros H; inversion H; subst.
    + constructor. exact Ep.
    + constructor.
    + congruence.
  - assert (Hcat : Matches (Cat (deriv c a) b) s <->
                   exists s1 s2, s = s1 ++ s2 /\ Matches a (c :: s1) /\ Matches b s2).
    { split.
      - intros H. inversion H as [| |a' b' s1 s2 H1 H2| | | |]; subst.
        exists s1, s2. split; [reflexivity|]. split; [apply IHa; exact H1 | exact H2].
      - intros (s1 & s2 & -> & H1 & H2). constructor; [apply IHa; exact H1 | exact H2]. }
    assert (Hsplit : Matches (Cat a b) (c :: s) <->
                     (exists s1 s2, s = s1 ++ s2 /\ Matches a (c :: s1) /\ Matches b s2)
                     \/ (Matches a [] /\ Matches b (c :: s))).
    { split.
      - intros H. inversion H as [| |a' b' s1 s2 H1 H2| | | |]; subst.
        match goal with E : _ ++ _ = _ :: _ |- _ => rename E into Heq end.
        destruct s1 as [|c1 s1]; simpl in *.
        + right. subst. split; assumption.
        + injection Heq as -> <-. left. exists s1, s2. repeat split; assumption.
      - intros [(s1 & s2 & -> & H1 & H2)|[H1 H2]].
        + apply (MCat a b (c :: s1) s2 H1 H2).
        + apply (MCat a b [] (c :: s) H1 H2). }
    rewrite Hsplit. destruct (nullable a) eqn:En.
    + split.
      * intros H. inversion H; subst.
        -- left. apply Hcat. assumption.
        -- right. split; [apply nullable_spec; exact En | apply IHb; assumption].
      * intros [H|[_ H]]; [apply MAltL, Hcat, H | apply MAltR, IHb, H].
    + rewrite Hcat. split; [tauto|]. intros [H|[H _]]; [exact H|].
      apply nullable_spec in H. congruence.
  - split; intros H; inversion H; subst.
    + apply MAltL, IHa. assumption.
    + apply MAltR, IHb. assumption.
    + apply MAltL, IHa. assumption.
    + apply MAltR, IHb. assumption.
  - split.
    + intros H. inversion H as [| |a' b' s1 s2 H1 H2| | | |]; subst.
      apply (MStarS a (c :: s1) s2); [apply IHa; exact H1 | exact H2].
    + intros H. apply Matches_star_cons in H as (s1 & s2 & -> & H1 & H2).
      constructor; [apply IHa; exact H1 | exact H2].
Qed.

(** The matcher decides the denotation. *)
Lemma matches_spec (r : regex) (s : jsstring) : matches r s = true <-> Matches r s.
Proof.
  revert r. induction s as [|c s IH]; intros r; simpl.
  - apply nullable_spec.
  - rewrite IH. apply deriv_spec.
Qed.

Lemma Matches_lit (w s : jsstring) : Matches (lit w) s <-> s = w.
Proof.
  revert s. induction w as [|c w IH]; intros s; simpl.
  - split; [intros H; inversion H; reflexivity | intros ->; constructor].
  - split.
    + intros H. inversion H as [| |a b s1 s2 H1 H2| | | |]; subst.
      inversion H1; subst. apply IH in H2 as ->.
      match goal with H : (_ =? _) = true |- _ => apply N.eqb_eq in H as -> end.
      reflexivity.
    + intros ->. apply (MCat (chr c) (lit w) [c] w).
      * constructor. apply N.eqb_refl.
      * apply IH. reflexivity.
Qed.

Lemma Matches_star_any (s : jsstring) : Matches (Star any) s.
Proof.
  induction s as [|c s IH]; [constructor|].
  apply (MStarS any [c] s); [constructor; reflexivity | exact IH].
Qed.

(** A pattern that is not anchored is looked for anywhere in the string. *)
Lemma test_unanchored (re : RegExp) (s : jsstring) :
  anchored re = false ->
  test re s = true <->
  exists pre mid post, s = pre ++ mid ++ post /\ Matches (body re) mid.
Proof.
  intros Ha. unfold test. rewrite Ha, matches_spec. split.
  - intros H. inversion H as [| |a b pre rest _ H2| | | |]; subst.
    inversion H2 as [| |a b mid post Hm _| | | |]; subst.
    exists pre, mid, post. split; [reflexivity|exact Hm].
  - intros (pre & mid & post & -> & Hm).
    constructor; [apply Matches_star_any|]. constructor; [exact Hm|apply Matches_star_any].
Qed.

Lemma startsWith_spec (w s : jsstring) :
  startsWith w s = true <-> exists post, s = w ++ post.
Proof.
  revert s. induction w as [|c w IH]; intros s; simpl.
  - split; [intros _; exists s; reflexivity | reflexivity].
  - destruct s as [|d s]; [split; [discriminate | intros [post [=]]]|].
    rewrite andb_true_iff, N.eqb_eq, IH. split.
    + intros [-> [post ->]]. exists post. reflexivity.
    + intros [post [= -> ->]]. split; [reflexivity | exists post; reflexivity].
Qed.

Lemma includes_spec (w s : jsstring) :
  includes w s = true <-> exists pre post, s = pre ++ w ++ post.
Proof.
  induction s as [|d s IH]; simpl.
  - rewrite orb_false_r, startsWith_spec. split.
    + intros [post E]. exists [], post. exact E.
    + intros (pre & post & E). destruct pre; [exists post; exact E | discriminate].
  - rewrite orb_true_iff, startsWith_spec, IH. split.
    + intros [[post E]|(pre & post & ->)].
      * exists [], post. exact E.
      * exists (d :: pre), post. reflexivity.
    + intros (pre & post & E). destruct pre as [|d' pre].
      * left. exists post. exact E.
      * right. injection E as -> ->. exists pre, post. reflexivity.
Qed.

Lemma Matches_star_dot (s : jsstring) :
  Matches (Star dot) s <-> Forall (fun c => isLineTerminator c = false) s.
Proof.
  split.
  - intros H. remember (Star dot) as r eqn:Er.
    induction H as [| | | | | |a s1 t H1 _ Ht IHt]; try discriminate; [constructor|].
    injection Er as ->. apply Forall_app. split; [|apply IHt; reflexivity].
    inversion H1 as [|p c Hp| | | | |]; subst. constructor; [|constructor].
    apply negb_true_iff. exact Hp.
  - induction s as [|c s IH]; intros H; [constructor|].
    apply Forall_cons in H as [Hc Hs].
    apply (MStarS dot [c] s); [|apply IH; exact Hs].
    constructor. apply negb_true_iff. exact Hc.
Qed.

(** [.+] matches the non-empty strings without a line terminator. *)
Lemma Matches_plus_dot (s : jsstring) :
  Matches (plus dot) s <-> s <> [] /\ Forall (fun c => isLineTerminator c = false) s.
Proof.
  unfold plus. split.
  - intros H. inversion H as [| |a b s1 s2 H1 H2| | | |]; subst.
    inversion H1 as [|p c Hp| | | | |]; subst. split; [discriminate|].
    constructor; [apply negb_true_iff; exact Hp | apply Matches_star_dot; exact H2].
  - intros [Hne H]. destruct s as [|c s]; [congruence|].
    apply Forall_cons in H as [Hc Hs].
    apply (MCat dot (Star dot) [c] s); [|apply Matches_star_dot; exact Hs].
    constructor. apply negb_true_iff. exact Hc.
Qed.


Lemma Matches_Cat (a b : regex) (s : jsstring) :
  Matches (Cat a b) s <-> exists s1 s2, s = s1 ++ s2 /\ Matches a s1 /\ Matches b s2.
Proof.
  split.
  - intros H. inversion H as [| |a' b' s1 s2 H1 H2| | | |]; subst.
    exists s1, s2. repeat split; assumption.
  - intros (s1 & s2 & -> & H1 & H2). constructor; assumption.
Qed.

Lemma Matches_Alt (a b : regex) (s : jsstring) :
  Matches (Alt a b) s <-> Matches a s \/ Matches b s.
Proof.
  split.
  - intros H. inversion H; subst; tauto.
  - intros [H|H]; [apply MAltL | apply MAltR]; exact H.
Qed.

Lemma Matches_chr (c : N) (s : jsstring) : Matches (chr c) s <-> s = [c].
Proof.
  unfold chr. split.
  - intros H. inversion H as [|p d Hd| | | | |]; subst.
    apply N.eqb_eq in Hd as ->. reflexivity.
  - intros ->. constructor. apply N.eqb_refl.
Qed.

End RegexSemantics.

Section PatternFacts.
Import Js Regex.

(** [/.+@.+\..+/] is found in a string exactly when the string holds, side by
    side, a non-empty run without line terminators, an [@], another such run,
    a dot and a third such run. *)
Lemma test_emailPattern (s : jsstring) :
  let plain (x : jsstring) := x <> [] /\ Forall (fun c => isLineTerminator c = false) x in
  test UserForm.emailPattern s = true <->
  exists pre a b c post,
    s = pre ++ a ++ [64] ++ b ++ [46] ++ c ++ post /\ plain a /\ plain b /\ plain c.
Proof.
  intros plain. rewrite (test_unanchored UserForm.emailPattern s eq_refl). simpl body.
  split.
  - intros (pre & mid & post & -> & H).
    apply Matches_Cat in H as (a & r1 & -> & Ha & H).
    apply Matches_Cat in H as (at_ & r2 & -> & Hat & H).
    apply Matches_Cat in H as (b & r3 & -> & Hb & H).
    apply Matches_Cat in H as (dot_ & c & -> & Hdot & Hc).
    apply Matches_chr in Hat as ->. apply Matches_chr in Hdot as ->.
    apply Matches_plus_dot in Ha, Hb, Hc.
    exists pre, a, b, c, post. rewrite <- !app_assoc. repeat split; tauto.
  - intros (pre & a & b & c & post & -> & Ha & Hb & Hc).
    exists pre, (a ++ [64] ++ b ++ [46] ++ c), post. rewrite <- !app_assoc. split; [reflexivity|].
    apply Matches_Cat. exists a, ([64] ++ b ++ [46] ++ c). split; [reflexivity|].
    split; [apply Matches_plus_dot; exact Ha|].
    apply Matches_Cat. exists [64], (b ++ [46] ++ c). split; [reflexivity|].
    split; [apply Matches_chr; reflexivity|].
    apply Matches_Cat. exists b, ([46] ++ c). split; [reflexivity|].
    split; [apply Matches_plus_dot; exact Hb|].
    apply Matches_Cat. exists [46], c. split; [reflexivity|].
    split; [apply Matches_chr; reflexivity | apply Matches_plus_dot; exact Hc].
Qed.

(** A string passes a file-type pattern exactly when it holds one of the
    pattern's words. *)
Lemma test_fileType (s : jsstring) :
  (test Trading.imageOrPdf s = true <->
   includes (js "jpeg") s = true \/ includes (js "jpg") s = true
   \/ includes (js "png") s = true \/ includes (js "pdf") s = true)
  /\ (test Trading.imageOnly s = true <->
      includes (js "jpeg") s = true \/ includes (js "jpg") s = true
      \/ includes (js "png") s = true).
Proof.
  assert (Hword : forall w, (exists pre mid post, s = pre ++ mid ++ post /\ Matches (lit w) mid)
                            <-> includes w s = true).
  { intros w. rewrite includes_spec. split.
    - intros (pre & mid & post & -> & Hm). apply Matches_lit in Hm as ->.
      exists pre, post. reflexivity.
    - intros (pre & post & ->). exists pre, w, post. split; [reflexivity|].
      apply Matches_lit. reflexivity. }
  split.
  - rewrite (test_unanchored Trading.imageOrPdf s eq_refl). simpl body.
    rewrite <- !Hword. split.
    + intros (pre & mid & post & E & H).
      repeat (apply Matches_Alt in H as [H|H]); eauto 10.
    + intros [H|[H|[H|H]]]; destruct H as (pre & mid & post & E & H);
        exists pre, mid, post; (split; [exact E|]); rewrite !Matches_Alt; tauto.
  - rewrite (test_unanchored Trading.imageOnly s eq_refl). simpl body.
    rewrite <- !Hword. split.
    + intros (pre & mid & post & E & H).
      repeat (apply Matches_Alt in H as [H|H]); eauto 10.
    + intros [H|[H|H]]; destruct H as (pre & mid & post & E & H);
        exists pre, mid, post; (split; [exact E|]); rewrite !Matches_Alt; tauto.
Qed.

End PatternFacts.


(** ** The disk *)

Section DiskFacts.
Import Js Multer.

(** Removing the paths that exist leaves the paths that were not named. *)
Lemma elem_of_unlinkExisting (d : Disk) (ps : list jsstring) (p : jsstring) :
  p ∈ unlinkExisting d ps <-> p ∈ d /\ p ∉ ps.
Proof.
  unfold unlinkExisting. revert d. induction ps as [|q ps IH]; intros d; simpl.
  - rewrite elem_of_nil. tauto.
  - rewrite IH, not_elem_of_cons. unfold existsSync, unlinkSync.
    case_bool_decide as Hq.
    + rewrite elem_of_difference, elem_of_singleton. tauto.
    + split; [|tauto]. intros [Hp Hn]. repeat split; try assumption.
      intros ->. contradiction.
Qed.

Lemma unlinkExisting_difference (d : Disk) (ps : list jsstring) :
  unlinkExisting d ps = d ∖ list_to_set ps.
Proof.
  apply set_eq. intros p.
  rewrite elem_of_unlinkExisting, elem_of_difference, elem_of_list_to_set. reflexivity.
Qed.

End DiskFacts.

(** ** Trading registrations *)

Section TradingFacts.
Import Js Regex Mongoose Multer Trading.
Context (rt : Runtime) (M : Model).

(** C6: [GET /:id] answers 404, with the same body, when the id is malformed
    and when it is well formed and no record has it; neither case is answered
    500, and nothing changes. *)
Theorem get_unknown_or_malformed_is_404 (req : Request) (w : World) :
  (castObjectId M (id req) = None -> getRegistration M req w = (notFound, w))
  /\ (forall oid, castObjectId M (id req) = Some oid -> db w !! oid = None ->
      getRegistration M req w = (notFound, w))
  /\ statusOf notFound = 404%nat.
Proof.
  unfold getRegistration, findById. split; [|split].
  - intros ->. reflexivity.
  - intros oid -> ->. reflexivity.
  - reflexivity.
Qed.


Lemma js_eqb_eq (a b : jsstring) : eqb a b = true <-> a = b.
Proof.
  revert b. induction a as [|x a IH]; intros [|y b]; simpl; try (split; congruence).
  rewrite andb_true_iff, N.eqb_eq, IH. split; [intros [-> ->]; reflexivity | intros [= -> ->]; tauto].
Qed.

Lemma js_eqb_neq (a b : jsstring) : eqb a b = false <-> a <> b.
Proof.
  rewrite <- js_eqb_eq. destruct (eqb a b); split; congruence.
Qed.

Lemma arrayIncludes_elem_of (xs : list jsstring) (s : jsstring) :
  arrayIncludes xs s = true <-> s ∈ xs.
Proof.
  unfold arrayIncludes. induction xs as [|x xs IH]; simpl.
  - rewrite elem_of_nil. split; [discriminate|tauto].
  - rewrite orb_true_iff, IH, elem_of_cons, js_eqb_eq. reflexivity.
Qed.

Lemma includesValue_false (xs : list jsstring) (v : JsValue) :
  includesValue xs v = false <-> (forall s, v = JStr s -> s ∉ xs).
Proof.
  destruct v; simpl; try (split; [intros _ s' [=] | reflexivity]).
  rewrite <- not_true_iff_false, arrayIncludes_elem_of.
  split; [intros H s' [= <-]; exact H | intros H; apply H; reflexivity].
Qed.

Lemma flagOf_setFlag (t : jsstring) (b : bool) (v : VerificationStatus) :
  t ∈ validTypes -> flagOf t (setFlag t b v) = Some b.
Proof.
  intros Ht. unfold validTypes in Ht. rewrite !elem_of_cons, elem_of_nil in Ht.
  destruct Ht as [->|[->|[->|[->|[->|[]]]]]]; reflexivity.
Qed.

Lemma flagOf_setFlag_other (t t' : jsstring) (b : bool) (v : VerificationStatus) :
  t' <> t -> flagOf t' (setFlag t b v) = flagOf t' v.
Proof.
  intros Hne. unfold flagOf, setFlag.
  cbn [aadharVerified panVerified signatureVerified emailVerified phoneVerified].
  repeat match goal with
  | |- context [eqb t' ?c] =>
      let E := fresh "E" in
      destruct (eqb t' c) eqn:E;
      [apply js_eqb_eq in E; subst t';
       destruct (eqb t c) eqn:E; [apply js_eqb_eq in E; congruence | reflexivity]
      | clear E]
  end.
  reflexivity.
Qed.

(** C2: a verify request that names one of the five flags and gives a boolean
    sets that flag of the record to the boolean and leaves the other four
    flags, and the rest of the record, as stored; the answer carries the flags
    and [isFullyVerified()] of the updated record.  A request that names
    anything else is answered 400 and nothing changes. *)
Theorem verify_sets_exactly_one_flag (req : Request) (w : World) :
  let verificationType := Mongoose.field (body req) "verificationType" in
  let isVerified := Mongoose.field (body req) "isVerified" in
  (forall t b oid r,
     verificationType = JStr t -> t ∈ validTypes -> isVerified = JBool b ->
     castObjectId M (id req) = Some oid -> db w !! oid = Some r ->
     exists r',
       verifyRegistration M req w =
         (Json 200 true (js "Verification status updated successfully")
               (VerificationData oid (verificationStatus r') (isFullyVerified r')),
          {| disk := disk w; db := <[oid := r']> (db w) |})
       /\ flagOf t (verificationStatus r') = Some b
       /\ (forall t', t' <> t ->
             flagOf t' (verificationStatus r') = flagOf t' (verificationStatus r))
       /\ isFullyVerified r'
          = aadharVerified (verificationStatus r') && signatureVerified (verificationStatus r')
            && emailVerified (verificationStatus r') && phoneVerified (verificationStatus r')
       /\ (personal r', aadharFile r', panFile r', signatureFile r',
           registrationStatus r', adminNotes r', submissionDate r')
          = (personal r, aadharFile r, panFile r, signatureFile r,
             registrationStatus r, adminNotes r, submissionDate r))
  /\ ((forall t, verificationType = JStr t -> t ∉ validTypes) ->
      verifyRegistration M req w =
        (Json 400 false (js "Invalid verification type") NoData, w)).
Proof.
  intros verificationType isVerified. subst verificationType isVerified. split.
  - intros t b oid r Ht Hin Hb Hid Hr.
    exists (setVerification t b r).
    split; [|split; [|split; [|split]]].
    + unfold verifyRegistration. cbv zeta. rewrite Ht, Hb. cbn [includesValue].
      apply arrayIncludes_elem_of in Hin. rewrite Hin. cbn [negb].
      unfold findByIdAndUpdate, verificationUpdate. rewrite Hid, Hr. reflexivity.
    + apply flagOf_setFlag. exact Hin.
    + intros t' Hne. apply flagOf_setFlag_other. exact Hne.
    + reflexivity.
    + reflexivity.
  - intros Hout. apply includesValue_false in Hout.
    unfold verifyRegistration. cbv zeta. rewrite Hout. reflexivity.
Qed.

(** An [adminNotes] that is an object or an array fails the cast of the
    update: the handler answers 500 and nothing changes. *)
Lemma updateStatus_object_notes (req : Request) (w : World) (s o : jsstring) :
  Mongoose.field (body req) "status" = JStr s -> s ∈ validStatuses ->
  Mongoose.field (body req) "adminNotes" = JObject o ->
  is_Some (castObjectId M (id req)) ->
  updateStatus M req w
  = (Json 500 false (js "Failed to update registration status")
          (ErrorDetail (messageOf (stringError (JObject o) "adminNotes"))), w).
Proof.
  intros Hs Hin Ho [oid Hid]. unfold updateStatus. cbv zeta. rewrite Hs, Ho.
  cbn [includesValue]. apply arrayIncludes_elem_of in Hin. rewrite Hin. cbn [negb].
  unfold findByIdAndUpdate. rewrite Hid. reflexivity.
Qed.


End TradingFacts.

(** ** Statistics *)

Section GroupFacts.
Import Trading (bump, groupCount, occurrences, countFor).
Context {K : Type} `{EqDecision K} (same : K -> K -> bool).
Context (same_spec : forall a b, same a b = true <-> a = b).

Lemma countFor_bump (k k' : K) (groups : list (K * nat)) :
  countFor same k' (bump same k groups) =
  if decide (k' = k) then Some (S (default 0%nat (countFor same k groups))) else countFor same k' groups.
Proof.
  induction groups as [|[k0 n] groups IH]; simpl.
  - destruct (decide (k' = k)) as [->|Hne].
    + rewrite (proj2 (same_spec k k) eq_refl). reflexivity.
    + destruct (same k' k) eqn:E; [apply same_spec in E; contradiction | reflexivity].
  - destruct (same k k0) eqn:E; simpl.
    + apply same_spec in E as <-.
      destruct (decide (k' = k)) as [->|Hne].
      * rewrite (proj2 (same_spec k k) eq_refl). reflexivity.
      * destruct (same k' k) eqn:E'; [apply same_spec in E'; contradiction | reflexivity].
    + rewrite IH. destruct (decide (k' = k)) as [->|Hne].
      * rewrite E. reflexivity.
      * reflexivity.
Qed.

Lemma bump_keys (k : K) (groups : list (K * nat)) :
  NoDup (groups.*1) -> NoDup ((bump same k groups).*1)
  /\ (forall x, x ∈ (bump same k groups).*1 <-> x = k \/ x ∈ groups.*1).
Proof.
  induction groups as [|[k0 n] groups IH]; simpl; intros Hnd.
  - split; [apply NoDup_singleton|]. intros x. rewrite list_elem_of_singleton, elem_of_nil. tauto.
  - apply NoDup_cons in Hnd as [H0 Hnd]. destruct (IH Hnd) as [IH1 IH2].
    destruct (same k k0) eqn:E; simpl.
    + apply same_spec in E as <-. split; [apply NoDup_cons; split; assumption|].
      intros x. rewrite elem_of_cons. tauto.
    + split.
      * apply NoDup_cons. split; [|exact IH1]. rewrite IH2. intros [->|H]; [|contradiction].
        rewrite (proj2 (same_spec k k) eq_refl) in E. discriminate.
      * intros x. rewrite !elem_of_cons, IH2. tauto.
Qed.

Lemma countFor_elem_of (k : K) (n : nat) (groups : list (K * nat)) :
  NoDup (groups.*1) -> (k, n) ∈ groups <-> countFor same k groups = Some n.
Proof.
  induction groups as [|[k0 m] groups IH]; simpl; intros Hnd.
  - rewrite elem_of_nil. split; [tauto|discriminate].
  - apply NoDup_cons in Hnd as [H0 Hnd]. rewrite elem_of_cons, (IH Hnd).
    destruct (same k k0) eqn:E.
    + apply same_spec in E as <-. split; [intros [[= ->]|H]|intros [= ->]; left; reflexivity].
      * reflexivity.
      * exfalso. apply H0. apply (IH Hnd) in H. apply list_elem_of_fmap.
        exists (k, n). split; [reflexivity|exact H].
    + split; [intros [[= -> ->]|H]; [|exact H] | tauto].
      rewrite (proj2 (same_spec k0 k0) eq_refl) in E. discriminate.
Qed.

Lemma occurrences_snoc (k x : K) (keys : list K) :
  occurrences k (keys ++ [x]) =
  if decide (k = x) then S (occurrences k keys) else occurrences k keys.
Proof.
  unfold occurrences. rewrite filter_app, length_app, filter_cons, filter_nil.
  destruct (decide (x = k)) as [->|Hne]; simpl.
  - rewrite decide_True by reflexivity. lia.
  - rewrite decide_False by congruence. simpl. lia.
Qed.

Lemma fold_bump (keys : list K) (groups : list (K * nat)) (seen : list K) :
  NoDup (groups.*1) ->
  (forall k, countFor same k groups =
             if decide (occurrences k seen = 0)%nat then None else Some (occurrences k seen)) ->
  let result := fold_left (fun groups k => bump same k groups) keys groups in
  NoDup (result.*1)
  /\ forall k, countFor same k result =
               if decide (occurrences k (seen ++ keys) = 0)%nat then None
               else Some (occurrences k (seen ++ keys)).
Proof.
  revert groups seen. induction keys as [|x keys IH]; intros groups seen Hnd Hinv; simpl.
  - rewrite app_nil_r. split; assumption.
  - replace (seen ++ x :: keys) with ((seen ++ [x]) ++ keys) by (rewrite <- app_assoc; reflexivity).
    apply IH; [apply bump_keys; exact Hnd|].
    intros k. rewrite countFor_bump, occurrences_snoc.
    destruct (decide (k = x)) as [->|Hne].
    + rewrite Hinv. destruct (decide (occurrences x seen = 0)%nat) as [->|H0]; simpl.
      * reflexivity.
      * reflexivity.
    + apply Hinv.
Qed.

(** A group stage reports, for each key that occurs, how often it occurs. *)
Lemma groupCount_spec (keys : list K) (k : K) (n : nat) :
  (k, n) ∈ groupCount same keys <-> n = occurrences k keys /\ (0 < n)%nat.
Proof.
  destruct (fold_bump keys [] [] (NoDup_nil_2) (fun _ => eq_refl)) as [Hnd Hcount].
  simpl in Hnd, Hcount. fold (groupCount same keys) in Hnd, Hcount.
  rewrite (countFor_elem_of k n _ Hnd), Hcount.
  destruct (decide (occurrences k keys = 0)%nat) as [H0|H0].
  - split; [discriminate|]. lia.
  - split; [intros [= <-]; lia | intros [-> _]; reflexivity].
Qed.

End GroupFacts.

Section StatsFacts.
Import Js Multer Trading.
Context (rt : Mongoose.Runtime).

Lemma occurrences_fmap {A} (f : A -> bool) (b : bool) (l : list A) :
  occurrences b (f <$> l) = length (filter (fun x => f x = b) l).
Proof.
  unfold occurrences. induction l as [|x l IH]; [reflexivity|].
  rewrite fmap_cons, !filter_cons.
  destruct (decide (f x = b)); simpl; rewrite IH; reflexivity.
Qed.

Lemma startOfToday_is_local_midnight (off : Z) :
  Mongoose.localTZA rt (Mongoose.now rt) true = off ->
  Mongoose.localTZA rt ((Mongoose.now rt + off) / msPerDay * msPerDay)%Z false = off ->
  (startOfToday rt <= Mongoose.now rt < startOfToday rt + msPerDay)%Z
  /\ ((startOfToday rt + off) mod msPerDay = 0)%Z.
Proof.
  intros H1 H2. unfold startOfToday. rewrite H1, H2. unfold msPerDay.
  set (t := (Mongoose.now rt + off)%Z).
  assert (Hd := Z.div_mod t 86400000 ltac:(lia)).
  assert (Hm := Z.mod_pos_bound t 86400000 ltac:(lia)).
  split; [lia|].
  replace (t / 86400000 * 86400000 - off + off)%Z with (t / 86400000 * 86400000)%Z by lia.
  apply Z.mod_mul. lia.
Qed.

(** C8: the statistics group the records by the AND of exactly the four flags
    [aadharVerified], [signatureVerified], [emailVerified] and
    [phoneVerified]: each group that occurs is reported with the number of its
    records, and [panVerified] has no part in it; the count of today is the
    number of records whose [submissionDate] is at or after the start of the
    current local day, which is local midnight when the offset of local time
    is the same then and now. *)
Theorem stats_group_by_four_flags_and_count_today (w : World) :
  let docs := documents w in
  exists statusBreakdown today verificationStats,
    getStats rt w =
      (Json 200 true [] (StatsData statusBreakdown (length docs) today verificationStats), w)
    /\ (forall b n,
          (b, n) ∈ verificationStats <->
          (0 < n)%nat
          /\ n = length (filter (fun r =>
                   aadharVerified (verificationStatus r)
                   && signatureVerified (verificationStatus r)
                   && emailVerified (verificationStatus r)
                   && phoneVerified (verificationStatus r) = b) docs))
    /\ (forall r b, fullyVerified (setVerification (js "panVerified") b r) = fullyVerified r)
    /\ today = length (filter (fun r => (startOfToday rt <= submissionDate r)%Z) docs)
    /\ (forall off,
          Mongoose.localTZA rt (Mongoose.now rt) true = off ->
          Mongoose.localTZA rt ((Mongoose.now rt + off) / msPerDay * msPerDay)%Z false = off ->
          (startOfToday rt <= Mongoose.now rt < startOfToday rt + msPerDay)%Z
          /\ ((startOfToday rt + off) mod msPerDay = 0)%Z).
Proof.
  intros docs. eexists _, _, _. split; [reflexivity|].
  split; [|split; [|split]].
  - intros b n. fold docs.
    rewrite (groupCount_spec Bool.eqb Bool.eqb_true_iff), occurrences_fmap.
    unfold fullyVerified. split; intros [H1 H2]; split; try assumption; lia.
  - intros r b. reflexivity.
  - fold docs. f_equal. apply list_filter_iff. intros r.
    rewrite Is_true_true, Z.leb_le. reflexivity.
  - apply startOfToday_is_local_midnight.
Qed.

End StatsFacts.

Section CreateFacts.
Import Js Multer Trading.
Context (rt : Mongoose.Runtime) (M : Model).

(** C1 (amended): when the persistence attempt of a trading registration
    fails, [POST /] removes every file of the request from the disk, touches
    no other file and no record, and answers 400 with the error map of
    [handleRegistrationErrors]; when the persistence attempt of a generic
    registration fails, [POST /submit] answers 500 with a fixed message and
    stores nothing. *)
Theorem failed_create_cleans_up_and_answers :
  (forall req w error,
     create M rt (dataOf req false) (db w) = inl error ->
     exists w',
       createRegistration rt M req w =
         (Json 400 false (js "Registration failed")
               (Errors (handleRegistrationErrors error)), w')
       /\ db w' = db w
       /\ (forall p, p ∈ uploadedPaths req -> p ∉ disk w')
       /\ (forall p, p ∉ uploadedPaths req -> p ∈ disk w' <-> p ∈ disk w))
  /\ (forall greq st errors,
        truthy (Mongoose.field (UserForm.body greq) "firstName") = true ->
        truthy (Mongoose.field (UserForm.body greq) "lastName") = true ->
        truthy (Mongoose.field (UserForm.body greq) "email") = true ->
        truthy (UserForm.uploadedPath greq "aadharFile") = true ->
        truthy (UserForm.uploadedPath greq "signatureFile") = true ->
        Mongoose.save rt UserForm.userFormSchema (UserForm.newUser greq)
          = Mongoose.ValidationError errors ->
        UserForm.submitForm rt greq st =
          ({| UserForm.status := 500;
              UserForm.message := js "Something went wrong. Please try again." |}, st)).
Proof.
  split.
  - intros req w error He.
    exists {| disk := cleanUp req (disk w); db := db w |}.
    split; [|split; [|split]].
    + unfold createRegistration. rewrite He. reflexivity.
    + reflexivity.
    + intros p Hp. simpl. unfold cleanUp. rewrite elem_of_unlinkExisting. tauto.
    + intros p Hp. simpl. unfold cleanUp. rewrite elem_of_unlinkExisting. tauto.
  - intros greq st errors H1 H2 H3 H4 H5 Hs. unfold UserForm.submitForm.
    rewrite H1, H2, H3, H4, H5, Hs. reflexivity.
Qed.


(** The paths a registration refers to are the non-empty paths of its three
    attachments. *)
Lemma elem_of_filesToDelete (r : Registration) (p : jsstring) :
  p ∈ filesToDelete r <->
  p <> [] /\ exists f, (aadharFile r = Some f \/ panFile r = Some f \/ signatureFile r = Some f)
                       /\ path f = p.
Proof.
  unfold filesToDelete. rewrite list_elem_of_filter, list_elem_of_omap.
  rewrite negb_True, Is_true_true, js_eqb_eq.
  split.
  - intros [Hne (o & Ho & Hp)]. split; [exact Hne|].
    destruct o as [f|]; [|discriminate]. injection Hp as <-. exists f. split; [|reflexivity].
    rewrite !elem_of_cons, elem_of_nil in Ho. destruct Ho as [->|[->|[->|[]]]]; auto.
  - intros [Hne (f & Hf & <-)]. split; [exact Hne|]. exists (Some f). split; [|reflexivity].
    rewrite !elem_of_cons. destruct Hf as [-> | [-> | ->]]; auto.
Qed.

End CreateFacts.

Section UploadFacts.
Import Js Multer Trading.

Lemma allFiles_appendFile (files : Files) (f x : File) :
  x ∈ allFiles (appendFile files f) <-> x = f \/ x ∈ allFiles files.
Proof.
  unfold allFiles. induction files as [|[k fs] files IH]; simpl.
  - rewrite ?app_nil_r, list_elem_of_singleton, elem_of_nil. tauto.
  - destruct (String.eqb k (fieldname f)); simpl.
    + rewrite !elem_of_app, list_elem_of_singleton. tauto.
    + rewrite !elem_of_app, IH. tauto.
Qed.

Lemma keyed_appendFile (files : Files) (f : File) :
  keyed files -> keyed (appendFile files f).
Proof.
  unfold keyed. induction files as [|[k fs] files IH]; simpl; intros H.
  - repeat constructor.
  - apply Forall_cons in H as [Hk H].
    destruct (String.eqb_spec k (fieldname f)) as [->|Hne].
    + constructor; [|exact H]. apply Forall_app. split; [exact Hk|]. repeat constructor.
    + constructor; [exact Hk|]. apply IH. exact H.
Qed.

Lemma filesOf_keyed (files : Files) (name : string) (fs : list File) (f : File) :
  keyed files -> filesOf files name = Some fs -> f ∈ fs ->
  fieldname f = name /\ f ∈ allFiles files.
Proof.
  unfold keyed, allFiles. induction files as [|[k l] files IH]; simpl; intros H Hf Hin.
  - discriminate.
  - apply Forall_cons in H as [Hk H].
    destruct (String.eqb_spec k name) as [->|Hne].
    + injection Hf as ->. split.
      * rewrite Forall_forall in Hk. apply Hk. exact Hin.
      * apply elem_of_app. left. exact Hin.
    + destruct (IH H Hf Hin) as [H1 H2]. split; [exact H1|].
      apply elem_of_app. right. exact H2.
Qed.

(** The upload middleware removes from the disk only files that this request
    stored, and the files it hands to the handler are the stored parts. *)
Lemma uploadParts_spec (parts : list Upload) (files : Files) (d : Disk)
    (res : UploadError + Files) (d' : Disk) :
  uploadParts parts files d = (res, d') ->
  (forall p, p ∈ d -> p ∉ d' ->
     p ∈ Multer.path <$> allFiles files
     \/ exists u, u ∈ parts /\ p = Multer.path (stored u))
  /\ (forall fs, res = inr fs ->
        (keyed files -> keyed fs)
        /\ forall f, f ∈ allFiles fs ->
             f ∈ allFiles files \/ exists u, u ∈ parts /\ f = stored u).
Proof.
  revert files d. induction parts as [|u parts IH]; intros files d; simpl.
  - intros [= <- <-]. split; [intros p Hp Hn; contradiction|].
    intros fs [= <-]. split; [tauto|]. intros f Hf. left. exact Hf.
  - assert (Herr : forall p,
              p ∈ d -> p ∉ unlinkExisting d (Multer.path <$> allFiles files) ->
              p ∈ Multer.path <$> allFiles files
              \/ exists u0, u0 ∈ u :: parts /\ p = Multer.path (stored u0)).
    { intros p Hp Hn. left. rewrite elem_of_unlinkExisting in Hn.
      destruct (decide (p ∈ Multer.path <$> allFiles files)); [assumption|tauto]. }
    destruct (_ <=? _)%nat.
    { intros [= <- <-]. split; [apply Herr|]. intros fs [=]. }
    destruct (fileFilter u) as [m|].
    { intros [= <- <-]. split; [apply Herr|]. intros fs [=]. }
    destruct (fileSize <? bytes u).
    { intros [= <- <-]. split; [apply Herr|]. intros fs [=]. }
    intros Hrec. destruct (IH _ _ Hrec) as [IH1 IH2]. split.
    + intros p Hp Hn.
      assert (Hp' : p ∈ ({[Multer.path (stored u)]} ∪ d : Disk)).
      { apply elem_of_union. right. exact Hp. }
      destruct (IH1 p Hp' Hn) as [H|(u0 & Hu0 & ->)].
      * apply list_elem_of_fmap in H as (f & -> & Hf).
        apply allFiles_appendFile in Hf as [->|Hf].
        -- right. exists u. split; [left|reflexivity].
        -- left. apply list_elem_of_fmap. exists f. split; [reflexivity|exact Hf].
      * right. exists u0. split; [right; exact Hu0|reflexivity].
    + intros fs Hfs. destruct (IH2 fs Hfs) as [Hk Hall]. split.
      * intros H. apply Hk, keyed_appendFile, H.
      * intros f Hf. destruct (Hall f Hf) as [H|(u0 & Hu0 & ->)].
        -- apply allFiles_appendFile in H as [->|H].
           ++ right. exists u. split; [left|reflexivity].
           ++ left. exact H.
        -- right. exists u0. split; [right; exact Hu0|reflexivity].
Qed.

Lemma uploadFields_spec (parts : list Upload) (d : Disk)
    (res : UploadError + Files) (d' : Disk) :
  uploadFields parts d = (res, d') ->
  (forall p, p ∈ d -> p ∉ d' -> exists u, u ∈ parts /\ p = Multer.path (stored u))
  /\ (forall fs, res = inr fs ->
        keyed fs /\ forall f, f ∈ allFiles fs -> exists u, u ∈ parts /\ f = stored u).
Proof.
  intros H. apply uploadParts_spec in H as [H1 H2]. split.
  - intros p Hp Hn. destruct (H1 p Hp Hn) as [H|H]; [|exact H].
    simpl in H. inversion H.
  - intros fs Hfs. destruct (H2 fs Hfs) as [Hk Hall]. split.
    + apply Hk. constructor.
    + intros f Hf. destruct (Hall f Hf) as [H|H]; [inversion H|exact H].
Qed.


End UploadFacts.

Section FrameFacts.
Import Js Multer Trading.
Context (rt : Mongoose.Runtime) (M : Model).

Lemma supersede_spec (req : Request) (name : string) (old : option FileData) (d : Disk)
    (p : jsstring) :
  p ∈ d -> p ∉ supersede req name old d ->
  exists file f, uploaded req name = Some file /\ old = Some f /\ path f = p.
Proof.
  unfold supersede. intros Hp Hn.
  destruct (uploaded req name) as [file|]; [|contradiction].
  destruct old as [f|]; [|contradiction].
  exists file, f. split; [reflexivity|]. split; [reflexivity|].
  rewrite elem_of_unlinkExisting in Hn.
  destruct (decide (path f = p)) as [Heq|Hne]; [exact Heq|].
  exfalso. apply Hn. split; [exact Hp|]. rewrite list_elem_of_singleton. congruence.
Qed.

Lemma uploaded_part (parts : list Upload) (fs : Files) (req : Request) (name : string)
    (file : File) :
  keyed fs -> (forall f, f ∈ allFiles fs -> exists u, u ∈ parts /\ f = stored u) ->
  files req = Some fs -> uploaded req name = Some file ->
  exists u, u ∈ parts /\ field u = name.
Proof.
  intros Hk Hall Hfs Hu. unfold uploaded in Hu. rewrite Hfs in Hu.
  destruct (filesOf fs name) as [[|f l]|] eqn:Ef; try discriminate.
  injection Hu as ->.
  destruct (filesOf_keyed fs name (file :: l) file Hk Ef ltac:(left)) as [Hname Hin].
  destruct (Hall file Hin) as (u & Hu & ->). exists u. split; [exact Hu|exact Hname].
Qed.

Lemma cleanUp_spec (parts : list Upload) (fs : Files) (req : Request) (d : Disk) (p : jsstring) :
  (forall f, f ∈ allFiles fs -> exists u, u ∈ parts /\ f = stored u) ->
  files req = Some fs -> p ∈ d -> p ∉ cleanUp req d ->
  exists u, u ∈ parts /\ p = Multer.path (stored u).
Proof.
  intros Hall Hfs Hp Hn. unfold cleanUp, uploadedPaths in Hn. rewrite Hfs in Hn.
  rewrite elem_of_unlinkExisting in Hn.
  destruct (decide (p ∈ Multer.path <$> allFiles fs)) as [Hin|Hout]; [|tauto].
  apply list_elem_of_fmap in Hin as (f & -> & Hf).
  destruct (Hall f Hf) as (u & Hu & ->). exists u. split; [exact Hu|reflexivity].
Qed.

(** What [PUT /:id] may remove from the disk. *)
Lemma updateRegistration_frame (parts : list Upload) (fs : Files) (req : Request)
    (w : World) (p : jsstring) :
  keyed fs -> (forall f, f ∈ allFiles fs -> exists u, u ∈ parts /\ f = stored u) ->
  files req = Some fs ->
  p ∈ disk w -> p ∉ disk (snd (updateRegistration rt M req w)) ->
  (exists oid r name f u,
     castObjectId M (id req) = Some oid /\ db w !! oid = Some r
     /\ attachment name r = Some f /\ path f = p /\ u ∈ parts /\ field u = name)
  \/ exists u, u ∈ parts /\ p = Multer.path (stored u).
Proof.
  intros Hk Hall Hfs Hp Hn. unfold updateRegistration, findById in Hn.
  destruct (castObjectId M (id req)) as [oid|] eqn:Hid.
  2:{ right. simpl in Hn. eapply cleanUp_spec; eassumption. }
  destruct (db w !! oid) as [r|] eqn:Hr; [|simpl in Hn; contradiction].
  set (d1 := supersede req "aadharFile" (aadharFile r) (disk w)) in *.
  set (d2 := supersede req "panFile" (panFile r) d1) in *.
  set (d3 := supersede req "signatureFile" (signatureFile r) d2) in *.
  assert (Hd3 : p ∉ d3 ->
     exists name f u, attachment name r = Some f /\ path f = p /\ u ∈ parts /\ field u = name).
  { intros H3.
    destruct (decide (p ∈ d1)) as [H1|H1].
    - destruct (decide (p ∈ d2)) as [H2|H2].
      + destruct (supersede_spec _ _ _ _ _ H2 H3) as (file & f & Hu & Ho & Hpf).
        destruct (uploaded_part parts fs req _ file Hk Hall Hfs Hu) as (u & Hu1 & Hu2).
        exists "signatureFile"%string, f, u. repeat split; assumption.
      + destruct (supersede_spec _ _ _ _ _ H1 H2) as (file & f & Hu & Ho & Hpf).
        destruct (uploaded_part parts fs req _ file Hk Hall Hfs Hu) as (u & Hu1 & Hu2).
        exists "panFile"%string, f, u. repeat split; assumption.
    - destruct (supersede_spec _ _ _ _ _ Hp H1) as (file & f & Hu & Ho & Hpf).
      destruct (uploaded_part parts fs req _ file Hk Hall Hfs Hu) as (u & Hu1 & Hu2).
      exists "aadharFile"%string, f, u. repeat split; assumption. }
  assert (Hc : p ∉ cleanUp req d3 ->
     (exists name f u, attachment name r = Some f /\ path f = p /\ u ∈ parts /\ field u = name)
     \/ exists u, u ∈ parts /\ p = Multer.path (stored u)).
  { intros Hc. destruct (decide (p ∈ d3)) as [H3|H3].
    - right. eapply cleanUp_spec; eassumption.
    - left. apply Hd3, H3. }
  assert (Hfinal :
     (exists name f u, attachment name r = Some f /\ path f = p /\ u ∈ parts /\ field u = name)
     \/ exists u, u ∈ parts /\ p = Multer.path (stored u)).
  { destruct (findByIdAndUpdate M (id req) (update M rt (dataOf req true)) (db w))
      as [[error|[[oid' r']|]] db'] eqn:Eu; cbn [snd disk] in Hn.
    - apply Hc, Hn.
    - left. apply Hd3, Hn.
    - apply Hc, Hn. }
  destruct Hfinal as [(name & f & u & H)|H]; [left|right; exact H].
  exists oid, r, name, f, u.
  split; [first [reflexivity|exact Hid]|]. split; [first [reflexivity|exact Hr]|exact H].
Qed.


(** The handlers that take no upload leave the disk as it is, [DELETE]
    apart. *)
Lemma plain_handlers_keep_disk (req : Request) (w : World) :
  disk (snd (getRegistration M req w)) = disk w
  /\ disk (snd (updateStatus M req w)) = disk w
  /\ disk (snd (verifyRegistration M req w)) = disk w
  /\ disk (snd (getStats rt w)) = disk w.
Proof.
  repeat split.
  - unfold getRegistration. destruct (findById M (id req) (db w)) as [e|[oid [r|]]];
      try reflexivity. destruct (kindOf e) as [k|]; [destruct (eqb k _)|]; reflexivity.
  - unfold updateStatus. destruct (negb _); [reflexivity|].
    destruct (findByIdAndUpdate _ _ _ _) as [[e|[[oid r]|]] db']; reflexivity.
  - unfold verifyRegistration. destruct (negb _); [reflexivity|].
    destruct (findByIdAndUpdate _ _ _ _) as [[e|[[oid r]|]] db']; reflexivity.
Qed.


End FrameFacts.

Section IntakeFacts.
Import Js Regex Multer Trading.
Context (rt : Mongoose.Runtime) (M : Model).

(** The pattern of a field whose name the object literal does not inherit. *)
Lemma fileTypeOf_pattern (u : Upload) :
  field u ∉ inheritedNames ->
  fileTypeOf u
  = Some (if String.eqb (field u) "signatureFile" then imageOnly else imageOrPdf).
Proof.
  intros Hn. unfold fileTypeOf, allowedTypes.
  destruct (String.eqb_spec (field u) "aadharFile") as [E|_]; [rewrite E; reflexivity|].
  destruct (String.eqb (field u) "signatureFile"); [reflexivity|].
  destruct (existsb (String.eqb (field u)) inheritedNames) eqn:Ex; [|reflexivity].
  exfalso. apply Hn. apply existsb_exists in Ex as (k & Hk & E).
  apply String.eqb_eq in E. subst k. apply list_elem_of_In, Hk.
Qed.

Lemma fileTypeOf_inherited (u : Upload) :
  field u ∈ inheritedNames -> fileTypeOf u = None.
Proof.
  intros Hin. unfold inheritedNames in Hin.
  repeat (apply elem_of_cons in Hin as [E|Hin];
          [unfold fileTypeOf, allowedTypes; rewrite E; reflexivity|]).
  inversion Hin.
Qed.

(** The filter lets a file in exactly when both its lower-cased extension and
    its declared content type pass the pattern of its field. *)
Lemma fileFilter_accepts (u : Upload) :
  fileFilter u = None <->
  exists fileType,
    fileTypeOf u = Some fileType
    /\ test fileType (toLowerCase (extname (name u))) = true
    /\ test fileType (contentType u) = true.
Proof.
  unfold fileFilter. destruct (fileTypeOf u) as [fileType|].
  - destruct (test fileType (contentType u)) eqn:E1;
      destruct (test fileType (toLowerCase (extname (name u)))) eqn:E2; simpl;
      (split; [try discriminate; intros _; exists fileType; auto
              |try reflexivity; intros (re & [= <-] & H1 & H2); congruence]).
  - split; [discriminate|]. intros (re & H & _). discriminate.
Qed.

(** A file is refused when its lower-cased extension, or its declared
    content type, holds none of the words of its field's pattern: [jpeg],
    [jpg], [png] and, for a field other than the signature, [pdf]. *)
Lemma fileFilter_refuses (u : Upload) :
  let words :=
    if String.eqb (field u) "signatureFile" then [js "jpeg"; js "jpg"; js "png"]
    else [js "jpeg"; js "jpg"; js "png"; js "pdf"] in
  Forall (fun w => includes w (toLowerCase (extname (name u))) = false) words
  \/ Forall (fun w => includes w (contentType u) = false) words ->
  exists m, fileFilter u = Some m.
Proof.
  intros words H.
  destruct (fileFilter u) as [m|] eqn:E; [exists m; reflexivity|].
  exfalso. apply fileFilter_accepts in E as (fileType & Hre & He & Hm).
  assert (Hw : forall s, test fileType s = true ->
                         ~ Forall (fun w => includes w s = false) words).
  { intros s Ht Hall. unfold fileTypeOf, allowedTypes, words in *.
    destruct (String.eqb (field u) "aadharFile") eqn:Ea.
    - apply String.eqb_eq in Ea. rewrite Ea in Hall. simpl in Hall.
      injection Hre as <-.
      apply (proj1 (test_fileType s)) in Ht.
      rewrite !Forall_cons in Hall.
      destruct Hall as (H1 & H2 & H3 & H4 & _). destruct Ht as [Ht|[Ht|[Ht|Ht]]]; congruence.
    - destruct (String.eqb (field u) "signatureFile").
      + injection Hre as <-. apply (proj2 (test_fileType s)) in Ht.
        rewrite !Forall_cons in Hall.
        destruct Hall as (H1 & H2 & H3 & _). destruct Ht as [Ht|[Ht|Ht]]; congruence.
      + destruct (existsb _ _); [discriminate|]. injection Hre as <-.
        apply (proj1 (test_fileType s)) in Ht.
        rewrite !Forall_cons in Hall.
        destruct Hall as (H1 & H2 & H3 & H4 & _).
        destruct Ht as [Ht|[Ht|[Ht|Ht]]]; congruence. }
  destruct H as [H|H]; [apply (Hw _ He H) | apply (Hw _ Hm H)].
Qed.

Lemma world_eta (w : World) : {| disk := disk w; db := db w |} = w.
Proof. destruct w. reflexivity. Qed.

(** A first file that the filter refuses, or that is larger than 5 MiB, ends
    the request in the upload middleware: the handler does not run, no record
    is written, and Express's own error handler answers 500. *)
Lemma refused_upload_skips_the_handler (b : gmap string JsValue) (u : Upload)
    (parts : list Upload) (w : World) :
  filesLeft uploadFieldsConfig (field u) <> 0%nat ->
  (forall m, fileFilter u = Some m ->
     router rt M (PostRegistration b (u :: parts)) w
     = (DefaultError 500 (FilterError m), w))
  /\ (fileFilter u = None -> 5 * 1024 * 1024 < bytes u ->
      router rt M (PostRegistration b (u :: parts)) w
      = (DefaultError 500 (MulterError "LIMIT_FILE_SIZE" (field u)), w)).
Proof.
  intros Hleft. unfold router, behindUpload, uploadFields. cbn [uploadParts countOf filesOf].
  destruct (Nat.leb_spec (filesLeft uploadFieldsConfig (field u)) 0) as [H|_]; [lia|].
  split.
  - intros m ->. cbn. rewrite world_eta. reflexivity.
  - intros -> Hsize. apply N.ltb_lt in Hsize. unfold fileSize. rewrite Hsize.
    cbn. rewrite world_eta. reflexivity.
Qed.

End IntakeFacts.

(** ** The handlers on the sample requests *)

Section Witnesses.
Import Js Multer Examples.

(** C4: a text file sent as the identity document is refused by the filter;
    the request ends in the upload middleware and is answered 500 by Express's
    own error handler, with nothing written, where
    [handleRegistrationErrors] would have filed the same error under
    ["file"]. *)
Lemma text_file_upload_is_answered_500 :
  let message := js "Invalid file type for aadharFile. Only jpeg|jpg|png|pdf files are allowed." in
  Trading.fileFilter notesUpload = Some message
  /\ Trading.router sampleRuntime sampleModel
       (Trading.PostRegistration (formBody (js "9876543210")) [notesUpload]) emptyWorld
     = (Trading.DefaultError 500 (Trading.FilterError message), emptyWorld)
  /\ Trading.handleRegistrationErrors (Trading.Error (js "Error") None message)
     = [("file"%string, message)].
Proof. vm_compute. repeat split; reflexivity. Qed.

Lemma failed_create_witness :
  (exists w',
     Trading.createRegistration sampleRuntime sampleModel failingCreate uploadedWorld
     = (Trading.Json 400 false (js "Registration failed")
          (Trading.Errors [("phone"%string, js "Phone number must be 10 digits")]), w')
     /\ (aadharPath ∉ Trading.disk w') /\ (signaturePath ∉ Trading.disk w'))
  /\ UserForm.submitForm sampleRuntime (formRequest (js "12345")) formState
     = ({| UserForm.status := 500;
           UserForm.message := js "Something went wrong. Please try again." |}, formState).
Proof.
  split.
  - destruct (proj1 (failed_create_cleans_up_and_answers sampleRuntime sampleModel)
                failingCreate uploadedWorld phoneError eq_refl) as (w' & E & _ & Hgone & _).
    exists w'. split; [exact E|].
    split; apply Hgone; apply (bool_decide_unpack _); vm_compute; exact I.
  - apply (proj2 (failed_create_cleans_up_and_answers sampleRuntime sampleModel)
             (formRequest (js "12345")) formState
             [("phone"%string, Mongoose.ValidatorError (js "Phone number must be 10 digits"))]);
      reflexivity.
Defined.

(** C1, as stated, fails for the generic registration: a form with both files
    stored and a phone number of five digits fails validation, is answered 500,
    not 400, and both files are still on the disk. *)
Lemma generic_failure_is_500_and_keeps_files :
  Mongoose.save sampleRuntime UserForm.userFormSchema
    (UserForm.newUser (formRequest (js "12345")))
  = Mongoose.ValidationError
      [("phone"%string, Mongoose.ValidatorError (js "Phone number must be 10 digits"))]
  /\ UserForm.status (fst (UserForm.submitForm sampleRuntime (formRequest (js "12345")) formState))
     = 500%nat
  /\ aadharPath ∈ UserForm.disk
       (snd (UserForm.submitForm sampleRuntime (formRequest (js "12345")) formState))
  /\ signaturePath ∈ UserForm.disk
       (snd (UserForm.submitForm sampleRuntime (formRequest (js "12345")) formState)).
Proof.
  split; [vm_compute; reflexivity|]. split; [vm_compute; reflexivity|].
  assert (E : snd (UserForm.submitForm sampleRuntime (formRequest (js "12345")) formState)
              = formState) by (vm_compute; reflexivity).
  rewrite E. unfold formState. simpl. split; set_solver.
Qed.


Lemma verify_sets_exactly_one_flag_witness :
  exists r',
    Trading.verifyRegistration sampleModel verifyEmail sampleWorld
    = (Trading.Json 200 true (js "Verification status updated successfully")
         (Trading.VerificationData sampleOid (Trading.verificationStatus r')
            (Trading.isFullyVerified r')),
       {| Trading.disk := Trading.disk sampleWorld;
          Trading.db := <[sampleOid := r']> (Trading.db sampleWorld) |})
    /\ Trading.flagOf (js "emailVerified") (Trading.verificationStatus r') = Some true
    /\ Trading.flagOf (js "panVerified") (Trading.verificationStatus r') = Some false
    /\ Trading.flagOf (js "phoneVerified") (Trading.verificationStatus r') = Some true.
Proof.
  destruct (proj1 (verify_sets_exactly_one_flag sampleModel verifyEmail sampleWorld)
              (js "emailVerified") true sampleOid sampleRegistration
              eq_refl ltac:(apply (bool_decide_unpack _); vm_compute; exact I) eq_refl eq_refl
              ltac:(apply lookup_singleton_eq))
    as (r' & E & Hflag & Hother & _).
  exists r'. split; [exact E|]. split; [exact Hflag|].
  split; (rewrite Hother; [reflexivity|discriminate]).
Defined.





Lemma get_unknown_or_malformed_witness :
  Trading.getRegistration sampleModel (jsonRequest (js "not-an-id") ∅) sampleWorld
  = (Trading.notFound, sampleWorld)
  /\ Trading.getRegistration sampleModel
       (jsonRequest (js "000000000000000000000001") ∅) sampleWorld
     = (Trading.notFound, sampleWorld).
Proof.
  split.
  - apply (proj1 (get_unknown_or_malformed_is_404 sampleModel
                    (jsonRequest (js "not-an-id") ∅) sampleWorld)).
    reflexivity.
  - apply (proj1 (proj2 (get_unknown_or_malformed_is_404 sampleModel
                           (jsonRequest (js "000000000000000000000001") ∅) sampleWorld)) 1).
    + reflexivity.
    + apply lookup_singleton_ne. vm_compute. discriminate.
Defined.



Lemma stats_witness :
  exists statusBreakdown today verificationStats,
    Trading.getStats sampleRuntime sampleWorld
    = (Trading.Json 200 true []
         (Trading.StatsData statusBreakdown 1 today verificationStats), sampleWorld)
    /\ (false, 1%nat) ∈ verificationStats
    /\ (Trading.startOfToday sampleRuntime <= 1700000000000
        < Trading.startOfToday sampleRuntime + Trading.msPerDay)%Z.
Proof.
  destruct (stats_group_by_four_flags_and_count_today sampleRuntime sampleWorld)
    as (sb & today & vs & E & Hvs & _ & _ & Hmid).
  exists sb, today, vs. split; [exact E|]. split.
  - apply Hvs. vm_compute. split; [lia|reflexivity].
  - apply (Hmid 19800000%Z); reflexivity.
Defined.

(** C9, as stated, fails: the amount of a request for [₹1,500] is cleaned to
    the number 1500, and the document stored holds the string [1500] in its
    [amount], not that number. *)
Lemma savePayment_stores_text :
  Payment.cleanAmount
    (Mongoose.field (samplePayment (JStr (8377 :: js "1,500")) (JStr (js "Paid"))) "amount")
  = Finite false 1500 0
  /\ exists doc,
       snd (Payment.savePayment sampleRuntime
              (samplePayment (JStr (8377 :: js "1,500")) (JStr (js "Paid"))) []) = [doc]
       /\ doc !! "amount"%string = Some (VStr (js "1500"))
       /\ doc !! "amount"%string <> Some (VNum (Finite false 1500 0)).
Proof.
  split; [vm_compute; reflexivity|].
  eexists. split; [vm_compute; reflexivity|].
  split; [vm_compute; reflexivity|]. vm_compute. discriminate.
Qed.

Lemma savePayment_falsy_is_missing_witness :
  Payment.savePayment sampleRuntime
    (samplePayment (JNum (Finite false 0 0)) (JStr (js "Paid"))) []
  = (Payment.requiredReply, [])
  /\ Payment.savePayment sampleRuntime (samplePayment (JStr (js "1500")) JUndefined) []
     = (Payment.requiredReply, []).
Proof.
  split.
  - apply (proj1 (savePayment_falsy_is_missing sampleRuntime
             (samplePayment (JNum (Finite false 0 0)) (JStr (js "Paid"))) []) false 0%Z).
    reflexivity.
  - apply (proj1 (proj2 (savePayment_falsy_is_missing sampleRuntime
             (samplePayment (JStr (js "1500")) JUndefined) []))).
    reflexivity.
Defined.

End Witnesses.

(** * Further properties of the handlers *)

(** ** The text of a number *)

Section NumberText.
Import Js.

Lemma uintUnits_revapp (d d' : Decimal.uint) :
  uintUnits (Decimal.revapp d d') = List.rev (uintUnits d) ++ uintUnits d'.
Proof.
  revert d'. induction d; intros d'; simpl; try reflexivity;
    rewrite IHd; simpl; rewrite <- app_assoc; reflexivity.
Qed.

Lemma decimalDigits_little (n : N) :
  decimalDigits n = List.rev (uintUnits (DecimalPos.Unsigned.to_lu n)).
Proof.
  unfold decimalDigits. destruct n as [|p]; [reflexivity|].
  simpl. unfold Pos.to_uint, Decimal.rev. rewrite uintUnits_revapp, app_nil_r. reflexivity.
Qed.

Lemma decimalDigits_tenfold (m : N) :
  0 < m -> decimalDigits (10 * m) = decimalDigits m ++ [48].
Proof.
  intros Hm. destruct m as [|p]; [lia|].
  rewrite !decimalDigits_little, DecimalPos.Unsigned.to_ldec_tenfold. reflexivity.
Qed.

Lemma decimalDigits_zeros (s : N) (k : nat) :
  0 < s -> decimalDigits (s * 10 ^ N.of_nat k) = decimalDigits s ++ repeat 48 k.
Proof.
  intros Hs. induction k as [|k IH].
  - simpl. rewrite N.mul_1_r, app_nil_r. reflexivity.
  - rewrite Nat2N.inj_succ, N.pow_succ_r', (N.mul_comm 10), N.mul_assoc, (N.mul_comm _ 10).
    rewrite decimalDigits_tenfold by (apply N.mul_pos_pos; [exact Hs|]; apply N.neq_0_lt_0, N.pow_nonzero; lia).
    rewrite IH, <- app_assoc. f_equal.
    change [48] with (repeat 48 1). rewrite <- repeat_app. f_equal. lia.
Qed.

Lemma stripZeros_spec (fuel : nat) (m : N) (e : Z) :
  0 < m ->
  exists s k, stripZeros fuel m e = (s, (e + Z.of_nat k)%Z) /\ 0 < s /\ m = s * 10 ^ N.of_nat k.
Proof.
  revert m e. induction fuel as [|fuel IH]; intros m e Hm; simpl.
  - exists m, 0%nat. rewrite Z.add_0_r, N.mul_1_r. auto.
  - destruct (N.ltb_spec 0 m) as [_|]; [|lia]. simpl.
    destruct (N.eqb_spec (m mod 10) 0) as [Hz|Hz].
    + assert (Hd : m = 10 * (m / 10)).
      { rewrite (N.div_mod m 10) at 1 by lia. lia. }
      destruct (IH (m / 10) (e + 1)%Z) as (s & k & E & Hs & Hk); [lia|].
      exists s, (S k). rewrite E. split; [f_equal; lia|]. split; [exact Hs|].
      rewrite Nat2N.inj_succ, N.pow_succ_r'. lia.
    + exists m, 0%nat. rewrite Z.add_0_r, N.mul_1_r. auto.
Qed.

(** The text of a whole number of at most 21 digits is its decimal digits. *)
Lemma numberToString_whole (n : N) :
  (length (decimalDigits n) <= 21)%nat -> numberToString (Finite false n 0) = decimalDigits n.
Proof.
  intros Hlen. unfold numberToString.
  destruct (N.eqb_spec n 0) as [->|Hn]; [reflexivity|].
  destruct (stripZeros_spec (N.to_nat (N.size n)) n 0) as (s & k & E & Hs & Hk); [lia|].
  rewrite E. rewrite Hk, decimalDigits_zeros in Hlen |- * by exact Hs.
  rewrite length_app, repeat_length in Hlen.
  set (ds := decimalDigits s) in *.
  replace ((Z.of_nat (length ds) <=? Z.of_nat (length ds) + (0 + Z.of_nat k))
           && (Z.of_nat (length ds) + (0 + Z.of_nat k) <=? 21))%Z with true
    by (symmetry; apply andb_true_iff; split; apply Z.leb_le; lia).
  simpl. f_equal. f_equal. lia.
Qed.

Lemma digitsValue_snoc (l : jsstring) (c : N) :
  digitsValue (l ++ [c]) = 10 * digitsValue l + (c - 48).
Proof. unfold digitsValue. rewrite fold_left_app. reflexivity. Qed.

Lemma digitsValue_little (d : Decimal.uint) :
  digitsValue (List.rev (uintUnits d)) = DecimalPos.Unsigned.of_lu d.
Proof.
  induction d; simpl; try reflexivity; rewrite digitsValue_snoc, IHd; lia.
Qed.

(** Reading the decimal digits of a number gives the number back. *)
Lemma digitsValue_decimalDigits (n : N) : digitsValue (decimalDigits n) = n.
Proof.
  rewrite decimalDigits_little, digitsValue_little.
  rewrite <- (DecimalN.Unsigned.of_to n) at 2.
  unfold N.of_uint. rewrite DecimalPos.Unsigned.of_uint_alt.
  destruct n as [|p]; [reflexivity|]. simpl. unfold Pos.to_uint.
  rewrite DecimalFacts.rev_rev. reflexivity.
Qed.

Lemma decimalDigits_nonempty (n : N) : decimalDigits n <> [].
Proof.
  unfold decimalDigits. destruct n as [|p]; [discriminate|].
  simpl. pose proof (DecimalPos.Unsigned.to_uint_nonnil p) as H.
  destruct (Pos.to_uint p); [congruence| | | | | | | | | |]; discriminate.
Qed.

Lemma numberToString_nonempty (x : JsNumber) : numberToString x <> [].
Proof.
  destruct x as [|[]|neg m e]; try discriminate.
  unfold numberToString. destruct (m =? 0); [discriminate|].
  destruct (stripZeros _ m e) as [s e'].
  pose proof (decimalDigits_nonempty s) as Hd.
  destruct (decimalDigits s) as [|d ds]; [congruence|].
  intros H. apply app_eq_nil in H as [_ H].
  repeat match type of H with
  | (if ?c then _ else _) = [] => destruct c
  end.
  all: try discriminate.
  all: try (destruct ds; discriminate).
  apply app_eq_nil in H as [_ H]. discriminate.
Qed.

Lemma toString_nonempty (v : JsValue) :
  truthy v = true -> (forall o, v <> JObject o) -> toString v <> [].
Proof.
  intros Ht Ho. destruct v as [| |[]|n|s|o]; try discriminate.
  - apply numberToString_nonempty.
  - simpl in *. intros ->. discriminate.
  - exfalso. apply (Ho o). reflexivity.
Qed.

End NumberText.

(** ** Payments, outcome by outcome *)

Section PaymentOutcomes.
Import Js Regex Mongoose Multer Payment.
Context (rt : Runtime).

Lemma castString_truthy (v : JsValue) :
  truthy v = true -> (forall o, v <> JObject o) -> castString v = Value (VStr (toString v)).
Proof.
  intros Ht Ho. destruct v; try discriminate; try reflexivity.
  exfalso. eapply Ho. reflexivity.
Qed.

Lemma check_required_text (name : string) (v : JsValue) :
  truthy v = true -> (forall o, v <> JObject o) ->
  check rt name [type TString; required None] (prepare rt [type TString; required None] v)
  = None.
Proof.
  intros Ht Ho. unfold prepare. cbn [typeOf cast]. rewrite (castString_truthy v Ht Ho).
  cbn. pose proof (toString_nonempty v Ht Ho) as Hne.
  destruct (toString v); [congruence|reflexivity].
Qed.

Lemma check_optional_text (name : string) (v : JsValue) :
  (forall o, v <> JObject o) ->
  check rt name [type TString] (prepare rt [type TString] v) = None.
Proof.
  intros Ho. destruct v; try reflexivity. exfalso. eapply Ho. reflexivity.
Qed.

Lemma check_number_text (name : string) (x : JsNumber) :
  check rt name [type TString; required None]
        (prepare rt [type TString; required None] (JNum x)) = None.
Proof.
  unfold prepare. cbn [typeOf cast castString applySetters fold_left applySetter].
  cbn [check typeOf requiredOf checkRequired toString].
  pose proof (numberToString_nonempty x) as Hne.
  destruct (numberToString x); [congruence|reflexivity].
Qed.

Lemma check_status (v : JsValue) :
  truthy v = true -> (forall o, v <> JObject o) ->
  let opts := [type TString; enum [js "Paid"; js "Pending"; js "Failed"];
               default (fun _ => VStr (js "Pending"))] in
  prepare rt opts v = Value (VStr (toString v))
  /\ check rt "paymentStatus" opts (prepare rt opts v)
     = if arrayIncludes [js "Paid"; js "Pending"; js "Failed"] (toString v) then None
       else Some (ValidatorError (enumMessage "paymentStatus" (toString v))).
Proof.
  intros Ht Ho opts. subst opts. unfold prepare. cbn [typeOf cast].
  rewrite (castString_truthy v Ht Ho). split; [reflexivity|].
  cbn [check typeOf requiredOf applySetters fold_left applySetter firstFailure runValidator].
  destruct (arrayIncludes _ _); reflexivity.
Qed.

(** The input of [new Payment], path by path. *)
Lemma newPayment_input (a b c d e f : JsValue) :
  let input : gmap string JsValue :=
    <["userName"%string := a]> (<["courseName"%string := b]> (<["amount"%string := c]>
    (<["paymentStatus"%string := d]> (<["userPhone"%string := e]>
    (<["userEmail"%string := f]> ∅))))) in
  field input "userName" = a /\ field input "courseName" = b /\ field input "amount" = c
  /\ field input "paymentStatus" = d /\ field input "userPhone" = e
  /\ field input "userEmail" = f /\ field input "createdAt" = JUndefined.
Proof.
  intros input. unfold field, input. repeat split; simplify_map_eq; reflexivity.
Qed.

(** Once the four required fields are there, none of the text fields an
    object or an array, and the amount reads as a number, the payment status
    decides between a stored payment and a validation error. *)
Lemma savePayment_decided
    (body : gmap string JsValue) (payments : list (gmap string Stored)) :
  let userName := field body "userName" in
  let courseName := field body "courseName" in
  let amount := field body "amount" in
  let paymentStatus := field body "paymentStatus" in
  truthy userName = true -> truthy courseName = true ->
  truthy amount = true -> truthy paymentStatus = true ->
  isNaN (cleanAmount amount) = false ->
  (forall v, v ∈ [userName; courseName; paymentStatus;
                  field body "userPhone"; field body "userEmail"] ->
             forall o, v <> JObject o) ->
  (toString paymentStatus ∈ [js "Paid"; js "Pending"; js "Failed"] ->
   exists doc,
     savePayment rt body payments =
       ({| status := 201; message := js "Payment saved successfully"; error := None |},
        payments ++ [doc])
     /\ doc !! "userName"%string = Some (VStr (toString userName))
     /\ doc !! "courseName"%string = Some (VStr (toString courseName))
     /\ doc !! "amount"%string = Some (VStr (numberToString (cleanAmount amount)))
     /\ doc !! "paymentStatus"%string = Some (VStr (toString paymentStatus))
     /\ doc !! "createdAt"%string = Some (VDate (now rt)))
  /\ (toString paymentStatus ∉ [js "Paid"; js "Pending"; js "Failed"] ->
      savePayment rt body payments =
        ({| status := 500; message := js "Server Error";
            error := Some [("paymentStatus"%string,
                            ValidatorError
                              (enumMessage "paymentStatus" (toString paymentStatus)))] |},
         payments)).
Proof.
  intros userName courseName amount paymentStatus H1 H2 H3 H4 Hn Ho.
  assert (Ho1 := Ho userName ltac:(repeat constructor)).
  assert (Ho2 := Ho courseName ltac:(repeat constructor)).
  assert (Ho3 := Ho paymentStatus ltac:(repeat constructor)).
  assert (Ho4 := Ho (field body "userPhone") ltac:(repeat constructor)).
  assert (Ho5 := Ho (field body "userEmail") ltac:(repeat constructor)).
  destruct (check_status paymentStatus H4 Ho3) as [Hp Hc].
  unfold savePayment. fold userName courseName amount paymentStatus.
  rewrite H1, H2, H3, H4, Hn. cbn [negb orb].
  match goal with |- context [save rt PaymentSchema ?i] => set (input := i) end.
  destruct (newPayment_input userName courseName (JNum (cleanAmount amount)) paymentStatus
              (field body "userPhone") (field body "userEmail"))
    as (F1 & F2 & F3 & F4 & F5 & F6 & F7).
  fold input in F1, F2, F3, F4, F5, F6, F7.
  assert (Hv : validateDoc rt PaymentSchema input =
               if arrayIncludes [js "Paid"; js "Pending"; js "Failed"] (toString paymentStatus)
               then []
               else [("paymentStatus"%string,
                      ValidatorError (enumMessage "paymentStatus" (toString paymentStatus)))]).
  { unfold validateDoc. cbn [paths PaymentSchema omap list_omap checkPath].
    rewrite F1, F2, F3, F4, F5, F6, F7.
    rewrite (check_required_text "userName" userName H1 Ho1).
    rewrite (check_required_text "courseName" courseName H2 Ho2).
    rewrite check_number_text.
    rewrite (check_optional_text "userPhone" _ Ho4).
    rewrite (check_optional_text "userEmail" _ Ho5).
    rewrite Hc. destruct (arrayIncludes _ _); reflexivity. }
  unfold save. rewrite Hv. split.
  - intros Hin. apply arrayIncludes_elem_of in Hin. rewrite Hin.
    eexists. split; [reflexivity|].
    assert (Hd : forall name opts,
              (name, opts) ∈ paths PaymentSchema ->
              document rt PaymentSchema input !! name =
              match prepare rt opts (field input name) with
              | Value v => Some v
              | _ => None
              end).
    { intros name opts Hin'. unfold document. cbn [timestamps PaymentSchema].
      rewrite (lookup_set_paths rt input _ [] name opts PaymentSchema_NoDup Hin').
      destruct (prepare rt opts (field input name)); reflexivity. }
    repeat split.
    + rewrite (Hd "userName"%string [type TString; required None]) by (repeat constructor).
      rewrite F1. unfold prepare. cbn [typeOf cast].
      rewrite (castString_truthy _ H1 Ho1). reflexivity.
    + rewrite (Hd "courseName"%string [type TString; required None]) by (repeat constructor).
      rewrite F2. unfold prepare. cbn [typeOf cast].
      rewrite (castString_truthy _ H2 Ho2). reflexivity.
    + rewrite (Hd "amount"%string [type TString; required None]) by (repeat constructor).
      rewrite F3. reflexivity.
    + rewrite (Hd "paymentStatus"%string
                 [type TString; enum [js "Paid"; js "Pending"; js "Failed"];
                  default (fun _ => VStr (js "Pending"))]) by (repeat constructor).
      rewrite F4, Hp. reflexivity.
    + rewrite (Hd "createdAt"%string [type TDate; default (fun rt => VDate (now rt))])
        by (repeat constructor).
      rewrite F7. reflexivity.
  - intros Hout.
    destruct (arrayIncludes _ _) eqn:E; [|reflexivity].
    apply arrayIncludes_elem_of in E. contradiction.
Qed.
(** X1: once the four required fields are there (none of them an object or an
    array, nor [userPhone] or [userEmail]) and the amount reads as a number
    of at most 15 significant digits, the payment status decides: one of
    [Paid], [Pending] and [Failed] is answered 201 and the payment is stored
    with the fields as text, the cleaned amount and the time of the request;
    any other status fails the schema's [enum], which [savePayment] answers
    with 500 "Server Error" and the validation error, not with 400, and
    nothing is stored. *)
Theorem savePayment_status_decides
    (body : gmap string JsValue) (payments : list (gmap string Stored)) :
  let userName := field body "userName" in
  let courseName := field body "courseName" in
  let amount := field body "amount" in
  let paymentStatus := field body "paymentStatus" in
  truthy userName = true -> truthy courseName = true ->
  truthy amount = true -> truthy paymentStatus = true ->
  isNaN (cleanAmount amount) = false ->
  withinDouble (cleanAmount amount) = true ->
  (forall v, v ∈ [userName; courseName; paymentStatus;
                  field body "userPhone"; field body "userEmail"] ->
             forall o, v <> JObject o) ->
  (toString paymentStatus ∈ [js "Paid"; js "Pending"; js "Failed"] ->
   exists doc,
     savePayment rt body payments =
       ({| status := 201; message := js "Payment saved successfully"; error := None |},
        payments ++ [doc])
     /\ doc !! "userName"%string = Some (VStr (toString userName))
     /\ doc !! "courseName"%string = Some (VStr (toString courseName))
     /\ doc !! "amount"%string = Some (VStr (numberToString (cleanAmount amount)))
     /\ doc !! "paymentStatus"%string = Some (VStr (toString paymentStatus))
     /\ doc !! "createdAt"%string = Some (VDate (now rt)))
  /\ (toString paymentStatus ∉ [js "Paid"; js "Pending"; js "Failed"] ->
      savePayment rt body payments =
        ({| status := 500; message := js "Server Error";
            error := Some [("paymentStatus"%string,
                            ValidatorError
                              (enumMessage "paymentStatus" (toString paymentStatus)))] |},
         payments)).
Proof.
  intros userName courseName amount paymentStatus H1 H2 H3 H4 Hn _ Ho.
  exact (savePayment_decided body payments H1 H2 H3 H4 Hn Ho).
Qed.

(** C9 (amended): once the required fields are there, [savePayment] cleans
    the amount: a string loses every rupee sign, comma and white space and is
    read by [parseFloat]; any other value is read by [parseFloat] through its
    string; an amount that reads as [NaN] is answered 400 and nothing is
    stored.  Otherwise, with none of the text fields an object or an array,
    the status decides.  With one of the schema's three, the request is
    answered 201 and the stored document holds a text in its String path
    [amount], not a number: for an amount of at most 15 significant digits,
    the text of the number.  With another status the schema fails, the
    answer is 500 with the error of [paymentStatus], and nothing is
    stored. *)
Theorem savePayment_normalizes_amount
    (body : gmap string JsValue) (payments : list (gmap string Stored)) :
  truthy (field body "userName") = true -> truthy (field body "courseName") = true ->
  truthy (field body "amount") = true -> truthy (field body "paymentStatus") = true ->
  let amount := field body "amount" in
  let clean := cleanAmount amount in
  (forall s, amount = JStr s ->
     clean = parseFloat (stripCurrency s)
     /\ Forall (fun c => c <> 8377 /\ c <> 44 /\ isWhiteSpace c = false) (stripCurrency s))
  /\ ((forall s, amount <> JStr s) -> clean = parseFloat (toString amount))
  /\ (isNaN clean = true ->
      savePayment rt body payments = (invalidAmountReply, payments))
  /\ (isNaN clean = false ->
      (forall v, v ∈ [field body "userName"; field body "courseName";
                      field body "paymentStatus"; field body "userPhone";
                      field body "userEmail"] ->
                 forall o, v <> JObject o) ->
      (toString (field body "paymentStatus") ∈ [js "Paid"; js "Pending"; js "Failed"] ->
       exists doc,
         savePayment rt body payments =
           ({| status := 201; message := js "Payment saved successfully"; error := None |},
            payments ++ [doc])
         /\ (exists text, doc !! "amount"%string = Some (VStr text))
         /\ (withinDouble clean = true ->
              doc !! "amount"%string = Some (VStr (numberToString clean))))
      /\ (toString (field body "paymentStatus") ∉ [js "Paid"; js "Pending"; js "Failed"] ->
          savePayment rt body payments =
            ({| status := 500; message := js "Server Error";
                error := Some [("paymentStatus"%string,
                                ValidatorError
                                  (enumMessage "paymentStatus"
                                     (toString (field body "paymentStatus"))))] |},
             payments))).
Proof.
  intros H1 H2 H3 H4 amount clean.
  split; [|split; [|split]].
  - intros s Hs. split; [|apply stripCurrency_clean].
    unfold clean, cleanAmount. rewrite Hs. reflexivity.
  - intros Hs. unfold clean, cleanAmount.
    destruct amount; try reflexivity. exfalso. eapply Hs. reflexivity.
  - intros Hn.
    destruct (savePayment_checked rt body payments H1 H2 H3 H4) as [[_ E]|[Hn' _]]; [exact E|].
    fold amount in Hn'. fold clean in Hn'. congruence.
  - intros Hn Ho.
    destruct (savePayment_decided body payments H1 H2 H3 H4 Hn Ho) as [Hyes Hno].
    split; [|exact Hno].
    intros Hin. destruct (Hyes Hin) as (doc & E & _ & _ & Ha & _).
    exists doc. split; [exact E|]. split; [eexists; exact Ha|]. intros _. exact Ha.
Qed.

End PaymentOutcomes.

Section WholeAmounts.
Import Js Regex Mongoose Multer Payment.
Context (rt : Runtime).

Lemma takeWhile_all (p : N -> bool) (s : jsstring) :
  forallb p s = true -> takeWhile p s = s /\ dropWhile p s = [].
Proof.
  induction s as [|c s IH]; simpl; [auto|].
  intros H. apply andb_true_iff in H as [Hc Hs]. rewrite Hc.
  destruct (IH Hs) as [-> ->]. auto.
Qed.

(** [parseFloat] of a run of digits is the number they spell. *)
Lemma parseFloat_digits (ds : jsstring) :
  ds <> [] -> forallb isDigit ds = true -> parseFloat ds = Finite false (digitsValue ds) 0.
Proof.
  intros Hne Hd. destruct ds as [|c ds]; [congruence|].
  pose proof Hd as Hall. simpl in Hd. apply andb_true_iff in Hd as [Hc _].
  unfold isDigit in Hc. apply andb_true_iff in Hc as [H1 H2].
  apply N.leb_le in H1, H2.
  unfold parseFloat.
  assert (Hw : isWhiteSpace c = false).
  { unfold isWhiteSpace.
    repeat match goal with
    | |- context [(?a =? ?b)] => destruct (N.eqb_spec a b); [lia|]
    | |- context [(?a <=? ?b)] => destruct (N.leb_spec a b); [try lia|try lia]
    end; reflexivity. }
  cbn [dropWhile]. rewrite Hw.
  assert (Hs : match c :: ds with
               | 43 :: u => (false, u)
               | 45 :: u => (true, u)
               | _ => (false, c :: ds)
               end = (false, c :: ds)).
  { destruct c as [|p]; [reflexivity|].
    do 6 (destruct p as [p|p|]; try reflexivity; try lia). }
  rewrite Hs.
  assert (Hi : startsWith (js "Infinity") (c :: ds) = false).
  { change (js "Infinity") with (73 :: js "nfinity"). cbn [startsWith].
    destruct (N.eqb_spec 73 c); [lia|reflexivity]. }
  rewrite Hi. unfold parseDecimal.
  destruct (takeWhile_all isDigit (c :: ds) Hall) as [-> ->].
  rewrite app_nil_r. reflexivity.
Qed.

Lemma uintUnits_digits (d : Decimal.uint) : forallb isDigit (uintUnits d) = true.
Proof. induction d; simpl; try reflexivity; exact IHd. Qed.

Lemma stripCurrency_digits (ds : jsstring) :
  forallb isDigit ds = true -> stripCurrency ds = ds.
Proof.
  unfold stripCurrency. induction ds as [|c ds IH]; [reflexivity|].
  simpl. intros H. apply andb_true_iff in H as [Hc Hs].
  rewrite filter_cons, (IH Hs). destruct (decide _) as [_|Hn]; [reflexivity|].
  exfalso. apply Hn. clear Hn. 
  unfold isDigit in Hc. apply andb_true_iff in Hc as [H1 H2]. apply N.leb_le in H1, H2.
  unfold currencyNoise, isWhiteSpace.
  repeat match goal with
  | |- context [(?a =? ?b)] => destruct (N.eqb_spec a b); [lia|]
  | |- context [(?a <=? ?b)] => destruct (N.leb_spec a b); [try lia|try lia]
  end; exact I.
Qed.

(** X2: a whole amount of at most 15 digits, written with any rupee signs,
    commas, white space and leading zeros, is read as that number and stored
    as its plain decimal digits; reading the stored text gives the same
    number again. *)
Theorem whole_amount_is_stored_as_plain_digits
    (body : gmap string JsValue) (payments : list (gmap string Stored))
    (s : jsstring) (n : N) :
  field body "amount" = JStr s ->
  stripCurrency s <> [] -> forallb isDigit (stripCurrency s) = true ->
  digitsValue (stripCurrency s) = n ->
  (length (decimalDigits n) <= 15)%nat ->
  cleanAmount (JStr s) = Finite false n 0
  /\ (forall doc, snd (savePayment rt body payments) = payments ++ [doc] ->
        doc !! "amount"%string = Some (VStr (decimalDigits n)))
  /\ cleanAmount (JStr (decimalDigits n)) = Finite false n 0.
Proof.
  intros Ha Hne Hd Hn Hlen.
  assert (Hc : cleanAmount (JStr s) = Finite false n 0).
  { unfold cleanAmount. rewrite (parseFloat_digits _ Hne Hd), Hn. reflexivity. }
  split; [exact Hc|]. split.
  - intros doc Hdoc.
    assert (Ht : forall k, k ∈ ["userName"; "courseName"; "amount"; "paymentStatus"]%string ->
                 truthy (field body k) = true).
    { intros k Hk. destruct (truthy (field body k)) eqn:E; [reflexivity|].
      rewrite (savePayment_unchecked rt body payments k Hk E) in Hdoc. simpl in Hdoc.
      apply (f_equal length) in Hdoc. rewrite length_app in Hdoc. simpl in Hdoc. lia. }
    destruct (savePayment_checked rt body payments
                (Ht "userName"%string ltac:(repeat constructor))
                (Ht "courseName"%string ltac:(repeat constructor))
                (Ht "amount"%string ltac:(repeat constructor))
                (Ht "paymentStatus"%string ltac:(repeat constructor)))
      as [[_ E]|[_ [(doc' & E & Hamount & _)|[errors E]]]];
      rewrite E in Hdoc; simpl in Hdoc.
    + apply (f_equal length) in Hdoc. rewrite length_app in Hdoc. simpl in Hdoc. lia.
    + apply app_inv_head in Hdoc. injection Hdoc as ->.
      rewrite Hamount, Ha, Hc, numberToString_whole by lia. reflexivity.
    + apply (f_equal length) in Hdoc. rewrite length_app in Hdoc. simpl in Hdoc. lia.
  - unfold cleanAmount, decimalDigits.
    rewrite (stripCurrency_digits _ (uintUnits_digits _)).
    rewrite parseFloat_digits.
    + fold (decimalDigits n). rewrite digitsValue_decimalDigits. reflexivity.
    + apply decimalDigits_nonempty.
    + apply uintUnits_digits.
Qed.

End WholeAmounts.

(** ** Submitted forms *)

Section SubmittedForms.
Import Js Regex Mongoose Multer UserForm.
Context (rt : Runtime).

(** The input of [new UserForm], path by path. *)
Lemma newUser_input (req : Request) :
  let b := body req in
  field (newUser req) "firstName" = field b "firstName"
  /\ field (newUser req) "lastName" = field b "lastName"
  /\ field (newUser req) "aadharFile" = uploadedPath req "aadharFile"
  /\ field (newUser req) "signatureFile" = uploadedPath req "signatureFile"
  /\ field (newUser req) "agreeTerms" = JBool (isStringTrue (field b "agreeTerms"))
  /\ field (newUser req) "agreeMarketing" = JBool (isStringTrue (field b "agreeMarketing")).
Proof.
  intros b. unfold field at 1 3 5 6 7 8, newUser. repeat split; simplify_map_eq; reflexivity.
Qed.

Lemma save_path_passes (S : Schema) (input : gmap string JsValue) (doc : gmap string Stored)
    (name : string) (opts : list PathOption) :
  save rt S input = Saved doc -> (name, opts) ∈ paths S ->
  check rt name opts (prepare rt opts (field input name)) = None.
Proof.
  intros Hs Hin. apply save_Saved in Hs as [Hall _].
  rewrite Forall_forall in Hall. apply (Hall (name, opts)). exact Hin.
Qed.

Lemma document_stamps (input : gmap string JsValue) :
  document rt userFormSchema input !! "createdAt"%string = Some (VDate (now rt))
  /\ document rt userFormSchema input !! "updatedAt"%string = Some (VDate (now rt)).
Proof.
  unfold document. cbn [timestamps userFormSchema].
  split; rewrite lookup_set_paths_other by (apply (bool_decide_unpack _); vm_compute; exact I).
  - apply lookup_insert_eq.
  - cbn [list_to_map foldr]. rewrite lookup_insert_ne by discriminate. apply lookup_insert_eq.
Qed.

(** X3: [submitForm] takes the terms as agreed only when the body holds the
    string ["true"]: with anything else there (the boolean [true] of a JSON
    body, ["on"], ["1"], nothing), no form is stored; the request is answered
    500 when the three names and the two files are there, and 400 when one
    of them is missing. *)
Theorem submitForm_wants_the_string_true (req : Request) (st : State) :
  isStringTrue (field (body req) "agreeTerms") = false ->
  let present :=
    truthy (field (body req) "firstName") && truthy (field (body req) "lastName")
    && truthy (field (body req) "email")
    && truthy (uploadedPath req "aadharFile") && truthy (uploadedPath req "signatureFile") in
  submitForm rt req st =
    (if present
     then {| status := 500; message := js "Something went wrong. Please try again." |}
     else {| status := 400; message := js "Missing required fields or files." |},
     st).
Proof.
  intros Hterms present. unfold submitForm. subst present.
  destruct (truthy (field (body req) "firstName")); [|reflexivity].
  destruct (truthy (field (body req) "lastName")); [|reflexivity].
  destruct (truthy (field (body req) "email")); [|reflexivity].
  destruct (truthy (uploadedPath req "aadharFile")); [|reflexivity].
  destruct (truthy (uploadedPath req "signatureFile")); [|reflexivity].
  cbn [negb orb andb].
  destruct (save rt userFormSchema (newUser req)) as [doc|errors] eqn:Es; [|reflexivity].
  exfalso.
  pose proof (save_path_passes _ _ _ "agreeTerms"
                [type TBoolean; required (Some (js "You must agree to the terms"));
                 validate isTrue (js "You must accept the terms and conditions")]
                Es ltac:(repeat constructor)) as Hc.
  destruct (newUser_input req) as (_ & _ & _ & _ & E & _).
  rewrite E, Hterms in Hc. discriminate.
Qed.

(** X4: a form that [submitForm] answers with 201 is stored, after the forms
    already there and with the disk left as it was: the names trimmed, each
    file path that of the first file uploaded under the field, [agreeTerms]
    true (the body held the string ["true"]), [agreeMarketing] true exactly
    when the body holds the string ["true"] for it, and the time of the
    request as [createdAt] and [updatedAt]. *)
Theorem submitted_form_is_stored_as_cast (req : Request) (st st' : State)
    (resp : Response) :
  submitForm rt req st = (resp, st') -> status resp = 201%nat ->
  let b := body req in
  exists doc fs aadhar signature rest1 rest2,
    forms st' = forms st ++ [doc] /\ disk st' = disk st
    /\ files req = Some fs
    /\ filesOf fs "aadharFile" = Some (aadhar :: rest1)
    /\ filesOf fs "signatureFile" = Some (signature :: rest2)
    /\ doc !! "firstName"%string = Some (VStr (Js.trim (toString (field b "firstName"))))
    /\ doc !! "lastName"%string = Some (VStr (Js.trim (toString (field b "lastName"))))
    /\ doc !! "aadharFile"%string = Some (VStr (path aadhar))
    /\ doc !! "signatureFile"%string = Some (VStr (path signature))
    /\ field b "agreeTerms" = JStr (js "true")
    /\ doc !! "agreeTerms"%string = Some (VBool true)
    /\ doc !! "agreeMarketing"%string
       = Some (VBool (isStringTrue (field b "agreeMarketing")))
    /\ doc !! "createdAt"%string = Some (VDate (now rt))
    /\ doc !! "updatedAt"%string = Some (VDate (now rt)).
Proof.
  intros Hsub Hst b. unfold submitForm in Hsub. fold b in Hsub.
  destruct (truthy (field b "firstName")) eqn:T1;
    [|injection Hsub as <- <-; discriminate].
  destruct (truthy (field b "lastName")) eqn:T2;
    [|injection Hsub as <- <-; discriminate].
  destruct (truthy (field b "email")) eqn:T3;
    [|injection Hsub as <- <-; discriminate].
  destruct (truthy (uploadedPath req "aadharFile")) eqn:T4;
    [|injection Hsub as <- <-; discriminate].
  destruct (truthy (uploadedPath req "signatureFile")) eqn:T5;
    [|injection Hsub as <- <-; discriminate].
  cbn [negb orb] in Hsub.
  destruct (save rt userFormSchema (newUser req)) as [doc|errors] eqn:Es;
    [|injection Hsub as <- <-; discriminate].
  injection Hsub as <- <-. clear Hst.
  destruct (newUser_input req) as (F1 & F2 & F3 & F4 & F5 & F6). fold b in F1, F2, F5, F6.
  assert (Hfile : forall name, truthy (uploadedPath req name) = true ->
            exists fs f rest, files req = Some fs /\ filesOf fs name = Some (f :: rest)
                              /\ uploadedPath req name = JStr (path f)).
  { intros name. unfold uploadedPath. destruct (files req) as [fs|]; [|discriminate].
    destruct (filesOf fs name) as [[|f rest]|] eqn:Ef; try discriminate.
    destruct (eqb (path f) []); [discriminate|]. intros _. exists fs, f, rest.
    split; [reflexivity|]. split; [exact Ef|reflexivity]. }
  destruct (Hfile _ T4) as (fs & aadhar & rest1 & Hfs & Ha & Pa).
  destruct (Hfile _ T5) as (fs' & signature & rest2 & Hfs' & Hs & Ps).
  rewrite Hfs in Hfs'. injection Hfs' as <-.
  assert (Hname : forall v name opts,
            truthy v = true ->
            check rt name (type TString :: opts) (prepare rt (type TString :: opts) v) = None ->
            castString v = Value (VStr (toString v))).
  { intros v name opts Ht Hc. apply castString_truthy; [exact Ht|].
    intros o ->. discriminate. }
  pose proof Es as Hdoc. apply save_Saved in Hdoc as [_ ->].
  assert (Hd : forall name opts,
            (name, opts) ∈ paths userFormSchema ->
            name <> "createdAt"%string -> name <> "updatedAt"%string ->
            document rt userFormSchema (newUser req) !! name =
            match prepare rt opts (field (newUser req) name) with
            | Value v => Some v
            | _ => None
            end).
  { intros name opts Hin H1 H2. apply document_lookup; try assumption.
    apply userFormSchema_NoDup. }
  exists (document rt userFormSchema (newUser req)), fs, aadhar, signature, rest1, rest2.
  split; [reflexivity|]. split; [reflexivity|]. split; [exact Hfs|].
  split; [exact Ha|]. split; [exact Hs|].
  split; [|split; [|split; [|split; [|split; [|split; [|split]]]]]].
  - pose proof (save_path_passes _ _ _ "firstName" _ Es ltac:(repeat constructor)) as Hc.
    rewrite (Hd "firstName"%string _ ltac:(repeat constructor)) by discriminate.
    rewrite F1 in Hc |- *. unfold prepare. cbn [typeOf cast].
    rewrite (Hname _ _ _ T1 Hc). reflexivity.
  - pose proof (save_path_passes _ _ _ "lastName" _ Es
                  ltac:(right; repeat constructor)) as Hc.
    rewrite (Hd "lastName"%string _ ltac:(right; repeat constructor)) by discriminate.
    rewrite F2 in Hc |- *. unfold prepare. cbn [typeOf cast].
    rewrite (Hname _ _ _ T2 Hc). reflexivity.
  - rewrite (Hd "aadharFile"%string
               [type TString; required (Some (js "Aadhar file is required"))])
      by (first [discriminate | do 10 right; repeat constructor]).
    rewrite F3, Pa. reflexivity.
  - rewrite (Hd "signatureFile"%string
               [type TString; required (Some (js "Signature file is required"))])
      by (first [discriminate | do 11 right; repeat constructor]).
    rewrite F4, Ps. reflexivity.
  - pose proof (save_path_passes _ _ _ "agreeTerms"
                  [type TBoolean; required (Some (js "You must agree to the terms"));
                   validate isTrue (js "You must accept the terms and conditions")]
                  Es ltac:(do 12 right; repeat constructor)) as Hc.
    rewrite F5 in Hc. unfold isStringTrue in Hc.
    destruct (field b "agreeTerms") as [| | | |s|]; try discriminate.
    destruct (eqb s (js "true")) eqn:E; [|discriminate].
    apply js_eqb_eq in E. rewrite E. reflexivity.
  - pose proof (save_path_passes _ _ _ "agreeTerms"
                  [type TBoolean; required (Some (js "You must agree to the terms"));
                   validate isTrue (js "You must accept the terms and conditions")]
                  Es ltac:(do 12 right; repeat constructor)) as Hc.
    rewrite (Hd "agreeTerms"%string
               [type TBoolean; required (Some (js "You must agree to the terms"));
                validate isTrue (js "You must accept the terms and conditions")])
      by (first [discriminate | do 12 right; repeat constructor]).
    rewrite F5 in Hc |- *. destruct (isStringTrue (field b "agreeTerms")); [reflexivity|discriminate].
  - rewrite (Hd "agreeMarketing"%string [type TBoolean; default (fun _ => VBool false)])
      by (first [discriminate | do 13 right; repeat constructor]).
    rewrite F6. reflexivity.
  - apply document_stamps.
Qed.

End SubmittedForms.

(** ** File intake, part by part *)

Section IntakeOutcomes.
Import Js Regex Multer Trading.
Context (rt : Mongoose.Runtime) (M : Model).

Lemma filesLeft_declared (k : string) :
  (filesLeft uploadFieldsConfig k = 1%nat /\ (k = "aadharFile" \/ k = "signatureFile")%string)
  \/ (filesLeft uploadFieldsConfig k = 0%nat /\ k <> "aadharFile"%string
      /\ k <> "signatureFile"%string).
Proof.
  unfold uploadFieldsConfig. cbn [filesLeft].
  destruct (String.eqb_spec "aadharFile" k) as [<-|H1]; [left; auto|].
  destruct (String.eqb_spec "signatureFile" k) as [<-|H2]; [left; auto|].
  right. repeat split; congruence.
Qed.

(** [req.files] once the parts [prev] are stored, one file to a field. *)
Lemma countOf_entries (prev : list Upload) (k : string) :
  countOf ((fun u => (field u, [stored u])) <$> prev) k
  = if decide (k ∈ field <$> prev) then 1%nat else 0%nat.
Proof.
  unfold countOf. induction prev as [|u prev IH]; [reflexivity|].
  rewrite !fmap_cons. cbn [filesOf].
  destruct (String.eqb_spec (field u) k) as [->|Hne].
  - rewrite decide_True by (left). reflexivity.
  - rewrite IH. destruct (decide (k ∈ field <$> prev)) as [Hin|Hout].
    + rewrite decide_True by (right; exact Hin). reflexivity.
    + rewrite decide_False; [reflexivity|]. rewrite elem_of_cons. intros [->|H]; contradiction.
Qed.

Lemma appendFile_entries (prev : list Upload) (u : Upload) :
  field u ∉ field <$> prev ->
  appendFile ((fun u => (field u, [stored u])) <$> prev) (stored u)
  = (fun u => (field u, [stored u])) <$> (prev ++ [u]).
Proof.
  induction prev as [|v prev IH]; intros Hn; [reflexivity|].
  rewrite fmap_cons in Hn. apply not_elem_of_cons in Hn as [Hne Hn].
  rewrite <- app_comm_cons, !fmap_cons. cbn [appendFile].
  change (fieldname (stored u)) with (field u).
  destruct (String.eqb_spec (field v) (field u)) as [E|_]; [congruence|].
  rewrite (IH Hn). reflexivity.
Qed.

Lemma allFiles_entries (prev : list Upload) :
  allFiles ((fun u => (field u, [stored u])) <$> prev) = stored <$> prev.
Proof.
  unfold allFiles. induction prev as [|u prev IH]; [reflexivity|].
  rewrite !fmap_cons. simpl. f_equal. exact IH.
Qed.

Lemma uploadParts_entries (parts prev : list Upload) (d : Disk) :
  let storedPaths (l : list Upload) : Disk := list_to_set (Multer.path <$> (stored <$> l)) in
  (NoDup (field <$> (prev ++ parts)) /\ Forall accepted parts ->
   uploadParts parts ((fun u => (field u, [stored u])) <$> prev) (storedPaths prev ∪ d)
   = (inr ((fun u => (field u, [stored u])) <$> (prev ++ parts)),
      storedPaths (prev ++ parts) ∪ d))
  /\ (~ (NoDup (field <$> (prev ++ parts)) /\ Forall accepted parts) ->
      NoDup (field <$> prev) ->
      exists e d',
        uploadParts parts ((fun u => (field u, [stored u])) <$> prev) (storedPaths prev ∪ d)
        = (inl e, d')
        /\ d' ⊆ d).
Proof.
  intros storedPaths. revert prev. induction parts as [|u parts IH]; intros prev.
  - split.
    + intros _. rewrite app_nil_r. reflexivity.
    + intros Hn Hnd. exfalso. apply Hn. rewrite app_nil_r. split; [exact Hnd|constructor].
  - assert (Hsnoc : prev ++ u :: parts = (prev ++ [u]) ++ parts)
      by (rewrite <- app_assoc; reflexivity).
    assert (Hdisk : ({[Multer.path (stored u)]} ∪ (storedPaths prev ∪ d) : Disk)
                    = storedPaths (prev ++ [u]) ∪ d).
    { unfold storedPaths. rewrite !fmap_app, list_to_set_app_L.
      change (Multer.path <$> (stored <$> [u])) with [Multer.path (stored u)].
      rewrite list_to_set_cons, list_to_set_nil.
      apply set_eq. intros p.
      rewrite !elem_of_union, elem_of_singleton, elem_of_empty. tauto. }
    cbn [uploadParts]. rewrite countOf_entries, allFiles_entries.
    split.
    + intros [Hnd Hall]. apply Forall_cons in Hall as [(Hf & Hok & Hsize) Hall].
      rewrite Hsnoc in Hnd.
      assert (Hnew : field u ∉ field <$> prev).
      { rewrite fmap_app in Hnd. apply NoDup_app in Hnd as [Hnd _].
        rewrite fmap_app in Hnd. apply NoDup_app in Hnd as (_ & Hd & _).
        intros Hin. apply (Hd _ Hin). left. }
      rewrite decide_False by exact Hnew.
      destruct (filesLeft_declared (field u)) as [[-> _]|(_ & H1 & H2)]; [|tauto].
      cbn [Nat.leb]. rewrite Hok.
      destruct (N.ltb_spec fileSize (bytes u)) as [Hlt|_]; [lia|].
      rewrite (appendFile_entries prev u Hnew), Hdisk, Hsnoc.
      apply (IH (prev ++ [u])). split; assumption.
    + intros Hn Hnd.
      assert (Hclean : unlinkExisting (storedPaths prev ∪ d) (Multer.path <$> (stored <$> prev)) ⊆ d).
      { intros p. rewrite elem_of_unlinkExisting. unfold storedPaths.
        rewrite elem_of_union, elem_of_list_to_set. tauto. }
      destruct (decide (field u ∈ field <$> prev)) as [Hin|Hnew].
      { destruct (filesLeft_declared (field u)) as [[-> _]|(-> & _)]; cbn [Nat.leb];
          eexists _, _; split; try reflexivity; exact Hclean. }
      destruct (filesLeft_declared (field u)) as [[-> Hf]|(-> & H1 & H2)]; cbn [Nat.leb];
        [|eexists _, _; split; [reflexivity|exact Hclean]].
      destruct (fileFilter u) as [m|] eqn:Hok;
        [eexists _, _; split; [reflexivity|exact Hclean]|].
      destruct (N.ltb_spec fileSize (bytes u)) as [Hlt|Hle];
        [eexists _, _; split; [reflexivity|exact Hclean]|].
      rewrite (appendFile_entries prev u Hnew), Hdisk.
      apply (proj2 (IH (prev ++ [u]))).
      * intros [Hnd' Hall]. apply Hn. rewrite Hsnoc. split; [exact Hnd'|].
        constructor; [|exact Hall]. repeat split; assumption.
      * rewrite fmap_app. apply NoDup_app. split; [exact Hnd|]. split.
        -- intros x Hx Hx'. apply list_elem_of_singleton in Hx'. subst x. contradiction.
        -- apply NoDup_singleton.
Qed.

(** What the upload middleware hands over, when it hands over anything. *)
Lemma uploadFields_accepted (parts : list Upload) (d : Disk) (fs : Files) (d' : Disk) :
  uploadFields parts d = (inr fs, d') ->
  NoDup (field <$> parts) /\ Forall accepted parts
  /\ fs = (fun u => (field u, [stored u])) <$> parts
  /\ d' = list_to_set (Multer.path <$> (stored <$> parts)) ∪ d.
Proof.
  pose proof (uploadParts_entries parts [] d) as [Hyes Hno]. cbn zeta in Hyes, Hno.
  cbn [fmap list_fmap app list_to_set foldr] in Hyes, Hno.
  rewrite (union_empty_l_L d) in Hyes, Hno.
  intros Hup.
  assert (Hdec : Decision (NoDup (field <$> parts) /\ Forall accepted parts))
    by (unfold accepted; apply _).
  destruct Hdec as [[Hnd Hall]|Hn].
  2:{ destruct (Hno Hn (NoDup_nil_2)) as (e & d0 & E & _).
      unfold uploadFields in Hup. rewrite E in Hup. discriminate. }
  unfold uploadFields in Hup. rewrite (Hyes (conj Hnd Hall)) in Hup.
  injection Hup as <- <-. auto.
Qed.

Lemma uploadFields_refused (parts : list Upload) (d : Disk) :
  ~ (NoDup (field <$> parts) /\ Forall accepted parts) ->
  exists e d', uploadFields parts d = (inl e, d') /\ d' ⊆ d.
Proof.
  pose proof (uploadParts_entries parts [] d) as [_ Hno]. cbn zeta in Hno.
  cbn [fmap list_fmap app list_to_set foldr] in Hno.
  rewrite (union_empty_l_L d) in Hno.
  intros Hn. apply (Hno Hn), NoDup_nil_2.
Qed.

Lemma uploadFields_lets_in (parts : list Upload) (d : Disk) :
  NoDup (field <$> parts) /\ Forall accepted parts ->
  uploadFields parts d
  = (inr ((fun u => (field u, [stored u])) <$> parts),
     list_to_set (Multer.path <$> (stored <$> parts)) ∪ d).
Proof.
  pose proof (uploadParts_entries parts [] d) as [Hyes _]. cbn zeta in Hyes.
  cbn [fmap list_fmap app list_to_set foldr] in Hyes.
  rewrite (union_empty_l_L d) in Hyes. exact Hyes.
Qed.

(** X5: for a field name that the object literal [allowedTypes] does not
    inherit, the file filter lets a file in exactly when one of the words of
    its field's pattern occurs somewhere in the lower-cased extension of its
    name and one occurs somewhere in its declared content type, which the
    filter does not lower-case; the words are [jpeg], [jpg], [png] and, for
    every field but the signature, [pdf].  A refused file gets the message
    that names the field and the pattern.  For a field name that the literal
    inherits, such as [toString] or [constructor], what the look-up finds is
    no pattern and the filter throws a [TypeError] whatever the file. *)
Theorem fileFilter_looks_for_a_word (u : Upload) :
  let signature := String.eqb (field u) "signatureFile" in
  let words :=
    if signature then [js "jpeg"; js "jpg"; js "png"]
    else [js "jpeg"; js "jpg"; js "png"; js "pdf"] in
  (field u ∉ inheritedNames ->
   (fileFilter u = None <->
    (exists w, w ∈ words /\ includes w (toLowerCase (extname (name u))) = true)
    /\ (exists w, w ∈ words /\ includes w (contentType u) = true))
   /\ (forall m, fileFilter u = Some m ->
       m = js "Invalid file type for " ++ js (field u) ++ js ". Only "
           ++ (if signature then js "jpeg|jpg|png" else js "jpeg|jpg|png|pdf")
           ++ js " files are allowed."))
  /\ (field u ∈ inheritedNames ->
      fileFilter u = Some (js "fileType.test is not a function")).
Proof.
  intros signature words. split.
  - intros Hn. pose proof (fileTypeOf_pattern u Hn) as Hre. fold signature in Hre.
    set (fileType := if signature then imageOnly else imageOrPdf) in *.
    assert (Hw : forall s, test fileType s = true <->
                           exists w, w ∈ words /\ includes w s = true).
    { intros s. unfold fileType, words. destruct signature.
      - rewrite (proj2 (test_fileType s)). split.
        + intros [H|[H|H]]; eexists; (split; [|exact H]); solve [repeat constructor].
        + intros (w & Hin & H). rewrite !elem_of_cons, elem_of_nil in Hin.
          destruct Hin as [->|[->|[->|[]]]]; tauto.
      - rewrite (proj1 (test_fileType s)). split.
        + intros [H|[H|[H|H]]]; eexists; (split; [|exact H]); solve [repeat constructor].
        + intros (w & Hin & H). rewrite !elem_of_cons, elem_of_nil in Hin.
          destruct Hin as [->|[->|[->|[->|[]]]]]; tauto. }
    split.
    + rewrite <- !Hw. unfold fileFilter. rewrite Hre.
      destruct (test fileType (contentType u));
        destruct (test fileType (toLowerCase (extname (name u)))); simpl;
        split; try discriminate; try tauto; intros [H1 H2]; discriminate.
    + intros m. unfold fileFilter. rewrite Hre.
      destruct (_ && _); [discriminate|]. intros [= <-]. do 3 f_equal.
      unfold fileType. destruct signature; reflexivity.
  - intros Hin. unfold fileFilter. rewrite (fileTypeOf_inherited u Hin). reflexivity.
Qed.

(** X6: the upload middleware hands files to the handler exactly when the file
    parts of the request (those with a filename: multer passes over the
    others) come under different fields and each is accepted: under
    [aadharFile] or [signatureFile], let in by the filter, and of at most
    5 MiB.  There are then at most two parts; [req.files] holds one file to
    a field, in the order of arrival; the disk holds what it held and the
    stored files, each in the directory of its field ([uploads/misc/] is
    never written to); and [req.files.panFile] is never there. *)
Theorem upload_hands_over_one_file_to_a_declared_field (parts : list Upload) (d : Disk) :
  (NoDup (field <$> parts) /\ Forall accepted parts ->
   exists d', uploadFields parts d = (inr ((fun u => (field u, [stored u])) <$> parts), d'))
  /\ (forall fs d',
       uploadFields parts d = (inr fs, d') ->
       NoDup (field <$> parts) /\ Forall accepted parts /\ (length parts <= 2)%nat
       /\ fs = (fun u => (field u, [stored u])) <$> parts
       /\ (forall p, p ∈ d' <-> p ∈ d \/ exists u, u ∈ parts /\ p = Multer.path (stored u))
       /\ (forall u, u ∈ parts ->
              Multer.path (stored u)
              = (if String.eqb (field u) "aadharFile" then js "uploads/aadhar/"
                 else js "uploads/signatures/") ++ Multer.filename (stored u))
       /\ filesOf fs "panFile" = None).
Proof.
  split.
  - intros H. eexists. apply uploadFields_lets_in, H.
  - intros fs d' Hup.
    destruct (uploadFields_accepted parts d fs d' Hup) as (Hnd & Hall & -> & ->).
    split; [exact Hnd|]. split; [exact Hall|]. split; [|split; [reflexivity|split; [|split]]].
    + assert (Hsub : field <$> parts ⊆+ ["aadharFile"; "signatureFile"]%string).
      { apply NoDup_submseteq; [exact Hnd|]. intros k Hk.
        apply list_elem_of_fmap in Hk as (u & -> & Hu).
        rewrite Forall_forall in Hall. destruct (Hall u Hu) as [[->| ->] _]; solve [repeat constructor]. }
      apply submseteq_length in Hsub. rewrite length_fmap in Hsub. exact Hsub.
    + intros p. rewrite elem_of_union, elem_of_list_to_set, <- list_fmap_compose.
      rewrite list_elem_of_fmap. split.
      * intros [(u & -> & Hu)|H]; [right; exists u; auto|left; exact H].
      * intros [H|(u & Hu & ->)]; [right; exact H|left; exists u; auto].
    + intros u Hu. rewrite Forall_forall in Hall. destruct (Hall u Hu) as [[E|E] _];
        unfold stored, destination; cbn [Multer.path Multer.filename]; rewrite E; reflexivity.
    + assert (Hk : "panFile"%string ∉ field <$> parts).
      { intros Hk. apply list_elem_of_fmap in Hk as (u & E & Hu).
        rewrite Forall_forall in Hall. destruct (Hall u Hu) as [[E'|E'] _]; congruence. }
      clear -Hk. induction parts as [|u parts IH]; [reflexivity|].
      rewrite fmap_cons in Hk. apply not_elem_of_cons in Hk as [Hne Hk].
      rewrite fmap_cons. cbn [filesOf].
      destruct (String.eqb_spec (field u) "panFile") as [E|_]; [congruence|].
      apply IH, Hk.
Qed.

(** X7: a request whose file parts (those with a filename) the upload
    middleware does not take (two parts under one field, a part under another field than [aadharFile] and
    [signatureFile], such as [panFile], a part the filter refuses or one
    larger than 5 MiB) never reaches the handler of [POST /] or [PUT /:id]:
    Express's own error handler answers 500, no record is read or written, and
    no file of the request is left on the disk. *)
Theorem refused_parts_are_answered_500 (b : gmap string JsValue) (parts : list Upload)
    (w : World) :
  ~ (NoDup (field <$> parts) /\ Forall accepted parts) ->
  exists e d',
    d' ⊆ disk w
    /\ router rt M (PostRegistration b parts) w
       = (DefaultError 500 e, {| disk := d'; db := db w |})
    /\ forall i, router rt M (PutRegistration i b parts) w
                 = (DefaultError 500 e, {| disk := d'; db := db w |}).
Proof.
  intros Hn. destruct (uploadFields_refused parts (disk w) Hn) as (e & d' & E & Hsub).
  exists e, d'. split; [exact Hsub|].
  unfold router, behindUpload. rewrite E. split; [reflexivity|]. intros i. reflexivity.
Qed.

End IntakeOutcomes.

(** ** The registration handlers, case by case *)

Section HandlerOutcomes.
Import Js Multer Trading.
Context (rt : Mongoose.Runtime) (M : Model).

(** The file [req.files] holds for a field, once the parts are stored. *)
Lemma uploaded_entries (parts : list Upload) (i : jsstring) (b : gmap string JsValue)
    (name : string) (f : File) :
  NoDup (field <$> parts) ->
  uploaded {| id := i; body := b; files := Some ((fun u => (field u, [stored u])) <$> parts) |}
           name = Some f
  <-> exists u, u ∈ parts /\ field u = name /\ f = stored u.
Proof.
  unfold uploaded. cbn [files]. induction parts as [|v parts IH]; intros Hnd.
  - simpl. split; [discriminate|]. intros (u & Hu & _). inversion Hu.
  - rewrite fmap_cons in Hnd. apply NoDup_cons in Hnd as [Hv Hnd].
    rewrite fmap_cons. cbn [filesOf].
    destruct (String.eqb_spec (field v) name) as [E|Hne].
    + split.
      * intros [= <-]. exists v. split; [left|auto].
      * intros (u & Hu & Hname & ->). apply elem_of_cons in Hu as [->|Hu]; [reflexivity|].
        exfalso. apply Hv. rewrite E, <- Hname. apply list_elem_of_fmap. exists u. auto.
    + rewrite (IH Hnd). split.
      * intros (u & Hu & H). exists u. split; [right; exact Hu|exact H].
      * intros (u & Hu & Hname & ->). apply elem_of_cons in Hu as [->|Hu]; [contradiction|].
        exists u. auto.
Qed.

Lemma elem_of_supersede (req : Request) (name : string) (old : option FileData) (d : Disk)
    (p : jsstring) :
  p ∈ supersede req name old d <->
  p ∈ d /\ ~ (exists file f, uploaded req name = Some file /\ old = Some f /\ path f = p).
Proof.
  unfold supersede. destruct (uploaded req name) as [file|].
  - destruct old as [f|].
    + rewrite elem_of_unlinkExisting, list_elem_of_singleton. split.
      * intros [Hp Hn]. split; [exact Hp|]. intros (_ & f' & _ & [= <-] & E). congruence.
      * intros [Hp Hn]. split; [exact Hp|]. intros ->. apply Hn. exists file, f. auto.
    + split; [|tauto]. intros Hp. split; [exact Hp|]. intros (_ & f & _ & [=] & _).
  - split; [|tauto]. intros Hp. split; [exact Hp|]. intros (file & _ & [=] & _).
Qed.

(** X16: an id that is not well formed is answered differently by each handler:
    404 by [GET /:id] (as for a missing record), 400 by [PUT /:id], which
    removes the files the request uploaded and files the cast error like any
    other failure, and 500 by the status and verification updates (once their
    own check of the body is passed) and by [DELETE /:id].  No record changes
    and no other file is touched. *)
Theorem malformed_id_by_handler (i : jsstring) (w : World) :
  castObjectId M i = None ->
  let detail := ErrorDetail (messageOf (objectIdError i)) in
  getRegistration M {| id := i; body := ∅; files := None |} w = (notFound, w)
  /\ (forall b fs,
        let req := {| id := i; body := b; files := fs |} in
        exists d,
          updateRegistration rt M req w
          = (Json 400 false (js "Failed to update registration")
                  (Errors (handleRegistrationErrors (objectIdError i))),
             {| disk := d; db := db w |})
          /\ forall p, p ∈ d <-> p ∈ disk w /\ p ∉ uploadedPaths req)
  /\ (forall b,
        includesValue validStatuses (Mongoose.field b "status") = true ->
        updateStatus M {| id := i; body := b; files := None |} w
        = (Json 500 false (js "Failed to update registration status") detail, w))
  /\ (forall b,
        includesValue validTypes (Mongoose.field b "verificationType") = true ->
        verifyRegistration M {| id := i; body := b; files := None |} w
        = (Json 500 false (js "Failed to update verification status") detail, w))
  /\ deleteRegistration M {| id := i; body := ∅; files := None |} w
     = (Json 500 false (js "Failed to delete registration") detail, w).
Proof.
  intros Hid detail. split; [|split; [|split; [|split]]].
  - unfold getRegistration, findById. cbn [id]. rewrite Hid. reflexivity.
  - intros b fs req. eexists. split.
    + unfold updateRegistration, findById. cbn [id req]. rewrite Hid. reflexivity.
    + intros p. unfold cleanUp. apply elem_of_unlinkExisting.
  - intros b Hs. unfold updateStatus. cbn [body id]. rewrite Hs. cbn [negb].
    unfold findByIdAndUpdate. rewrite Hid. reflexivity.
  - intros b Ht. unfold verifyRegistration. cbn [body id]. rewrite Ht. cbn [negb].
    unfold findByIdAndUpdate. rewrite Hid. reflexivity.
  - unfold deleteRegistration, findById. cbn [id]. rewrite Hid. reflexivity.
Qed.

(** X17: a well-formed id that no record has is answered 404 "Registration not
    found" by every handler that takes an id, and no record changes.  [PUT
    /:id] answers before it looks at the files: the files the request
    uploaded stay on the disk, referred to by no record. *)
Theorem missing_record_is_404_everywhere (i : jsstring) (oid : ObjectId) (w : World) :
  castObjectId M i = Some oid -> db w !! oid = None ->
  router rt M (GetRegistration i) w = (notFound, w)
  /\ router rt M (DeleteRegistration i) w = (notFound, w)
  /\ (forall b s,
        Mongoose.field b "status" = JStr s -> s ∈ validStatuses ->
        (forall o, Mongoose.field b "adminNotes" <> JObject o) ->
        router rt M (PutStatus i b) w = (notFound, w))
  /\ (forall b t v,
        Mongoose.field b "verificationType" = JStr t -> t ∈ validTypes ->
        Mongoose.field b "isVerified" = JBool v ->
        router rt M (PutVerify i b) w = (notFound, w))
  /\ (forall b parts fs d,
        uploadFields parts (disk w) = (inr fs, d) ->
        router rt M (PutRegistration i b parts) w = (notFound, {| disk := d; db := db w |})
        /\ forall p, p ∈ d <-> p ∈ disk w \/ exists u, u ∈ parts /\ p = Multer.path (stored u)).
Proof.
  intros Hid Hr. split; [|split; [|split; [|split]]].
  - unfold router, getRegistration, findById. cbn [id]. rewrite Hid, Hr. reflexivity.
  - unfold router, deleteRegistration, findById. cbn [id]. rewrite Hid, Hr. reflexivity.
  - intros b s Hs Hin Hnotes. unfold router, updateStatus. cbn [body id].
    rewrite Hs. cbn [includesValue]. apply arrayIncludes_elem_of in Hin. rewrite Hin.
    cbn [negb]. unfold findByIdAndUpdate. rewrite Hid.
    assert (Hu : exists f, statusUpdate (JStr s) (Mongoose.field b "adminNotes") = inr f).
    { unfold statusUpdate. cbn [Mongoose.castString].
      destruct (truthy (Mongoose.field b "adminNotes")) eqn:Et; [|eexists; reflexivity].
      destruct (Mongoose.field b "adminNotes") as [| | | | |o] eqn:En;
        try discriminate; try (eexists; reflexivity).
      exfalso. apply (Hnotes o). reflexivity. }
    destruct Hu as [f ->]. rewrite Hr. reflexivity.
  - intros b t v Ht Hin Hv. unfold router, verifyRegistration. cbn [body id].
    rewrite Ht, Hv. cbn [includesValue]. apply arrayIncludes_elem_of in Hin. rewrite Hin.
    cbn [negb]. unfold findByIdAndUpdate, verificationUpdate. rewrite Hid, Hr. reflexivity.
  - intros b parts fs d Hup. split.
    + unfold router, behindUpload. rewrite Hup.
      unfold updateRegistration, findById. cbn [id db]. rewrite Hid, Hr. reflexivity.
    + destruct (uploadFields_accepted parts (disk w) fs d Hup) as (_ & _ & _ & ->).
      intros p. rewrite elem_of_union, elem_of_list_to_set, <- list_fmap_compose.
      rewrite list_elem_of_fmap. split.
      * intros [(u & -> & Hu)|H]; [right; exists u; auto|left; exact H].
      * intros [H|(u & Hu & ->)]; [right; exact H|left; exists u; auto].
Qed.

(** X12: a registration that [POST /] creates can be fetched: the request is
    answered 201 with the new record, the record is stored under its id
    beside the records already there, the files of the request stay on the
    disk with everything else, and [GET /:id] with the new id answers 200
    with that record. *)
Theorem created_registration_can_be_fetched (b : gmap string JsValue) (parts : list Upload)
    (w : World) (fs : Files) (d : Disk) (oid : ObjectId) (r : Registration) :
  uploadFields parts (disk w) = (inr fs, d) ->
  create M rt (dataOf {| id := []; body := b; files := Some fs |} false) (db w)
  = inr (oid, r) ->
  let w' := {| disk := d; db := <[oid := r]> (db w) |} in
  router rt M (PostRegistration b parts) w
  = (Json 201 true (js "Registration submitted successfully!") (Created oid r), w')
  /\ (forall u, u ∈ parts -> Multer.path (stored u) ∈ disk w')
  /\ (forall p, p ∈ disk w -> p ∈ disk w')
  /\ (forall i, castObjectId M i = Some oid ->
        router rt M (GetRegistration i) w' = (Json 200 true [] (Document r), w'))
  /\ (forall oid', oid' <> oid -> db w' !! oid' = db w !! oid').
Proof.
  intros Hup Hc w'.
  destruct (uploadFields_accepted parts (disk w) fs d Hup) as (_ & _ & _ & Hd).
  split; [|split; [|split; [|split]]].
  - unfold router, behindUpload. rewrite Hup. unfold createRegistration. cbn [db disk].
    rewrite Hc. reflexivity.
  - intros u Hu. cbn [disk w']. rewrite Hd, elem_of_union, elem_of_list_to_set. left.
    rewrite <- list_fmap_compose. apply list_elem_of_fmap. exists u. auto.
  - intros p Hp. cbn [disk w']. rewrite Hd, elem_of_union. right. exact Hp.
  - intros i Hi. unfold router, getRegistration, findById. cbn [id db w'].
    rewrite Hi, lookup_insert_eq. reflexivity.
  - intros oid' Hne. cbn [db w']. apply lookup_insert_ne. congruence.
Qed.

(** X11: what the handlers give the model for a request: the file data of each
    uploaded file, with the names, type, size and path the storage gave it,
    in place of whatever the body holds under the name of its field; the
    body's own value where no file came; every other field of the body as it
    is; and never a PAN file. *)
Theorem uploaded_file_goes_before_the_body_field (parts : list Upload) (d d' : Disk)
    (fs : Files) (i : jsstring) (b : gmap string JsValue) (withPan : bool) :
  uploadFields parts d = (inr fs, d') ->
  let data := dataOf {| id := i; body := b; files := Some fs |} withPan in
  let fileOf (name : string) :=
    if String.eqb name "aadharFile" then dataAadharFile data else dataSignatureFile data in
  dataPanFile data = None
  /\ (forall k, k <> "aadharFile"%string -> k <> "signatureFile"%string ->
        dataFields data !! k = b !! k)
  /\ (forall u, u ∈ parts ->
        fileOf (field u)
        = Some {| filename := js (field u) ++ js "-" ++ uniqueSuffix u ++ extname (name u);
                  originalName := name u;
                  mimetype := contentType u;
                  size := bytes u;
                  path := Multer.path (stored u) |}
        /\ dataFields data !! field u = None)
  /\ (forall k, (k = "aadharFile" \/ k = "signatureFile")%string -> k ∉ field <$> parts ->
        fileOf k = None /\ dataFields data !! k = b !! k).
Proof.
  intros Hup data fileOf.
  destruct (uploadFields_accepted parts d fs d' Hup) as (Hnd & Hall & -> & _).
  set (req := {| id := i; body := b;
                 files := Some ((fun u => (field u, [stored u])) <$> parts) |}) in *.
  assert (Hsome : forall u, u ∈ parts -> uploaded req (field u) = Some (stored u)).
  { intros u Hu. apply (uploaded_entries parts i b _ _ Hnd). exists u. auto. }
  assert (Hnone : forall k, k ∉ field <$> parts -> uploaded req k = None).
  { intros k Hk. destruct (uploaded req k) as [f|] eqn:E; [|reflexivity].
    apply (uploaded_entries parts i b _ _ Hnd) in E as (u & Hu & <- & _).
    exfalso. apply Hk. apply list_elem_of_fmap. exists u. auto. }
  assert (Hpan : uploaded req "panFile" = None).
  { apply Hnone. intros Hk. apply list_elem_of_fmap in Hk as (u & E & Hu).
    rewrite Forall_forall in Hall. destruct (Hall u Hu) as [[E'|E'] _]; congruence. }
  assert (Hfields : forall k,
            dataFields data !! k =
            if decide (k = "aadharFile" \/ k = "signatureFile")%string
            then match uploaded req k with Some _ => None | None => b !! k end
            else b !! k).
  { intros k. unfold data, dataOf. cbn [dataFields]. fold req. rewrite Hpan.
    cbn [body req].
    replace (if withPan then b else b) with b by (destruct withPan; reflexivity).
    destruct (decide (k = "aadharFile"%string)) as [->|Ha].
    - rewrite decide_True by (left; reflexivity).
      destruct (uploaded req "aadharFile"); [apply lookup_delete_eq|].
      destruct (uploaded req "signatureFile"); [|reflexivity].
      apply lookup_delete_ne. discriminate.
    - destruct (decide (k = "signatureFile"%string)) as [->|Hs].
      + rewrite decide_True by (right; reflexivity).
        destruct (uploaded req "aadharFile");
          [rewrite lookup_delete_ne by discriminate|];
          (destruct (uploaded req "signatureFile"); [apply lookup_delete_eq|reflexivity]).
      + rewrite decide_False by tauto.
        destruct (uploaded req "aadharFile");
          [rewrite lookup_delete_ne by congruence|];
          (destruct (uploaded req "signatureFile");
             [rewrite lookup_delete_ne by congruence|]; reflexivity). }
  split; [|split; [|split]].
  - unfold data, dataOf. cbn [dataPanFile]. fold req. rewrite Hpan.
    destruct withPan; reflexivity.
  - intros k H1 H2. rewrite Hfields, decide_False by tauto. reflexivity.
  - intros u Hu. rewrite Forall_forall in Hall. destruct (Hall u Hu) as [Hf _].
    rewrite Hfields, decide_True by exact Hf. rewrite (Hsome u Hu).
    split; [|reflexivity].
    unfold fileOf, data, dataOf. cbn [dataAadharFile dataSignatureFile]. fold req.
    destruct Hf as [E|E]; rewrite E in *; cbn [String.eqb Ascii.eqb Bool.eqb];
      rewrite <- E, (Hsome u Hu); reflexivity.
  - intros k Hk Hout. rewrite Hfields, decide_True by exact Hk.
    rewrite (Hnone k Hout). split; [|reflexivity].
    unfold fileOf, data, dataOf. cbn [dataAadharFile dataSignatureFile]. fold req.
    destruct Hk as [-> | ->]; cbn [String.eqb Ascii.eqb Bool.eqb];
      rewrite (Hnone _ Hout); reflexivity.
Qed.



End HandlerOutcomes.

(** ** Statistics that add up *)

Section GroupSums.
Import Trading (bump, groupCount, occurrences).
Context {K : Type} `{EqDecision K} (same : K -> K -> bool).

Lemma sum_bump (k : K) (groups : list (K * nat)) :
  sum_list (bump same k groups).*2 = S (sum_list groups.*2).
Proof.
  induction groups as [|[k' n] groups IH]; [reflexivity|].
  cbn [bump]. destruct (same k k'); cbn [fmap list_fmap snd sum_list sum_list_with].
  - reflexivity.
  - change (sum_list_with id ((bump same k groups).*2)) with (sum_list (bump same k groups).*2).
    rewrite IH. cbn. lia.
Qed.

(** The counts of a group stage add up to the number of documents. *)
Lemma sum_groupCount (keys : list K) : sum_list (groupCount same keys).*2 = length keys.
Proof.
  unfold groupCount.
  assert (H : forall groups,
            sum_list (fold_left (fun groups k => bump same k groups) keys groups).*2
            = (length keys + sum_list groups.*2)%nat).
  { induction keys as [|k keys IH]; intros groups; [reflexivity|].
    cbn [fold_left]. rewrite IH, sum_bump. simpl. lia. }
  rewrite H. simpl. lia.
Qed.

Lemma occurrences_by (A : Type) (f : A -> K) (k : K) (l : list A) :
  occurrences k (f <$> l) = length (filter (fun x => f x = k) l).
Proof.
  unfold occurrences. induction l as [|x l IH]; [reflexivity|].
  rewrite fmap_cons, !filter_cons.
  destruct (decide (f x = k)); simpl; rewrite IH; reflexivity.
Qed.

End GroupSums.

Section StatsSums.
Import Js Multer Trading.
Context (rt : Mongoose.Runtime).

(** X14: the statistics add up.  [GET /stats] answers 200 and changes nothing;
    [totalRegistrations] is the number of records; the status breakdown has
    one entry for each status that some record has, with the number of those
    records, so its counts add up to the total; the counts of the
    verification groups, of which there are at most two, add up to the total
    as well; and the count of today is at most the total. *)
Theorem stats_add_up (w : World) :
  exists statusBreakdown today verificationStats,
    getStats rt w
    = (Json 200 true []
            (StatsData statusBreakdown (base.size (db w)) today verificationStats), w)
    /\ NoDup statusBreakdown.*1
    /\ (forall s n,
          (s, n) ∈ statusBreakdown <->
          (0 < n)%nat
          /\ n = length (filter (fun r => registrationStatus r = s) (documents w)))
    /\ sum_list statusBreakdown.*2 = base.size (db w)
    /\ NoDup verificationStats.*1 /\ (length verificationStats <= 2)%nat
    /\ sum_list verificationStats.*2 = base.size (db w)
    /\ (today <= base.size (db w))%nat.
Proof.
  assert (Hsize : length (documents w) = base.size (db w)).
  { unfold documents. rewrite length_fmap. apply length_map_to_list. }
  destruct (fold_bump eqb js_eqb_eq (registrationStatus <$> documents w) [] []
              NoDup_nil_2 (fun _ => eq_refl)) as [Hnd1 _].
  destruct (fold_bump Bool.eqb Bool.eqb_true_iff (fullyVerified <$> documents w) [] []
              NoDup_nil_2 (fun _ => eq_refl)) as [Hnd2 _].
  cbn zeta in Hnd1, Hnd2.
  fold (groupCount eqb (registrationStatus <$> documents w)) in Hnd1.
  fold (groupCount Bool.eqb (fullyVerified <$> documents w)) in Hnd2.
  eexists _, _, _. split; [unfold getStats; rewrite Hsize; reflexivity|].
  split; [exact Hnd1|]. split; [|split; [|split; [exact Hnd2|split; [|split]]]].
  - intros s n. rewrite (groupCount_spec eqb js_eqb_eq), occurrences_by. tauto.
  - rewrite sum_groupCount, length_fmap. exact Hsize.
  - assert (Hsub : (groupCount Bool.eqb (fullyVerified <$> documents w)).*1 ⊆+ [true; false]).
    { apply NoDup_submseteq; [exact Hnd2|]. intros [] _; repeat constructor. }
    apply submseteq_length in Hsub. rewrite length_fmap in Hsub. exact Hsub.
  - rewrite sum_groupCount, length_fmap. exact Hsize.
  - rewrite <- Hsize. apply length_filter.
Qed.

End StatsSums.

(** ** The list of registrations, page by page *)

Section Listings.
Import Js Multer Trading.
Context (C : Collection).

(** The number of pages is the least number of pages of [l] records that
    hold [total] records. *)
Lemma pagesOf_least (total : nat) (l : Z) :
  (1 <= l)%Z ->
  exists n, pagesOf total (Some l) = Some n
            /\ (0 <= n)%Z /\ ((n - 1) * l < Z.of_nat total <= n * l)%Z.
Proof.
  intros Hl. unfold pagesOf. destruct (Z.eqb_spec l 0) as [->|_]; [lia|].
  eexists. split; [reflexivity|].
  set (t := Z.of_nat total). assert (Ht : (0 <= t)%Z) by lia.
  pose proof (Z.div_mod (- t) l ltac:(lia)) as Hd.
  pose proof (Z.mod_pos_bound (- t) l ltac:(lia)) as Hm.
  nia.
Qed.


End Listings.

(** ** The upload directories *)

Section UploadDirectories.
Import Js Multer Trading.

(** One step of [createUploadsDir] on a directory none of whose ancestors is
    a file. *)
Lemma ensure_directory (t : Tree) (dir : jsstring) :
  Forall (fun a => a ∉ fileNodes t) (ancestorsFrom [] dir) ->
  exists t',
    (if nodeExists t dir then Some t else mkdirSync t dir) = Some t'
    /\ fileNodes t' = fileNodes t
    /\ (forall p, p ∈ dirNodes t' <->
          p ∈ dirNodes t
          \/ ((dir ∉ fileNodes t) /\ (dir ∉ dirNodes t)
              /\ (p = dir \/ p ∈ ancestorsFrom [] dir))).
Proof.
  intros Hanc. unfold nodeExists. case_bool_decide as Hex.
  - exists t. split; [reflexivity|]. split; [reflexivity|]. intros p. tauto.
  - unfold mkdirSync. case_bool_decide as Hfile.
    + exfalso. apply Exists_app in Hfile as [Hfile|Hfile].
      * rewrite Forall_forall in Hanc. apply Exists_exists in Hfile as (a & Ha & Hin).
        apply (Hanc a Ha Hin).
      * apply Exists_cons in Hfile as [Hfile|Hfile]; [tauto|inversion Hfile].
    + eexists. split; [reflexivity|]. split; [reflexivity|]. intros p. cbn [dirNodes].
      rewrite elem_of_union, elem_of_list_to_set, elem_of_app, list_elem_of_singleton. tauto.
Qed.

(** X9: [createUploadsDir] makes what is missing and nothing else.  When
    [uploads] is not a file it succeeds: no file changes, the directories
    that were there stay, [uploads] is a directory, and so is each of
    [uploads/aadhar] and [uploads/signatures] unless a file has its name,
    which is taken for the directory and left alone; running it again changes
    nothing.  When [uploads] is a file it throws, unless both paths under it
    exist. *)
Theorem createUploadsDir_makes_what_is_missing (t : Tree) :
  (js "uploads" ∉ fileNodes t ->
   exists t',
     createUploadsDir t = Some t'
     /\ fileNodes t' = fileNodes t
     /\ (forall p, p ∈ dirNodes t' <->
           p ∈ dirNodes t \/ (p ∈ uploadDirs /\ p ∉ fileNodes t))
     /\ createUploadsDir t' = Some t')
  /\ (js "uploads" ∈ fileNodes t ->
      createUploadsDir t
      = if nodeExists t (js "uploads/aadhar") && nodeExists t (js "uploads/signatures")
        then Some t else None).
Proof.
  assert (A1 : ancestorsFrom [] (js "uploads") = []) by reflexivity.
  assert (A2 : ancestorsFrom [] (js "uploads/aadhar") = [js "uploads"]) by reflexivity.
  assert (A3 : ancestorsFrom [] (js "uploads/signatures") = [js "uploads"]) by reflexivity.
  assert (Hrun : forall t0, js "uploads" ∉ fileNodes t0 ->
            exists t',
              createUploadsDir t0 = Some t'
              /\ fileNodes t' = fileNodes t0
              /\ (forall p, p ∈ dirNodes t' <->
                    p ∈ dirNodes t0 \/ (p ∈ uploadDirs /\ p ∉ fileNodes t0))).
  { intros t0 Hup. unfold createUploadsDir, uploadDirs. cbn [foldl].
    destruct (ensure_directory t0 (js "uploads")) as (t1 & -> & F1 & D1);
      [rewrite A1; constructor|].
    destruct (ensure_directory t1 (js "uploads/aadhar")) as (t2 & -> & F2 & D2);
      [rewrite A2, F1; repeat constructor; exact Hup|].
    destruct (ensure_directory t2 (js "uploads/signatures")) as (t3 & -> & F3 & D3);
      [rewrite A3, F2, F1; repeat constructor; exact Hup|].
    exists t3. split; [reflexivity|]. split; [congruence|].
    assert (Ne1 : js "uploads/aadhar" <> js "uploads") by discriminate.
    assert (Ne2 : js "uploads/signatures" <> js "uploads") by discriminate.
    assert (Ne3 : js "uploads/signatures" <> js "uploads/aadhar") by discriminate.
    assert (Ha : js "uploads/aadhar" ∈ dirNodes t1 <-> js "uploads/aadhar" ∈ dirNodes t0).
    { rewrite D1, A1, elem_of_nil. tauto. }
    assert (Hs : js "uploads/signatures" ∈ dirNodes t2
                 <-> js "uploads/signatures" ∈ dirNodes t0).
    { rewrite D2, D1, A1, A2, elem_of_cons, !elem_of_nil. tauto. }
    intros p. rewrite D3, D2, D1, Ha, Hs, A1, A2, A3, F2, F1.
    rewrite !elem_of_cons, !elem_of_nil.
    destruct (decide (js "uploads" ∈ dirNodes t0));
      destruct (decide (js "uploads/aadhar" ∈ dirNodes t0));
      destruct (decide (js "uploads/signatures" ∈ dirNodes t0));
      destruct (decide (js "uploads/aadhar" ∈ fileNodes t0));
      destruct (decide (js "uploads/signatures" ∈ fileNodes t0));
      (split;
       [intros [[[H|(Hf & Hd & [H|[]])]|(Hf & Hd & [H|[H|[]]])]|(Hf & Hd & [H|[H|[]]])]
       |intros [H|[[H|[H|[H|[]]]] Hf]]]); subst; tauto. }
  split.
  - intros Hup. destruct (Hrun t Hup) as (t' & E & F & D).
    exists t'. split; [exact E|]. split; [exact F|]. split; [exact D|].
    destruct (Hrun t') as (t'' & E' & F' & D'); [rewrite F; exact Hup|].
    rewrite E'. f_equal. destruct t' as [f' d'], t'' as [f'' d'']. cbn in *.
    f_equal; [exact F'|]. apply set_eq. intros p. rewrite D'. split; [|tauto].
    intros [H|[H1 H2]]; [exact H|]. apply D. right. split; [exact H1|]. rewrite <- F. exact H2.
  - intros Hup. unfold createUploadsDir, uploadDirs. cbn [foldl].
    assert (E1 : nodeExists t (js "uploads") = true).
    { unfold nodeExists. apply bool_decide_eq_true. left. exact Hup. }
    rewrite E1.
    assert (Hmk : forall dir, ancestorsFrom [] dir = [js "uploads"] -> mkdirSync t dir = None).
    { intros dir Hd. unfold mkdirSync. rewrite Hd. rewrite bool_decide_eq_true_2; [reflexivity|].
      apply Exists_cons. left. exact Hup. }
    destruct (nodeExists t (js "uploads/aadhar")); cbn [andb].
    + destruct (nodeExists t (js "uploads/signatures")); [reflexivity|].
      apply Hmk, A3.
    + rewrite (Hmk _ A2). reflexivity.
Qed.

End UploadDirectories.

(** ** The extension of a name *)

Section Extensions.
Import Js Regex Multer Trading.

Lemma extScan_scanned (p rs done : jsstring) (st : ExtScan) :
  p = rev rs ++ done -> scanned p (length rs) st -> exists m, scanned p m (extScan rs st).
Proof.
  revert done st. induction rs as [|c rs IH]; intros done st Hp Hk.
  - exists 0%nat. exact Hk.
  - assert (Hp' : p = rev rs ++ c :: done).
    { rewrite Hp. simpl. rewrite <- app_assoc. reflexivity. }
    assert (Hc : p !! length rs = Some c).
    { rewrite Hp', lookup_app_r by (rewrite length_rev; lia).
      rewrite length_rev, Nat.sub_diag. reflexivity. }
    assert (Hlen : (length rs < length p)%nat).
    { rewrite Hp', length_app, length_rev. simpl. lia. }
    destruct Hk as [Hm Hk]. cbn [extScan length] in *.
    destruct (N.eqb_spec c 47) as [Hs|Hs].
    + destruct (matchedSlash st) eqn:Ems.
      * apply (IH (c :: done) st Hp'). split; [rewrite Ems; exact Hm|].
        rewrite (Hm eq_refl) in Hk |- *. exact Hk.
      * exists (S (length rs)). split; [discriminate|]. cbn [endPart startDot]. exact Hk.
    + apply (IH (c :: done) _ Hp'). clear IH. unfold scanned.
      destruct (endPart st) as [e|] eqn:Ee.
      * destruct Hk as (He & Hslash & Hdot).
        assert (Hms : matchedSlash st = false).
        { destruct (matchedSlash st); [specialize (Hm eq_refl); discriminate|reflexivity]. }
        clear Hm.
        assert (Hm : forall x : option nat, matchedSlash st = true -> x = None).
        { intros x. rewrite Hms. discriminate. }
        assert (Hslash' : forall j, (length rs <= j < e)%nat -> p !! j <> Some 47).
        { intros j Hj. destruct (decide (j = length rs)) as [->|Hne].
          - rewrite Hc. congruence.
          - apply Hslash. lia. }
        destruct (N.eqb_spec c 46) as [Hd|Hd].
        -- destruct (startDot st) as [d|] eqn:Ed; cbn [matchedSlash endPart startDot].
           ++ split; [apply Hm|]. rewrite ?Ee, ?Ed. split; [lia|]. split; [exact Hslash'|].
              rewrite ?Ed. destruct Hdot as (Hd1 & Hd2 & Hd3). split; [lia|]. auto.
           ++ split; [apply Hm|]. rewrite ?Ee, ?Ed. split; [lia|]. split; [exact Hslash'|].
              split; [lia|]. split; [rewrite Hc; congruence|].
              intros j Hj. apply Hdot. lia.
        -- destruct (startDot st) as [d|] eqn:Ed; cbn [matchedSlash endPart startDot].
           ++ split; [apply Hm|]. rewrite ?Ee, ?Ed. split; [lia|]. split; [exact Hslash'|].
              rewrite ?Ed. destruct Hdot as (Hd1 & Hd2 & Hd3). split; [lia|]. auto.
           ++ split; [apply Hm|]. rewrite ?Ee, ?Ed. split; [lia|]. split; [exact Hslash'|].
              intros j Hj. destruct (decide (j = length rs)) as [->|Hne].
              ** rewrite Hc. congruence.
              ** apply Hdot. lia.
      * assert (Hslash' : forall j, (length rs <= j < S (length rs))%nat -> p !! j <> Some 47).
        { intros j Hj. replace j with (length rs) by lia. rewrite Hc. congruence. }
        rewrite Hk.
        destruct (N.eqb_spec c 46) as [Hd|Hd]; cbn [matchedSlash endPart startDot].
        -- split; [discriminate|]. split; [lia|]. split; [exact Hslash'|].
           split; [lia|]. split; [rewrite Hc; congruence|]. intros j Hj. lia.
        -- split; [discriminate|]. split; [lia|]. split; [exact Hslash'|].
           intros j Hj. replace j with (length rs) by lia. rewrite Hc. congruence.
Qed.

(** [path.extname] gives nothing, or a dot and what follows the last dot of
    the last part of the path, in which there is no dot and no slash. *)
Lemma extname_shape (p : jsstring) :
  extname p = []
  \/ exists rest, extname p = 46 :: rest /\ (46 ∉ rest) /\ (47 ∉ rest).
Proof.
  unfold extname.
  set (st0 := {| startDot := None; startPart := 0%nat; endPart := None;
                 matchedSlash := true; preDotState := 0 |}).
  destruct (extScan_scanned p (rev p) [] st0) as (m & _ & Hk).
  { rewrite rev_involutive, app_nil_r. reflexivity. }
  { split; reflexivity. }
  destruct (startDot (extScan (rev p) st0)) as [d|]; [|left; reflexivity].
  destruct (endPart (extScan (rev p) st0)) as [e|]; [|left; reflexivity].
  destruct (_ || _); [left; reflexivity|]. right.
  destruct Hk as (He & Hslash & Hd & Hdot & Hdots).
  exists (take (e - d - 1) (drop (S d) p)).
  assert (Hnth : forall c, c ∈ take (e - d - 1) (drop (S d) p) ->
                   exists j, (d < j < e)%nat /\ p !! j = Some c).
  { intros c Hc. apply list_elem_of_lookup in Hc as [k Hk].
    apply lookup_take_Some in Hk as [Hk Hlt]. rewrite lookup_drop in Hk.
    exists (S d + k)%nat. split; [lia|exact Hk]. }
  split; [|split].
  - rewrite (drop_S p 46 d Hdot). destruct (e - d)%nat as [|k] eqn:Ek; [lia|].
    cbn [take]. do 2 f_equal. lia.
  - intros Hc. apply Hnth in Hc as (j & Hj & Hc). apply (Hdots j Hj Hc).
  - intros Hc. apply Hnth in Hc as (j & Hj & Hc). apply (Hslash j); [lia|exact Hc].
Qed.

(** The scan over code units that are neither dots nor slashes. *)
Lemma extScan_first_part (l tail : jsstring) :
  l <> [] -> Forall (fun c => c <> 46 /\ c <> 47) l ->
  extScan (l ++ tail)
          {| startDot := None; startPart := 0%nat; endPart := None;
             matchedSlash := true; preDotState := 0 |}
  = extScan tail
            {| startDot := None; startPart := 0%nat; endPart := Some (length (l ++ tail));
               matchedSlash := false; preDotState := 0 |}.
Proof.
  intros Hne Hall. destruct l as [|c l]; [congruence|].
  apply Forall_cons in Hall as [[Hd Hs] Hall].
  cbn [app extScan endPart startDot matchedSlash startPart preDotState length].
  destruct (N.eqb_spec c 47) as [|_]; [congruence|].
  destruct (N.eqb_spec c 46) as [|_]; [congruence|].
  generalize (S (length (l ++ tail))). intros e. clear Hne.
  induction Hall as [|c' l [Hd' Hs'] Hall IH]; [reflexivity|].
  cbn [app extScan endPart startDot matchedSlash startPart preDotState length].
  destruct (N.eqb_spec c' 47) as [|_]; [congruence|].
  destruct (N.eqb_spec c' 46) as [|_]; [congruence|].
  exact IH.
Qed.

Lemma extScan_before_the_dot (l : jsstring) (d e : nat) (pre : Z) :
  l <> [] -> Forall (fun c => c <> 46 /\ c <> 47) l ->
  extScan l {| startDot := Some d; startPart := 0%nat; endPart := Some e;
               matchedSlash := false; preDotState := pre |}
  = {| startDot := Some d; startPart := 0%nat; endPart := Some e;
       matchedSlash := false; preDotState := -1 |}.
Proof.
  intros Hne Hall. revert pre. induction l as [|c l IH]; intros pre; [congruence|].
  apply Forall_cons in Hall as [[Hd Hs] Hall].
  cbn [extScan endPart startDot matchedSlash startPart preDotState].
  destruct (N.eqb_spec c 47) as [|_]; [congruence|].
  destruct (N.eqb_spec c 46) as [|_]; [congruence|].
  destruct l as [|c' l]; [reflexivity|]. apply IH; [discriminate|exact Hall].
Qed.

(** After a name without dots and slashes that is not empty, an extension is
    found again as it is. *)
Lemma extname_after_plain (prefix ext : jsstring) :
  prefix <> [] -> Forall (fun c => c <> 46 /\ c <> 47) prefix ->
  ext = [] \/ (exists rest, ext = 46 :: rest /\ (46 ∉ rest) /\ (47 ∉ rest)) ->
  extname (prefix ++ ext) = ext.
Proof.
  intros Hne Hplain Hext.
  assert (Hrev : Forall (fun c => c <> 46 /\ c <> 47) (rev prefix)).
  { apply Forall_rev, Hplain. }
  assert (Hrne : rev prefix <> []).
  { intros E. apply (f_equal length) in E. rewrite length_rev in E.
    destruct prefix; [congruence|discriminate]. }
  unfold extname. destruct Hext as [->|(rest & -> & Hdot & Hslash)].
  - rewrite app_nil_r, <- (app_nil_r (rev prefix)).
    rewrite (extScan_first_part _ [] Hrne Hrev). reflexivity.
  - assert (Hrest : Forall (fun c => c <> 46 /\ c <> 47) (rev rest)).
    { apply Forall_rev, Forall_forall. intros c Hc. split; intros ->; contradiction. }
    rewrite rev_app_distr. cbn [rev]. rewrite <- app_assoc. cbn [app].
    assert (Hscan : extScan (rev rest ++ 46 :: rev prefix)
                      {| startDot := None; startPart := 0%nat; endPart := None;
                         matchedSlash := true; preDotState := 0 |}
                    = {| startDot := Some (length prefix); startPart := 0%nat;
                         endPart := Some (length (prefix ++ 46 :: rest));
                         matchedSlash := false; preDotState := -1 |}).
    { assert (Hl : length (prefix ++ 46 :: rest) = length (rev rest ++ 46 :: rev prefix)).
      { rewrite !length_app. cbn [length]. rewrite !length_rev. lia. }
      destruct (rev rest) as [|c r] eqn:Er.
      - cbn [app extScan endPart startDot matchedSlash startPart preDotState].
        cbn [N.eqb Pos.eqb]. rewrite Hl. cbn [app length]. rewrite length_rev.
        apply extScan_before_the_dot; assumption.
      - rewrite (extScan_first_part (c :: r) _ ltac:(discriminate) Hrest).
        cbn [extScan endPart startDot matchedSlash startPart preDotState].
        cbn [N.eqb Pos.eqb]. rewrite <- Hl, length_rev.
        apply extScan_before_the_dot; assumption. }
    rewrite Hscan. cbn [startDot endPart preDotState startPart].
    cbn [Z.eqb orb andb].
    rewrite drop_app_length, length_app, Nat.add_comm, Nat.add_sub.
    apply firstn_all.
Qed.

(** X8: the name a file is stored under keeps the extension of the name it was
    sent with, and nothing else of that name: when the field is one of the
    two declared ones and the unique suffix is made of digits and hyphens, as
    the storage draws it, the stored name has the extension of the original
    name and holds no slash, so that the file lies directly in the directory
    of its field, whatever the name it was sent with. *)
Theorem stored_name_keeps_only_the_extension (u : Upload) :
  (field u = "aadharFile" \/ field u = "signatureFile")%string ->
  Forall (fun c => isDigit c = true \/ c = 45) (uniqueSuffix u) ->
  let fname := Multer.filename (stored u) in
  fname = js (field u) ++ js "-" ++ uniqueSuffix u ++ extname (name u)
  /\ extname fname = extname (name u)
  /\ (47 ∉ fname)
  /\ Multer.path (stored u)
     = (if String.eqb (field u) "aadharFile" then js "uploads/aadhar/"
        else js "uploads/signatures/") ++ fname.
Proof.
  intros Hfield Hsuffix fname.
  set (prefix := js (field u) ++ js "-" ++ uniqueSuffix u).
  assert (Hname : fname = prefix ++ extname (name u)).
  { unfold fname, stored, prefix. cbn [Multer.filename]. rewrite <- !app_assoc. reflexivity. }
  assert (Hplain : Forall (fun c => c <> 46 /\ c <> 47) prefix).
  { unfold prefix. rewrite !Forall_app. split; [|split].
    - destruct Hfield as [-> | ->]; apply (bool_decide_unpack _); vm_compute; exact I.
    - apply (bool_decide_unpack _). vm_compute. exact I.
    - eapply Forall_impl; [exact Hsuffix|]. intros c [Hd| ->]; [|split; discriminate].
      unfold isDigit in Hd. apply andb_true_iff in Hd as [H1 H2].
      apply N.leb_le in H1, H2. split; lia. }
  assert (Hne : prefix <> []).
  { unfold prefix. destruct Hfield as [-> | ->]; discriminate. }
  split; [rewrite Hname; unfold prefix; rewrite <- !app_assoc; reflexivity|].
  split; [|split].
  - rewrite Hname. apply extname_after_plain; [exact Hne|exact Hplain|].
    apply extname_shape.
  - rewrite Hname, elem_of_app. intros [H|H].
    + rewrite Forall_forall in Hplain. destruct (Hplain 47 H) as [_ Hs]. congruence.
    + destruct (extname_shape (name u)) as [E|(rest & E & _ & Hs)]; rewrite E in H.
      * inversion H.
      * apply elem_of_cons in H as [H|H]; [discriminate|contradiction].
  - unfold fname, stored, destination. cbn [Multer.path Multer.filename].
    destruct Hfield as [-> | ->]; reflexivity.
Qed.

End Extensions.

(** ** The further properties on the sample requests *)

Section MoreWitnesses.
Import Js Multer Examples.

(** The upload middleware on the sample files, whatever the disk holds. *)
Lemma sample_uploads_stored (d : Disk) :
  Trading.uploadFields [aadharUpload; signatureUpload] d
  = (inr sampleFiles,
     list_to_set (path <$> (Trading.stored <$> [aadharUpload; signatureUpload])) ∪ d)
  /\ Trading.uploadFields [newAadharUpload] d
     = (inr [("aadharFile"%string, [Trading.stored newAadharUpload])],
        list_to_set (path <$> (Trading.stored <$> [newAadharUpload])) ∪ d).
Proof.
  split; apply uploadFields_lets_in; (split; [apply (bool_decide_unpack _); vm_compute; exact I|]);
    repeat constructor; try (vm_compute; reflexivity); vm_compute; discriminate.
Qed.

Lemma savePayment_status_decides_witness :
  (exists doc,
     Payment.savePayment sampleRuntime
       (samplePayment (JStr (js "1500")) (JStr (js "Pending"))) []
     = ({| Payment.status := 201; Payment.message := js "Payment saved successfully";
           Payment.error := None |}, [doc])
     /\ doc !! "paymentStatus"%string = Some (VStr (js "Pending"))
     /\ doc !! "createdAt"%string = Some (VDate 1700000000000))
  /\ Payment.savePayment sampleRuntime
       (samplePayment (JStr (js "1500")) (JStr (js "Refunded"))) []
     = ({| Payment.status := 500; Payment.message := js "Server Error";
           Payment.error :=
             Some [("paymentStatus"%string,
                    Mongoose.ValidatorError
                      (Mongoose.enumMessage "paymentStatus" (js "Refunded")))] |}, []).
Proof.
  assert (Hobj : forall status v,
            v ∈ [Mongoose.field (samplePayment (JStr (js "1500")) (JStr status)) "userName";
                 Mongoose.field (samplePayment (JStr (js "1500")) (JStr status)) "courseName";
                 Mongoose.field (samplePayment (JStr (js "1500")) (JStr status)) "paymentStatus";
                 Mongoose.field (samplePayment (JStr (js "1500")) (JStr status)) "userPhone";
                 Mongoose.field (samplePayment (JStr (js "1500")) (JStr status)) "userEmail"] ->
            forall o, v <> JObject o).
  { intros status v Hv o ->.
    repeat (apply elem_of_cons in Hv as [Hv|Hv]; [vm_compute in Hv; discriminate Hv|]).
    inversion Hv. }
  split.
  - destruct (proj1 (savePayment_status_decides sampleRuntime
                       (samplePayment (JStr (js "1500")) (JStr (js "Pending"))) []
                       ltac:(vm_compute; reflexivity) ltac:(vm_compute; reflexivity)
                       ltac:(vm_compute; reflexivity) ltac:(vm_compute; reflexivity)
                       ltac:(vm_compute; reflexivity) ltac:(vm_compute; reflexivity)
                       (Hobj (js "Pending")))
                ltac:(apply (bool_decide_unpack _); vm_compute; exact I))
      as (doc & E & _ & _ & _ & Hs & Hc).
    exists doc. split; [exact E|]. split; [exact Hs|exact Hc].
  - apply (proj2 (savePayment_status_decides sampleRuntime
                    (samplePayment (JStr (js "1500")) (JStr (js "Refunded"))) []
                    ltac:(vm_compute; reflexivity) ltac:(vm_compute; reflexivity)
                    ltac:(vm_compute; reflexivity) ltac:(vm_compute; reflexivity)
                    ltac:(vm_compute; reflexivity) ltac:(vm_compute; reflexivity)
                    (Hobj (js "Refunded")))).
    apply (bool_decide_unpack _). vm_compute. exact I.
Defined.

Lemma whole_amount_witness :
  Payment.cleanAmount (JStr (8377 :: js " 01,50,000")) = Finite false 150000 0
  /\ Payment.cleanAmount (JStr (decimalDigits 150000)) = Finite false 150000 0.
Proof.
  destruct (whole_amount_is_stored_as_plain_digits sampleRuntime
              (samplePayment (JStr (8377 :: js " 01,50,000")) (JStr (js "Paid"))) []
              (8377 :: js " 01,50,000") 150000
              ltac:(vm_compute; reflexivity) ltac:(vm_compute; discriminate)
              ltac:(vm_compute; reflexivity) ltac:(vm_compute; reflexivity)
              ltac:(vm_compute; lia))
    as (Hc & _ & Hback).
  split; [exact Hc|exact Hback].
Defined.

Lemma submitForm_wants_the_string_true_witness :
  UserForm.submitForm sampleRuntime tickedForm formState
  = ({| UserForm.status := 500;
        UserForm.message := js "Something went wrong. Please try again." |}, formState).
Proof.
  apply (submitForm_wants_the_string_true sampleRuntime tickedForm formState).
  vm_compute. reflexivity.
Defined.

Lemma submitted_form_witness :
  exists doc,
    UserForm.forms (snd (UserForm.submitForm sampleRuntime (formRequest (js "9876543210"))
                           formState))
    = UserForm.forms formState ++ [doc]
    /\ doc !! "agreeTerms"%string = Some (VBool true)
    /\ doc !! "createdAt"%string = Some (VDate (Mongoose.now sampleRuntime)).
Proof.
  assert (Hrun : UserForm.submitForm sampleRuntime (formRequest (js "9876543210")) formState
                 = (fst (UserForm.submitForm sampleRuntime (formRequest (js "9876543210"))
                           formState),
                    snd (UserForm.submitForm sampleRuntime (formRequest (js "9876543210"))
                           formState)))
    by (apply surjective_pairing).
  assert (Hst : UserForm.status
                  (fst (UserForm.submitForm sampleRuntime (formRequest (js "9876543210"))
                          formState)) = 201%nat)
    by (vm_compute; reflexivity).
  destruct (submitted_form_is_stored_as_cast sampleRuntime (formRequest (js "9876543210"))
              formState _ _ Hrun Hst)
    as (doc & fs & aadhar & signature & rest1 & rest2 & Hforms & _ & _ & _ & _ & _ & _
        & _ & _ & _ & Hterms & _ & Hc & _).
  exists doc. split; [exact Hforms|]. split; [exact Hterms|exact Hc].
Defined.

Lemma upload_hands_over_witness :
  exists d',
    Trading.uploadFields [aadharUpload; signatureUpload] ∅
    = (inr [("aadharFile"%string, [Trading.stored aadharUpload]);
            ("signatureFile"%string, [Trading.stored signatureUpload])], d').
Proof.
  apply (proj1 (upload_hands_over_one_file_to_a_declared_field
                  [aadharUpload; signatureUpload] ∅)).
  split.
  - apply (bool_decide_unpack _). vm_compute. exact I.
  - repeat constructor; try (vm_compute; reflexivity); vm_compute; discriminate.
Defined.

Lemma refused_parts_witness :
  exists e d',
    Trading.router sampleRuntime sampleModel
      (Trading.PutRegistration sampleId ∅ [newAadharUpload; panUpload]) sampleWorld
    = (Trading.DefaultError 500 e, {| Trading.disk := d'; Trading.db := Trading.db sampleWorld |}).
Proof.
  destruct (refused_parts_are_answered_500 sampleRuntime sampleModel ∅
              [newAadharUpload; panUpload] sampleWorld) as (e & d' & _ & _ & Hput).
  - intros [_ Hall]. apply Forall_cons in Hall as [_ Hall].
    apply Forall_cons in Hall as [[[Hf|Hf] _] _]; discriminate Hf.
  - exists e, d'. apply Hput.
Defined.

Lemma malformed_id_witness :
  Trading.statusOf
    (fst (Trading.deleteRegistration sampleModel (jsonRequest (js "not-an-id") ∅) sampleWorld))
  = 500%nat
  /\ snd (Trading.deleteRegistration sampleModel (jsonRequest (js "not-an-id") ∅) sampleWorld)
     = sampleWorld.
Proof.
  destruct (malformed_id_by_handler sampleRuntime sampleModel (js "not-an-id") sampleWorld
              ltac:(vm_compute; reflexivity)) as (_ & _ & _ & _ & Hdel).
  unfold jsonRequest. rewrite Hdel. split; reflexivity.
Defined.

Lemma missing_record_witness :
  Trading.router sampleRuntime sampleModel
    (Trading.DeleteRegistration (js "000000000000000000000001")) sampleWorld
  = (Trading.notFound, sampleWorld)
  /\ Trading.router sampleRuntime sampleModel
       (Trading.PutStatus (js "000000000000000000000001")
          (<["status"%string := JStr (js "approved")]> ∅)) sampleWorld
     = (Trading.notFound, sampleWorld).
Proof.
  destruct (missing_record_is_404_everywhere sampleRuntime sampleModel
              (js "000000000000000000000001") 1 sampleWorld
              ltac:(vm_compute; reflexivity)
              ltac:(apply lookup_singleton_ne; vm_compute; discriminate))
    as (_ & Hdel & Hstatus & _).
  split; [exact Hdel|].
  apply (Hstatus _ (js "approved")).
  - vm_compute. reflexivity.
  - apply (bool_decide_unpack _). vm_compute. exact I.
  - intros o H. vm_compute in H. discriminate H.
Defined.

Lemma created_registration_witness :
  exists w',
    Trading.router sampleRuntime sampleModel
      (Trading.PostRegistration (formBody (js "9876543210")) [aadharUpload; signatureUpload])
      emptyWorld
    = (Trading.Json 201 true (js "Registration submitted successfully!")
         (Trading.Created 1 freshRegistration), w')
    /\ Trading.router sampleRuntime sampleModel
         (Trading.GetRegistration (js "000000000000000000000001")) w'
       = (Trading.Json 200 true [] (Trading.Document freshRegistration), w').
Proof.
  pose proof (proj1 (sample_uploads_stored (Trading.disk emptyWorld))) as Hup.
  assert (Hcreate : Trading.create sampleModel sampleRuntime
                      (Trading.dataOf {| Trading.id := [];
                                         Trading.body := formBody (js "9876543210");
                                         Trading.files := Some sampleFiles |} false)
                      (Trading.db emptyWorld)
                    = inr (1, freshRegistration))
    by (vm_compute; reflexivity).
  assert (Hid : Trading.castObjectId sampleModel (js "000000000000000000000001") = Some 1)
    by (vm_compute; reflexivity).
  destruct (created_registration_can_be_fetched sampleRuntime sampleModel _ _ _ _ _ _ _
              Hup Hcreate)
    as (Hpost & _ & _ & Hget & _).
  eexists. split; [exact Hpost|]. exact (Hget _ Hid).
Defined.

Lemma uploaded_file_witness :
  Trading.dataPanFile
    (Trading.dataOf {| Trading.id := []; Trading.body := formBody (js "9876543210");
                       Trading.files := Some sampleFiles |} true)
  = None
  /\ Trading.dataFields
       (Trading.dataOf {| Trading.id := []; Trading.body := formBody (js "9876543210");
                          Trading.files := Some sampleFiles |} true)
     !! "phone"%string
     = formBody (js "9876543210") !! "phone"%string.
Proof.
  pose proof (proj1 (sample_uploads_stored ∅)) as Hup.
  destruct (uploaded_file_goes_before_the_body_field _ _ _ _ [] (formBody (js "9876543210"))
              true Hup)
    as (Hpan & Hother & _ & _).
  split; [exact Hpan|]. apply Hother; discriminate.
Defined.




Lemma createUploadsDir_witness :
  exists t',
    Trading.createUploadsDir bareTree = Some t'
    /\ Trading.fileNodes t' = Trading.fileNodes bareTree
    /\ js "uploads/signatures" ∈ Trading.dirNodes t'
    /\ Trading.createUploadsDir t' = Some t'.
Proof.
  destruct (proj1 (createUploadsDir_makes_what_is_missing bareTree)) as
    (t' & E & Hf & Hd & Hagain).
  - apply (bool_decide_unpack _). vm_compute. exact I.
  - exists t'. split; [exact E|]. split; [exact Hf|]. split; [|exact Hagain].
    apply Hd. right. split; apply (bool_decide_unpack _); vm_compute; exact I.
Defined.

Lemma stored_name_witness :
  Trading.extname (filename (Trading.stored signatureUpload)) = js ".PNG"
  /\ signaturePath = js "uploads/signatures/signatureFile-1700000000000-7919.PNG".
Proof.
  destruct (stored_name_keeps_only_the_extension signatureUpload
              ltac:(right; reflexivity)
              ltac:(apply (bool_decide_unpack _); vm_compute; exact I))
    as (_ & Hext & _ & Hpath).
  split.
  - rewrite Hext. vm_compute. reflexivity.
  - unfold signaturePath. rewrite Hpath. vm_compute. reflexivity.
Defined.

Lemma savePayment_normalizes_amount_witness :
  exists doc,
    Payment.savePayment sampleRuntime
      (samplePayment (JStr (8377 :: js "1,500")) (JStr (js "Paid"))) []
    = ({| Payment.status := 201; Payment.message := js "Payment saved successfully";
          Payment.error := None |}, [doc])
    /\ doc !! "amount"%string = Some (VStr (js "1500")).
Proof.
  assert (Hobj : forall v,
            v ∈ [Mongoose.field (samplePayment (JStr (8377 :: js "1,500")) (JStr (js "Paid")))
                                "userName";
                 Mongoose.field (samplePayment (JStr (8377 :: js "1,500")) (JStr (js "Paid")))
                                "courseName";
                 Mongoose.field (samplePayment (JStr (8377 :: js "1,500")) (JStr (js "Paid")))
                                "paymentStatus";
                 Mongoose.field (samplePayment (JStr (8377 :: js "1,500")) (JStr (js "Paid")))
                                "userPhone";
                 Mongoose.field (samplePayment (JStr (8377 :: js "1,500")) (JStr (js "Paid")))
                                "userEmail"] ->
            forall o, v <> JObject o).
  { intros v Hv o ->.
    repeat (apply elem_of_cons in Hv as [Hv|Hv]; [vm_compute in Hv; discriminate Hv|]).
    inversion Hv. }
  destruct (proj1 (proj2 (proj2 (proj2 (savePayment_normalizes_amount sampleRuntime
              (samplePayment (JStr (8377 :: js "1,500")) (JStr (js "Paid"))) []
              ltac:(vm_compute; reflexivity) ltac:(vm_compute; reflexivity)
              ltac:(vm_compute; reflexivity) ltac:(vm_compute; reflexivity))))
              ltac:(vm_compute; reflexivity) Hobj)
              ltac:(apply (bool_decide_unpack _); vm_compute; exact I))
    as (doc & E & _ & Ha).
  exists doc. split; [exact E|]. apply Ha. vm_compute. reflexivity.
Defined.

Lemma fileFilter_witness :
  Trading.fileFilter aadharUpload = None
  /\ Trading.fileFilter notesUpload
     = Some (js "Invalid file type for aadharFile. Only jpeg|jpg|png|pdf files are allowed.").
Proof.
  assert (Hn : "aadharFile"%string ∉ Trading.inheritedNames).
  { apply (bool_decide_unpack _). vm_compute. exact I. }
  split.
  - apply (proj1 (proj1 (fileFilter_looks_for_a_word aadharUpload) Hn)). split.
    + exists (js "pdf"). split; [repeat constructor|vm_compute; reflexivity].
    + exists (js "pdf"). split; [repeat constructor|vm_compute; reflexivity].
  - assert (E : exists m, Trading.fileFilter notesUpload = Some m)
      by (eexists; vm_compute; reflexivity).
    destruct E as [m E]. rewrite E. f_equal.
    exact (proj2 (proj1 (fileFilter_looks_for_a_word notesUpload) Hn) m E).
Defined.

End MoreWitnesses.

(** ** Requests one after another *)

Section Sequences.
Import Js Multer Trading.
Context (rt : Mongoose.Runtime) (M : Model).

Lemma setFlag_twice (t : jsstring) (v1 v2 : bool) (vs : VerificationStatus) :
  setFlag t v2 (setFlag t v1 vs) = setFlag t v2 vs.
Proof.
  unfold setFlag. cbn [aadharVerified panVerified signatureVerified emailVerified phoneVerified].
  f_equal; match goal with |- context [eqb t ?c] => destruct (eqb t c) end; reflexivity.
Qed.

Lemma setFlag_swap (t1 t2 : jsstring) (v1 v2 : bool) (vs : VerificationStatus) :
  t1 <> t2 -> setFlag t2 v2 (setFlag t1 v1 vs) = setFlag t1 v1 (setFlag t2 v2 vs).
Proof.
  intros Hne. unfold setFlag.
  cbn [aadharVerified panVerified signatureVerified emailVerified phoneVerified].
  f_equal;
    match goal with
    | |- context [eqb t1 ?c] =>
        destruct (eqb t1 c) eqn:E1; destruct (eqb t2 c) eqn:E2; try reflexivity;
        apply js_eqb_eq in E1, E2; congruence
    end.
Qed.

(** The body of a verification request. *)
Lemma verify_step (i : jsstring) (t : jsstring) (v : bool) (w : World) (oid : ObjectId)
    (r : Registration) :
  castObjectId M i = Some oid -> db w !! oid = Some r -> t ∈ validTypes ->
  snd (router rt M
         (PutVerify i (<["verificationType"%string := JStr t]>
                       (<["isVerified"%string := JBool v]> ∅))) w)
  = {| disk := disk w; db := <[oid := setVerification t v r]> (db w) |}.
Proof.
  intros Hid Hr Ht. unfold router, verifyRegistration. cbn [body id].
  assert (F1 : Mongoose.field (<["verificationType"%string := JStr t]>
                               (<["isVerified"%string := JBool v]> ∅)) "verificationType"
               = JStr t).
  { unfold Mongoose.field. rewrite lookup_insert_eq. reflexivity. }
  assert (F2 : Mongoose.field (<["verificationType"%string := JStr t]>
                               (<["isVerified"%string := JBool v]> ∅)) "isVerified"
               = JBool v).
  { unfold Mongoose.field. rewrite lookup_insert_ne by discriminate.
    rewrite lookup_insert_eq. reflexivity. }
  rewrite F1, F2. cbn [includesValue]. apply arrayIncludes_elem_of in Ht. rewrite Ht.
  cbn [negb]. unfold findByIdAndUpdate, verificationUpdate. cbn [toString].
  rewrite Hid, Hr. reflexivity.
Qed.

(** X19: verification requests on one record compose as settings of
    independent flags: two requests for different flags give the same state
    in either order, a request repeated changes nothing more, and of two
    requests for the same flag the later one stands. *)
Theorem verifications_commute (i : jsstring) (w : World) (oid : ObjectId)
    (r : Registration) (t1 t2 : jsstring) (v1 v2 : bool) :
  castObjectId M i = Some oid -> db w !! oid = Some r ->
  t1 ∈ validTypes -> t2 ∈ validTypes ->
  let verify (t : jsstring) (v : bool) (w : World) :=
    snd (router rt M
           (PutVerify i (<["verificationType"%string := JStr t]>
                         (<["isVerified"%string := JBool v]> ∅))) w) in
  (t1 <> t2 -> verify t2 v2 (verify t1 v1 w) = verify t1 v1 (verify t2 v2 w))
  /\ verify t1 v1 (verify t1 v1 w) = verify t1 v1 w
  /\ verify t1 v2 (verify t1 v1 w) = verify t1 v2 w.
Proof.
  intros Hid Hr H1 H2 verify.
  assert (Hstep : forall t v, t ∈ validTypes ->
            verify t v w = {| disk := disk w; db := <[oid := setVerification t v r]> (db w) |}).
  { intros t v Ht. apply verify_step; assumption. }
  assert (Hnext : forall t v t' v', t ∈ validTypes -> t' ∈ validTypes ->
            verify t' v' (verify t v w)
            = {| disk := disk w;
                 db := <[oid := setVerification t' v' (setVerification t v r)]> (db w) |}).
  { intros t v t' v' Ht Ht'. rewrite (Hstep t v Ht). unfold verify.
    rewrite (verify_step i t' v' _ oid (setVerification t v r) Hid);
      [|cbn [db]; apply lookup_insert_eq|exact Ht'].
    cbn [disk db]. rewrite insert_insert_eq. reflexivity. }
  split; [|split].
  - intros Hne. rewrite !Hnext by assumption. do 2 f_equal.
    unfold setVerification. cbn. f_equal. apply setFlag_swap. exact Hne.
  - rewrite Hnext, Hstep by assumption. do 2 f_equal.
    unfold setVerification. cbn. f_equal. apply setFlag_twice.
  - rewrite Hnext, Hstep by assumption. do 2 f_equal.
    unfold setVerification. cbn. f_equal. apply setFlag_twice.
Qed.

(** X20: a record verified on its Aadhaar, signature, email and phone, one
    request after the other, is counted among the fully verified ones by
    [GET /stats], whatever its [panVerified] flag, which those requests leave
    as it was, with everything else of the record. *)
Theorem four_verifications_make_fully_verified (i : jsstring) (w : World) (oid : ObjectId)
    (r : Registration) :
  castObjectId M i = Some oid -> db w !! oid = Some r ->
  let verify (t : jsstring) (w : World) :=
    snd (router rt M
           (PutVerify i (<["verificationType"%string := JStr t]>
                         (<["isVerified"%string := JBool true]> ∅))) w) in
  let w4 := verify (js "phoneVerified")
              (verify (js "emailVerified")
                 (verify (js "signatureVerified") (verify (js "aadharVerified") w))) in
  exists r4 statusBreakdown total today verificationStats n,
    w4 = {| disk := disk w; db := <[oid := r4]> (db w) |}
    /\ fullyVerified r4 = true
    /\ panVerified (verificationStatus r4) = panVerified (verificationStatus r)
    /\ (personal r4, aadharFile r4, panFile r4, signatureFile r4, registrationStatus r4,
        adminNotes r4, submissionDate r4)
       = (personal r, aadharFile r, panFile r, signatureFile r, registrationStatus r,
          adminNotes r, submissionDate r)
    /\ getStats rt w4
       = (Json 200 true [] (StatsData statusBreakdown total today verificationStats), w4)
    /\ (true, n) ∈ verificationStats /\ (1 <= n)%nat.
Proof.
  intros Hid Hr verify w4.
  assert (Hv : forall t, t ∈ validTypes -> forall w0 r0, db w0 !! oid = Some r0 ->
            verify t w0 = {| disk := disk w0; db := <[oid := setVerification t true r0]> (db w0) |}).
  { intros t Ht w0 r0 Hr0. apply verify_step; assumption. }
  assert (T1 : js "aadharVerified" ∈ validTypes) by (repeat constructor).
  assert (T2 : js "signatureVerified" ∈ validTypes) by (repeat constructor).
  assert (T3 : js "emailVerified" ∈ validTypes) by (repeat constructor).
  assert (T4 : js "phoneVerified" ∈ validTypes) by (repeat constructor).
  set (r1 := setVerification (js "aadharVerified") true r).
  set (r2 := setVerification (js "signatureVerified") true r1).
  set (r3 := setVerification (js "emailVerified") true r2).
  set (r4 := setVerification (js "phoneVerified") true r3).
  assert (E4 : w4 = {| disk := disk w; db := <[oid := r4]> (db w) |}).
  { unfold w4. rewrite (Hv _ T1 w r Hr).
    rewrite (Hv _ T2 _ r1) by (cbn [db]; apply lookup_insert_eq). cbn [disk db].
    rewrite insert_insert_eq.
    rewrite (Hv _ T3 _ r2) by (cbn [db]; apply lookup_insert_eq). cbn [disk db].
    rewrite insert_insert_eq.
    rewrite (Hv _ T4 _ r3) by (cbn [db]; apply lookup_insert_eq). cbn [disk db].
    rewrite insert_insert_eq. reflexivity. }
  assert (Hfull : fullyVerified r4 = true) by reflexivity.
  exists r4. eexists _, _, _, _, _.
  split; [exact E4|]. split; [exact Hfull|]. split; [reflexivity|].
  split; [reflexivity|]. split; [unfold getStats; reflexivity|].
  assert (Hpos : (1 <= occurrences true (fullyVerified <$> documents w4))%nat).
  { rewrite occurrences_by.
    assert (Hin : r4 ∈ filter (fun x => fullyVerified x = true) (documents w4)).
    { apply list_elem_of_filter. split; [exact Hfull|].
      unfold documents. apply list_elem_of_fmap. exists (oid, r4). split; [reflexivity|].
      apply elem_of_map_to_list. rewrite E4. cbn [db]. apply lookup_insert_eq. }
    destruct (filter (fun x => fullyVerified x = true) (documents w4));
      [inversion Hin|simpl; lia]. }
  split; [|exact Hpos].
  apply (groupCount_spec Bool.eqb Bool.eqb_true_iff). split; [reflexivity|exact Hpos].
Qed.

(** X21: what a request does to the records.  A record appears only by
    [POST /]; a record disappears only by [DELETE /:id] with its own id; and
    a record that stays changes only by one of the three [PUT] routes with
    its own id ([POST /] apart, whose save is the model's).  The two [GET]
    routes leave every record as it is. *)
Theorem records_change_only_where_asked (call : Call) (w : World) (oid : ObjectId) :
  let w' := snd (router rt M call w) in
  (db w !! oid = None -> db w' !! oid <> None ->
     exists b parts, call = PostRegistration b parts)
  /\ (db w !! oid <> None -> db w' !! oid = None ->
        exists i, call = DeleteRegistration i /\ castObjectId M i = Some oid)
  /\ (forall r r', db w !! oid = Some r -> db w' !! oid = Some r' -> r <> r' ->
        match call with
        | PostRegistration _ _ => True
        | PutRegistration i _ _ | PutStatus i _ | PutVerify i _ =>
            castObjectId M i = Some oid
        | _ => False
        end).
Proof.
  intros w'. subst w'.
  assert (Hup : forall i change,
            let db' := snd (findByIdAndUpdate M i change (db w)) in
            (db w !! oid = None <-> db' !! oid = None)
            /\ (forall r r', db w !! oid = Some r -> db' !! oid = Some r' -> r <> r' ->
                  castObjectId M i = Some oid)).
  { intros i change. unfold findByIdAndUpdate.
    destruct (castObjectId M i) as [o|] eqn:Ei; cbn [snd];
      [|split; [tauto|intros; congruence]].
    destruct change as [e|f]; cbn [snd]; [split; [tauto|intros; congruence]|].
    destruct (db w !! o) as [r0|] eqn:Eo; cbn [snd]; [|split; [tauto|intros; congruence]].
    destruct (decide (o = oid)) as [->|Hne].
    - rewrite lookup_insert_eq, Eo. split; [split; discriminate|]. intros; reflexivity.
    - rewrite lookup_insert_ne by exact Hne. split; [tauto|intros; congruence]. }
  destruct call as [b parts| |i|i b parts|i b|i b|i]; cbn [router].
  - split; [eauto|]. split; [|intros; exact I].
    intros Hs Hn. exfalso. apply Hs. clear Hs.
    unfold behindUpload in Hn. destruct (uploadFields parts (disk w)) as [[e|fs] d];
      cbn [snd db] in Hn; [exact Hn|].
    unfold createRegistration in Hn. cbn [db] in Hn.
    destruct (create M rt _ (db w)) as [e|[o reg]]; cbn [snd db] in Hn; [exact Hn|].
    destruct (decide (o = oid)) as [->|Hne];
      [rewrite lookup_insert_eq in Hn; discriminate|].
    rewrite lookup_insert_ne in Hn by exact Hne. exact Hn.
  - unfold getStats. cbn [snd]. repeat split; intros; congruence.
  - assert (E : snd (getRegistration M {| id := i; body := ∅; files := None |} w) = w).
    { unfold getRegistration. destruct (findById M _ (db w)) as [e|[? [?|]]]; try reflexivity.
      destruct (kindOf e) as [k|]; [destruct (eqb k _)|]; reflexivity. }
    rewrite E. repeat split; intros; congruence.
  - unfold behindUpload. destruct (uploadFields parts (disk w)) as [[e|fs] d]; cbn [snd db];
      [repeat split; intros; congruence|].
    unfold updateRegistration. cbn [db id].
    specialize (Hup i (update M rt (dataOf {| id := i; body := b; files := Some fs |} true))).
    cbn zeta in Hup. destruct Hup as [Hnone Hchg].
    destruct (findById M i (db w)) as [e|[o [reg|]]] eqn:Ef; cbn [snd db];
      [repeat split; intros; congruence| |repeat split; intros; congruence].
    destruct (findByIdAndUpdate M i _ (db w)) as [[e|[[o' reg']|]] db'] eqn:Eu;
      cbn [snd db] in *; try (repeat split; intros; congruence).
    split; [intros H0 H1; exfalso; apply H1, Hnone, H0|].
    split; [intros H0 H1; exfalso; apply H0, Hnone, H1|]. exact Hchg.
  - unfold updateStatus. cbn [body id].
    destruct (negb _); cbn [snd]; [repeat split; intros; congruence|].
    specialize (Hup i (statusUpdate (Mongoose.field b "status") (Mongoose.field b "adminNotes"))).
    cbn zeta in Hup. destruct Hup as [Hnone Hchg].
    destruct (findByIdAndUpdate M i _ (db w)) as [[e|[[o' reg']|]] db'] eqn:Eu;
      cbn [snd db] in *; try (repeat split; intros; congruence).
    split; [intros H0 H1; exfalso; apply H1, Hnone, H0|].
    split; [intros H0 H1; exfalso; apply H0, Hnone, H1|]. exact Hchg.
  - unfold verifyRegistration. cbn [body id].
    destruct (negb _); cbn [snd]; [repeat split; intros; congruence|].
    specialize (Hup i (verificationUpdate M (Mongoose.field b "verificationType")
                                           (Mongoose.field b "isVerified"))).
    cbn zeta in Hup. destruct Hup as [Hnone Hchg].
    destruct (findByIdAndUpdate M i _ (db w)) as [[e|[[o' reg']|]] db'] eqn:Eu;
      cbn [snd db] in *; try (repeat split; intros; congruence).
    split; [intros H0 H1; exfalso; apply H1, Hnone, H0|].
    split; [intros H0 H1; exfalso; apply H0, Hnone, H1|]. exact Hchg.
  - unfold deleteRegistration, findById. cbn [id].
    destruct (castObjectId M i) as [o|] eqn:Ei; cbn [snd];
      [|repeat split; intros; congruence].
    destruct (db w !! o) as [reg|] eqn:Eo; cbn [snd db];
      [|repeat split; intros; congruence].
    destruct (decide (o = oid)) as [->|Hne].
    + rewrite lookup_delete_eq. split; [intros; congruence|].
      split; [intros; eauto|intros; congruence].
    + rewrite lookup_delete_ne by exact Hne. repeat split; intros; congruence.
Qed.

End Sequences.

Section StrayCharacters.
Import Js Regex Mongoose Multer Payment.
Context (rt : Runtime).

Lemma takeWhile_until (p : N -> bool) (ds : jsstring) (c : N) (rest : jsstring) :
  forallb p ds = true -> p c = false ->
  takeWhile p (ds ++ c :: rest) = ds /\ dropWhile p (ds ++ c :: rest) = c :: rest.
Proof.
  intros Hd Hc. induction ds as [|x ds IH]; simpl.
  - rewrite Hc. auto.
  - simpl in Hd. apply andb_true_iff in Hd as [Hx Hs]. rewrite Hx.
    destruct (IH Hs) as [-> ->]. auto.
Qed.

(** [parseFloat] stops at the first character that cannot go on a number. *)
Lemma parseFloat_digits_then (ds : jsstring) (c : N) (rest : jsstring) :
  ds <> [] -> forallb isDigit ds = true ->
  isDigit c = false -> c <> 46 -> c <> 101 -> c <> 69 ->
  parseFloat (ds ++ c :: rest) = Finite false (digitsValue ds) 0.
Proof.
  intros Hne Hd Hc Hdot He HE. destruct ds as [|x ds]; [congruence|].
  pose proof Hd as Hall. simpl in Hd. apply andb_true_iff in Hd as [Hx _].
  unfold isDigit in Hx. apply andb_true_iff in Hx as [H1 H2].
  apply N.leb_le in H1, H2.
  unfold parseFloat. rewrite <- app_comm_cons.
  assert (Hw : isWhiteSpace x = false).
  { unfold isWhiteSpace.
    repeat match goal with
    | |- context [(?a =? ?b)] => destruct (N.eqb_spec a b); [lia|]
    | |- context [(?a <=? ?b)] => destruct (N.leb_spec a b); [try lia|try lia]
    end; reflexivity. }
  cbn [dropWhile]. rewrite Hw.
  assert (Hs : match x :: ds ++ c :: rest with
               | 43 :: u => (false, u)
               | 45 :: u => (true, u)
               | _ => (false, x :: ds ++ c :: rest)
               end = (false, x :: ds ++ c :: rest)).
  { destruct x as [|p]; [reflexivity|].
    do 6 (destruct p as [p|p|]; try reflexivity; try lia). }
  rewrite Hs.
  assert (Hi : startsWith (js "Infinity") (x :: ds ++ c :: rest) = false).
  { change (js "Infinity") with (73 :: js "nfinity"). cbn [startsWith].
    destruct (N.eqb_spec 73 x); [lia|reflexivity]. }
  rewrite Hi. unfold parseDecimal. rewrite app_comm_cons.
  destruct (takeWhile_until isDigit (x :: ds) c rest Hall Hc) as [-> ->].
  assert (Hr : match c :: rest with
               | 46 :: r => (takeWhile isDigit r, dropWhile isDigit r)
               | _ => ([], c :: rest)
               end = ([], c :: rest)).
  { destruct c as [|p]; [reflexivity|].
    do 6 (destruct p as [p|p|]; try reflexivity; try congruence). }
  rewrite Hr, app_nil_r. cbn [length]. unfold parseExponent.
  destruct (N.eqb_spec c 101); [contradiction|].
  destruct (N.eqb_spec c 69); [contradiction|]. reflexivity.
Qed.

(** X22: an amount is read up to the first character that cannot go on a
    number, and the rest is dropped without complaint: when the text, its
    rupee signs, commas and white space taken out, is a run of digits and
    then a character other than a digit, a point or an [e], the amount is the
    number the digits spell, the request is not refused for its amount, and a
    payment stored for it holds those digits (of at most 15, without their
    leading zeros). *)
Theorem amount_is_read_up_to_the_first_stray_character
    (body : gmap string JsValue) (payments : list (gmap string Stored))
    (s ds : jsstring) (c : N) (rest : jsstring) :
  field body "amount" = JStr s ->
  stripCurrency s = ds ++ c :: rest ->
  ds <> [] -> forallb isDigit ds = true ->
  isDigit c = false -> c <> 46 -> c <> 101 -> c <> 69 ->
  (length (decimalDigits (digitsValue ds)) <= 15)%nat ->
  cleanAmount (JStr s) = Finite false (digitsValue ds) 0
  /\ fst (savePayment rt body payments) <> invalidAmountReply
  /\ (forall doc, snd (savePayment rt body payments) = payments ++ [doc] ->
        doc !! "amount"%string = Some (VStr (decimalDigits (digitsValue ds)))).
Proof.
  intros Ha Hs Hne Hd Hc Hdot He HE Hlen.
  assert (Hclean : cleanAmount (JStr s) = Finite false (digitsValue ds) 0).
  { unfold cleanAmount. rewrite Hs. apply parseFloat_digits_then; assumption. }
  split; [exact Hclean|].
  assert (Hcases :
    (exists k, k ∈ ["userName"; "courseName"; "amount"; "paymentStatus"]%string
               /\ truthy (field body k) = false)
    \/ (forall k, k ∈ ["userName"; "courseName"; "amount"; "paymentStatus"]%string ->
          truthy (field body k) = true)).
  { destruct (truthy (field body "userName")) eqn:E1;
      [|left; eexists; split; [|exact E1]; repeat constructor].
    destruct (truthy (field body "courseName")) eqn:E2;
      [|left; eexists; split; [|exact E2]; repeat constructor].
    destruct (truthy (field body "amount")) eqn:E3;
      [|left; eexists; split; [|exact E3]; repeat constructor].
    destruct (truthy (field body "paymentStatus")) eqn:E4;
      [|left; eexists; split; [|exact E4]; repeat constructor].
    right. intros k Hk. repeat (apply elem_of_cons in Hk as [->|Hk]; [assumption|]).
    inversion Hk. }
  destruct Hcases as [(k & Hk & E)|Ht].
  - rewrite (savePayment_unchecked rt body payments k Hk E). cbn [fst snd].
    split; [discriminate|]. intros doc Hdoc.
    apply (f_equal length) in Hdoc. rewrite length_app in Hdoc. simpl in Hdoc. lia.
  - destruct (savePayment_checked rt body payments
                (Ht "userName"%string ltac:(repeat constructor))
                (Ht "courseName"%string ltac:(repeat constructor))
                (Ht "amount"%string ltac:(repeat constructor))
                (Ht "paymentStatus"%string ltac:(repeat constructor)))
      as [[Hnan E]|[_ [(doc' & E & Hamount & _)|[errors E]]]].
    + rewrite Ha, Hclean in Hnan. discriminate.
    + rewrite E. cbn [fst snd]. split; [discriminate|]. intros doc Hdoc.
      apply app_inv_head in Hdoc. injection Hdoc as ->.
      rewrite Hamount, Ha, Hclean, numberToString_whole by lia. reflexivity.
    + rewrite E. cbn [fst snd]. split; [discriminate|]. intros doc Hdoc.
      apply (f_equal length) in Hdoc. rewrite length_app in Hdoc. simpl in Hdoc. lia.
Qed.

End StrayCharacters.

(** ** Sequences of sample requests *)

Section SequenceWitnesses.
Import Js Multer Examples.

Lemma verifications_commute_witness :
  snd (Trading.router sampleRuntime sampleModel
         (Trading.PutVerify sampleId
            (<["verificationType"%string := JStr (js "panVerified")]>
             (<["isVerified"%string := JBool true]> ∅)))
         (snd (Trading.router sampleRuntime sampleModel
                 (Trading.PutVerify sampleId
                    (<["verificationType"%string := JStr (js "emailVerified")]>
                     (<["isVerified"%string := JBool false]> ∅)))
                 sampleWorld)))
  = snd (Trading.router sampleRuntime sampleModel
           (Trading.PutVerify sampleId
              (<["verificationType"%string := JStr (js "emailVerified")]>
               (<["isVerified"%string := JBool false]> ∅)))
           (snd (Trading.router sampleRuntime sampleModel
                   (Trading.PutVerify sampleId
                      (<["verificationType"%string := JStr (js "panVerified")]>
                       (<["isVerified"%string := JBool true]> ∅)))
                   sampleWorld))).
Proof.
  assert (Hid : Trading.castObjectId sampleModel sampleId = Some sampleOid)
    by (vm_compute; reflexivity).
  assert (Hr : Trading.db sampleWorld !! sampleOid = Some sampleRegistration)
    by apply lookup_singleton_eq.
  assert (H1 : js "emailVerified" ∈ Trading.validTypes) by (repeat constructor).
  assert (H2 : js "panVerified" ∈ Trading.validTypes) by (repeat constructor).
  assert (Hne : js "emailVerified" <> js "panVerified") by (vm_compute; discriminate).
  exact (proj1 (verifications_commute sampleRuntime sampleModel sampleId sampleWorld
                  sampleOid sampleRegistration (js "emailVerified") (js "panVerified")
                  false true Hid Hr H1 H2) Hne).
Defined.

Lemma four_verifications_witness :
  exists r4,
    snd (Trading.router sampleRuntime sampleModel
           (Trading.PutVerify sampleId
              (<["verificationType"%string := JStr (js "phoneVerified")]>
               (<["isVerified"%string := JBool true]> ∅)))
           (snd (Trading.router sampleRuntime sampleModel
                   (Trading.PutVerify sampleId
                      (<["verificationType"%string := JStr (js "emailVerified")]>
                       (<["isVerified"%string := JBool true]> ∅)))
                   (snd (Trading.router sampleRuntime sampleModel
                           (Trading.PutVerify sampleId
                              (<["verificationType"%string := JStr (js "signatureVerified")]>
                               (<["isVerified"%string := JBool true]> ∅)))
                           (snd (Trading.router sampleRuntime sampleModel
                                   (Trading.PutVerify sampleId
                                      (<["verificationType"%string
                                         := JStr (js "aadharVerified")]>
                                       (<["isVerified"%string := JBool true]> ∅)))
                                   sampleWorld)))))))
    = {| Trading.disk := Trading.disk sampleWorld;
         Trading.db := <[sampleOid := r4]> (Trading.db sampleWorld) |}
    /\ Trading.fullyVerified r4 = true
    /\ Trading.panVerified (Trading.verificationStatus r4) = false.
Proof.
  assert (Hid : Trading.castObjectId sampleModel sampleId = Some sampleOid)
    by (vm_compute; reflexivity).
  assert (Hr : Trading.db sampleWorld !! sampleOid = Some sampleRegistration)
    by apply lookup_singleton_eq.
  destruct (four_verifications_make_fully_verified sampleRuntime sampleModel sampleId
              sampleWorld sampleOid sampleRegistration Hid Hr)
    as (r4 & _ & _ & _ & _ & _ & E & Hfull & Hpan & _).
  exists r4. split; [exact E|]. split; [exact Hfull|exact Hpan].
Defined.

Lemma records_change_witness :
  exists i,
    Trading.DeleteRegistration sampleId = Trading.DeleteRegistration i
    /\ Trading.castObjectId sampleModel i = Some sampleOid.
Proof.
  assert (Hr : Trading.db sampleWorld !! sampleOid <> None).
  { change (Trading.db sampleWorld) with ({[sampleOid := sampleRegistration]}
                                           : gmap Trading.ObjectId Trading.Registration).
    rewrite lookup_singleton_eq. discriminate. }
  assert (Hgone : Trading.db (snd (Trading.router sampleRuntime sampleModel
                                     (Trading.DeleteRegistration sampleId) sampleWorld))
                  !! sampleOid = None).
  { assert (Hid : Trading.castObjectId sampleModel sampleId = Some sampleOid)
      by (vm_compute; reflexivity).
    unfold Trading.router, Trading.deleteRegistration, Trading.findById.
    cbn [Trading.id]. rewrite Hid.
    change (Trading.db sampleWorld) with ({[sampleOid := sampleRegistration]}
                                           : gmap Trading.ObjectId Trading.Registration).
    rewrite lookup_singleton_eq. cbn [snd Trading.db]. apply lookup_delete_eq. }
  exact (proj1 (proj2 (records_change_only_where_asked sampleRuntime sampleModel
                         (Trading.DeleteRegistration sampleId) sampleWorld sampleOid))
               Hr Hgone).
Defined.

Lemma stray_character_witness :
  Payment.cleanAmount (JStr (8377 :: js "1,500/-")) = Finite false 1500 0
  /\ fst (Payment.savePayment sampleRuntime
            (samplePayment (JStr (8377 :: js "1,500/-")) (JStr (js "Paid"))) [])
     <> Payment.invalidAmountReply.
Proof.
  destruct (amount_is_read_up_to_the_first_stray_character sampleRuntime
              (samplePayment (JStr (8377 :: js "1,500/-")) (JStr (js "Paid"))) []
              (8377 :: js "1,500/-") (js "1500") 47 (js "-")
              ltac:(vm_compute; reflexivity) ltac:(vm_compute; reflexivity)
              ltac:(vm_compute; discriminate) ltac:(vm_compute; reflexivity)
              ltac:(vm_compute; reflexivity) ltac:(discriminate) ltac:(discriminate)
              ltac:(discriminate) ltac:(vm_compute; lia))
    as (Hc & Hreply & _).
  split; [exact Hc|exact Hreply].
Defined.

End SequenceWitnesses.
